(** * SmartThings NG: the device broker and its platform probes

    A shallow embedding of the parts of the Home Assistant integration
    [custom_components/smartthingsng] that carry logic of their own:

    - the capability probes of the platform modules ([button.py],
      [media_player.py], [number.py], [select.py], [vacuum.py]);
    - [DeviceBroker._assign_capabilities], [get_assigned], [any_assigned]
      and [_event_handler] ([__init__.py]);
    - [SmartThingsEntity.available], [async_get_entry_scenes],
      [send_command_service] and [SmartThingsButton.async_press].

    Python values are modelled as follows.  A [dict] whose iteration order
    is observable is an insertion-ordered association list ([Py.dict]); the
    broker's device table and the set of updated device ids, of which only
    lookups and membership are observed, are stdpp's [gmap] and [gset].  A
    Python list is a Rocq list.  External calls (the cloud client, the
    status object of a device) are parameters of the functions that use
    them.  Effects on the host (log records, bus events, dispatcher signals)
    are recorded in program order in a trace. *)

From stdpp Require Import gmap strings list fin_maps.

Open Scope string_scope.
Open Scope list_scope.

(** ** Python preliminaries *)

Module Py.

(** Values that travel through events, attributes and log records. *)
Inductive value :=
| VNone
| VBool (b : bool)
| VInt (n : Z)
| VStr (s : string)
| VList (l : list string).

#[global] Instance value_eq_dec : EqDecision value.
Proof. solve_decision. Defined.

(** Truthiness of a string: only the empty string is falsy. *)
Definition truthy (s : string) : bool := negb (String.eqb s "").

(** [x in l] for a list of strings. *)
Definition contains (x : string) (l : list string) : bool :=
  bool_decide (x ∈ l).

(** [l.remove(x)]: drops the first occurrence of [x].  Python raises
    [ValueError] when [x] is absent; every call in the sources is guarded
    by [x in l], and the model leaves the list as it is in that case. *)
Fixpoint remove (x : string) (l : list string) : list string :=
  match l with
  | [] => []
  | y :: l' => if decide (x = y) then l' else y :: remove x l'
  end.

(** Insertion-ordered dictionaries with string keys. *)
Definition dict (V : Type) : Type := list (string * V).

Fixpoint get {V} (k : string) (d : dict V) : option V :=
  match d with
  | [] => None
  | (k', v) :: d' => if decide (k = k') then Some v else get k d'
  end.

(** [d[k] = v]: an existing key keeps its position, a new key is
    appended. *)
Fixpoint set {V} (k : string) (v : V) (d : dict V) : dict V :=
  match d with
  | [] => [(k, v)]
  | (k', v') :: d' =>
      if decide (k = k') then (k, v) :: d' else (k', v') :: set k v d'
  end.

Definition keys {V} (d : dict V) : list string := fst <$> d.
Definition values {V} (d : dict V) : list V := snd <$> d.

(** Exceptions that the modelled code distinguishes. *)
Inductive exn :=
| ClientResponseError (status : Z)
| OtherException (name : string).

#[global] Instance exn_eq_dec : EqDecision exn.
Proof. solve_decision. Defined.

(** How a call ends. *)
Inductive outcome (A : Type) :=
| Returned (a : A)
| Raised (e : exn).
Arguments Returned {A} a.
Arguments Raised {A} e.

End Py.

(** ** Constants of the client libraries

    [Capability], [Attribute] and [EVENT_TYPE_DEVICE] come from the
    [pysmartthings] and [pysmartapp] packages, [HTTPStatus] from Python.
    Each capability constant is the camel-case identifier the SmartThings
    API uses for it; the development relies only on their being pairwise
    distinct strings. *)

Module Capability.
Definition scene_control := "sceneControl".
Definition button := "button".
Definition momentary := "momentary".
Definition panic_alarm := "panicAlarm".
Definition water_sensor := "waterSensor".
Definition smoke_detector := "smokeDetector".
Definition carbon_monoxide_detector := "carbonMonoxideDetector".
Definition chime := "chime".
Definition media_input_source := "mediaInputSource".
Definition washer_operating_state := "washerOperatingState".
Definition dryer_operating_state := "dryerOperatingState".
Definition dishwasher_operating_state := "dishwasherOperatingState".
Definition oven_operating_state := "ovenOperatingState".
Definition robot_cleaner_cleaning_mode := "robotCleanerCleaningMode".
Definition robot_cleaner_movement := "robotCleanerMovement".
Definition tv_channel := "tvChannel".
Definition audio_volume := "audioVolume".
Definition media_playback := "mediaPlayback".
Definition refrigeration_setpoint := "refrigerationSetpoint".
Definition oven_setpoint := "ovenSetpoint".
Definition infrared_level := "infraredLevel".
Definition washer_mode := "washerMode".
Definition dryer_mode := "dryerMode".
Definition air_conditioner_mode := "airConditionerMode".
Definition dishwasher_mode := "dishwasherMode".
Definition oven_mode := "ovenMode".
Definition switch := "switch".
Definition robot_cleaner_turbo_mode := "robotCleanerTurboMode".
Definition battery := "battery".
End Capability.

Module Attribute.
Definition button := "button".
Definition volume := "volume".
Definition refrigeration_setpoint := "refrigerationSetpoint".
Definition oven_setpoint := "ovenSetpoint".
Definition infrared_level := "infraredLevel".
Definition washer_mode := "washerMode".
Definition dryer_mode := "dryerMode".
Definition air_conditioner_mode := "airConditionerMode".
Definition dishwasher_mode := "dishwasherMode".
Definition oven_mode := "ovenMode".
Definition robot_cleaner_cleaning_mode := "robotCleanerCleaningMode".
Definition robot_cleaner_movement := "robotCleanerMovement".
Definition robot_cleaner_turbo_mode := "robotCleanerTurboMode".
Definition input_source := "inputSource".
Definition battery := "battery".
End Attribute.

Definition EVENT_TYPE_DEVICE := "DEVICE_EVENT".

Module HTTPStatus.
Definition FORBIDDEN : Z := 403.
End HTTPStatus.

(** Modelled from the spec: [const.py] is not among the sources.
    [EVENT_BUTTON] is the type of the domain button event and
    [SIGNAL_SMARTTHINGS_UPDATE] the update signal of the push-event
    dispatch; the strings stand for their values, of which nothing but the
    names is used.  [PLATFORMS], the third constant of [const.py] that the
    broker reads, is a parameter of the assignment. *)
Definition EVENT_BUTTON := "smartthingsng.button".
Definition SIGNAL_SMARTTHINGS_UPDATE := "smartthingsng_update".

(** ** Platform modules

    A capability probe takes the pool of capabilities and answers with the
    list it supports, or [None].  Every probe of the sources builds its
    answer as a new list, so the answer never aliases the pool.  A module is
    represented by the probes it binds at top level, under their names. *)

Definition probe : Type := list string → option (list string).
Definition module : Type := Py.dict probe.

(** [hasattr(m, name)] and [getattr(m, name)] in one lookup. *)
Definition getattr (m : module) (name : string) : option probe := Py.get name m.

(** [supported if supported else None]. *)
Definition non_empty_or_None (supported : list string) : option (list string) :=
  match supported with
  | [] => None
  | _ => Some supported
  end.

(** Of each capability table only the keys are read by the probes; a table
    is given by its keys in declaration order. *)

Module Button.
Definition CAPABILITY_TO_BUTTON : list string :=
  [ Capability.scene_control; Capability.button; Capability.momentary;
    Capability.panic_alarm; Capability.water_sensor;
    Capability.smoke_detector; Capability.carbon_monoxide_detector;
    Capability.chime; Capability.media_input_source;
    Capability.washer_operating_state; Capability.dryer_operating_state;
    Capability.dishwasher_operating_state; Capability.oven_operating_state;
    Capability.robot_cleaner_cleaning_mode ].

Definition get_capabilities (capabilities : list string) : option (list string) :=
  non_empty_or_None
    (filter (λ capability, capability ∈ capabilities) CAPABILITY_TO_BUTTON).

Definition namespace : module := [("get_capabilities", get_capabilities)].
End Button.

Module MediaPlayer.
Definition CAPABILITY_TO_MEDIA_PLAYER : list string :=
  [ Capability.tv_channel; Capability.audio_volume;
    Capability.media_playback; Capability.media_input_source ].

Definition get_capabilities (capabilities : list string) : option (list string) :=
  non_empty_or_None
    (filter (λ capability, capability ∈ capabilities) CAPABILITY_TO_MEDIA_PLAYER).

Definition namespace : module := [("get_capabilities", get_capabilities)].
End MediaPlayer.

Module Number.
Definition CAPABILITY_TO_NUMBER : list string :=
  [ Capability.audio_volume; Capability.refrigeration_setpoint;
    Capability.oven_setpoint; Capability.infrared_level ].

Definition get_capabilities (capabilities : list string) : option (list string) :=
  non_empty_or_None
    (filter (λ capability, capability ∈ capabilities) CAPABILITY_TO_NUMBER).

Definition namespace : module := [("get_capabilities", get_capabilities)].
End Number.

Module Select.
Definition CAPABILITY_TO_SELECT : list string :=
  [ Capability.washer_mode; Capability.dryer_mode;
    Capability.air_conditioner_mode; Capability.dishwasher_mode;
    Capability.oven_mode; Capability.robot_cleaner_cleaning_mode;
    Capability.media_input_source ].

Definition get_capabilities (capabilities : list string) : option (list string) :=
  non_empty_or_None
    (filter (λ capability, capability ∈ capabilities) CAPABILITY_TO_SELECT).

Definition namespace : module := [("get_capabilities", get_capabilities)].
End Select.

Module Vacuum.
Definition CAPABILITY_TO_VACUUM : list string :=
  [ Capability.robot_cleaner_cleaning_mode; Capability.robot_cleaner_movement ].

(** Iterates the pool, not the table. *)
Definition get_vacuum_capabilities (capabilities : list string) : option (list string) :=
  non_empty_or_None
    (filter (λ cap, cap ∈ CAPABILITY_TO_VACUUM) capabilities).

Definition namespace : module :=
  [("get_vacuum_capabilities", get_vacuum_capabilities)].
End Vacuum.

(** [importlib.import_module(f".{platform}", __package__)] for the five
    platform modules above.  The other platform modules of the package are
    not part of this development; a name outside the five resolves to an
    empty namespace, and the results below that use [package_import_module]
    only list platforms among the five. *)
Definition package_import_module (platform : string) : module :=
  if decide (platform = "button") then Button.namespace
  else if decide (platform = "media_player") then MediaPlayer.namespace
  else if decide (platform = "number") then Number.namespace
  else if decide (platform = "select") then Select.namespace
  else if decide (platform = "vacuum") then Vacuum.namespace
  else [].

(** ** Devices *)

Module Device.
Record t := mk {
  device_id : string;
  label : string;
  capabilities : list string;
  (** The status object, seen through its attributes. *)
  status : gmap string Py.value;
}.
End Device.

(** ** Capability slot assignment *)

Section Assign.

(** The platform list of [const.py] and the module loader. *)
Variable PLATFORMS : list string.
Variable import_module : string → module.

(** The state of the inner loops: the remaining pool and the slots. *)
Definition pool_slots : Type := list string * Py.dict string.

(** [for capability in assigned: ...] *)
Fixpoint draw_down (platform : string) (assigned : list string)
    (st : pool_slots) : pool_slots :=
  match assigned with
  | [] => st
  | capability :: assigned' =>
      let '(capabilities, slots) := st in
      if Py.contains capability capabilities
      then draw_down platform assigned'
             (Py.remove capability capabilities,
              Py.set capability platform slots)
      else draw_down platform assigned' st
  end.

(** The body of [for platform in PLATFORMS: ...]. *)
Definition assign_platform (st : pool_slots) (platform : string) : pool_slots :=
  let platform_module := import_module platform in
  match getattr platform_module "get_capabilities" with
  | None => st
  | Some get_capabilities =>
      match get_capabilities (fst st) with
      | None => st
      | Some [] => st
      | Some assigned => draw_down platform assigned st
      end
  end.

(** The platform loop over a list of platforms, from a given pool. *)
Definition assign_platforms (platforms : list string)
    (capabilities : list string) : pool_slots :=
  fold_left assign_platform platforms (capabilities, []).

(** The slots of one device. *)
Definition device_slots (device : Device.t) : Py.dict string :=
  snd (assign_platforms PLATFORMS (Device.capabilities device)).

Definition _assign_capabilities (devices : list Device.t)
    : Py.dict (Py.dict string) :=
  fold_left
    (λ assignments device,
       Py.set (Device.device_id device) (device_slots device) assignments)
    devices [].

(** The pool offered to the platform that follows [before] in the
    iteration. *)
Definition pool_offered (before : list string) (capabilities : list string)
    : list string :=
  fst (assign_platforms before capabilities).

(** [platform]'s probe, asked about [pool], lists [capability]. *)
Definition probe_returns (platform : string) (pool : list string)
    (capability : string) : bool :=
  match getattr (import_module platform) "get_capabilities" with
  | None => false
  | Some get_capabilities =>
      match get_capabilities pool with
      | None => false
      | Some assigned => Py.contains capability assigned
      end
  end.

End Assign.


(** ** Effects on the host *)

Inductive log_level := DEBUG | INFO | ERROR | EXCEPTION.

Inductive log_arg :=
| AStr (s : string)
| AValue (v : Py.value)
| AList (l : list string)
| ADict (d : Py.dict Py.value)
| AExn (e : Py.exn).

Inductive effect :=
| Log (level : log_level) (msg : string) (args : list log_arg)
| BusFire (event_type : string) (event_data : Py.dict Py.value)
| DispatcherSend (signal : string) (device_ids : gset string).

(** ** Push events *)

Module Event.
Record t := mk {
  event_type : string;
  location_id : string;
  device_id : string;
  component_id : string;
  capability : string;
  attribute : string;
  value : Py.value;
  data : Py.value;
}.
End Event.

Module Request.
Record t := mk {
  installed_app_id : string;
  events : list Event.t;
}.
End Request.

(** ** The device broker *)

Module DeviceBroker.

Record t := mk {
  _installed_app_id : string;
  _assignments : Py.dict (Py.dict string);
  devices : gmap string Device.t;
}.

(** [{device.device_id: device for device in devices}] *)
Definition devices_by_id (devices : list Device.t) : gmap string Device.t :=
  fold_left (λ table device, <[Device.device_id device := device]> table)
    devices ∅.

Definition __init__ (PLATFORMS : list string)
    (import_module : string → module) (installed_app_id : string)
    (devices : list Device.t) : t :=
  {| _installed_app_id := installed_app_id;
     _assignments := _assign_capabilities PLATFORMS import_module devices;
     devices := devices_by_id devices |}.

Definition get_assigned (self : t) (device_id platform : string) : list string :=
  let slots := default [] (Py.get device_id (_assignments self)) in
  fst <$> filter (λ item, snd item = platform) slots.

(** [any(value for value in slots.values() if value == platform)]:
    some value that passes the filter is truthy. *)
Definition any_assigned (self : t) (device_id platform : string) : bool :=
  let slots := default [] (Py.get device_id (_assignments self)) in
  existsb Py.truthy (filter (λ value, value = platform) (Py.values slots)).

Section EventHandler.

(** [DeviceStatus.apply_attribute_update(component_id, capability,
    attribute, value, data=data)] of the client library, as a function
    on the attributes of the status object. *)
Variable apply_attribute_update :
  gmap string Py.value → string → string → string → Py.value → Py.value →
  gmap string Py.value.

Definition button_event_data (evt : Event.t) (device : Device.t)
    : Py.dict Py.value :=
  [ ("component_id", Py.VStr (Event.component_id evt));
    ("device_id", Py.VStr (Event.device_id evt));
    ("location_id", Py.VStr (Event.location_id evt));
    ("value", Event.value evt);
    ("name", Py.VStr (Device.label device));
    ("data", Event.data evt) ].

Definition push_update_data (evt : Event.t) : Py.dict Py.value :=
  [ ("location_id", Py.VStr (Event.location_id evt));
    ("device_id", Py.VStr (Event.device_id evt));
    ("component_id", Py.VStr (Event.component_id evt));
    ("capability", Py.VStr (Event.capability evt));
    ("attribute", Py.VStr (Event.attribute evt));
    ("value", Event.value evt);
    ("data", Event.data evt) ].

(** The state of the event loop: the device table (whose devices are
    mutated in place), [updated_devices], and the effects so far. *)
Record loop_state := mk_loop {
  loop_devices : gmap string Device.t;
  updated_devices : gset string;
  trace : list effect;
}.

(** The body of [for evt in req.events: ...]. *)
Definition handle_event (st : loop_state) (evt : Event.t) : loop_state :=
  if negb (String.eqb (Event.event_type evt) EVENT_TYPE_DEVICE) then st
  else
    match loop_devices st !! Event.device_id evt with
    | None => st
    | Some device =>
        let device' :=
          {| Device.device_id := Device.device_id device;
             Device.label := Device.label device;
             Device.capabilities := Device.capabilities device;
             Device.status :=
               apply_attribute_update (Device.status device)
                 (Event.component_id evt) (Event.capability evt)
                 (Event.attribute evt) (Event.value evt) (Event.data evt) |} in
        let fired :=
          if String.eqb (Event.capability evt) Capability.button
             && String.eqb (Event.attribute evt) Attribute.button
          then
            let data := button_event_data evt device' in
            [ BusFire EVENT_BUTTON data;
              Log DEBUG "Fired button event: %s" [ADict data] ]
          else
            [ Log DEBUG "Push update received: %s"
                [ADict (push_update_data evt)] ] in
        {| loop_devices := <[Event.device_id evt := device']> (loop_devices st);
           updated_devices :=
             {[ Device.device_id device' ]} ∪ updated_devices st;
           trace := trace st ++ fired |}
    end.

(** [_event_handler(self, req, resp, app)]: how the call ends, the
    broker afterwards, and the effects in program order. *)
Definition _event_handler (self : t) (req : Request.t)
    : Py.outcome unit * t * list effect :=
  if negb (String.eqb (Request.installed_app_id req) (_installed_app_id self))
  then (Py.Returned (), self, [])
  else
    let st :=
      fold_left handle_event (Request.events req)
        {| loop_devices := devices self;
           updated_devices := ∅;
           trace := [] |} in
    (Py.Returned (),
     {| _installed_app_id := _installed_app_id self;
        _assignments := _assignments self;
        devices := loop_devices st |},
     trace st
       ++ [DispatcherSend SIGNAL_SMARTTHINGS_UPDATE (updated_devices st)]).

End EventHandler.

(** What the loop never changes in a device. *)
Definition identity (device : Device.t) : string * string :=
  (Device.device_id device, Device.label device).

(** The bus events among the effects, in order. *)
Definition fired_events (effects : list effect)
    : list (string * Py.dict Py.value) :=
  omap (λ e, match e with
             | BusFire event_type event_data => Some (event_type, event_data)
             | _ => None
             end) effects.

(** The dispatcher signals among the effects, in order. *)
Definition signals_sent (effects : list effect) : list (string * gset string) :=
  omap (λ e, match e with
             | DispatcherSend signal device_ids => Some (signal, device_ids)
             | _ => None
             end) effects.

Definition is_device_event (evt : Event.t) : bool :=
  String.eqb (Event.event_type evt) EVENT_TYPE_DEVICE.

Definition is_button_event (evt : Event.t) : bool :=
  String.eqb (Event.capability evt) Capability.button
  && String.eqb (Event.attribute evt) Attribute.button.

(** The button event owed to [evt], if any, given the device table. *)
Definition button_event_of (table : gmap string Device.t) (evt : Event.t)
    : option (string * Py.dict Py.value) :=
  if is_device_event evt && is_button_event evt then
    device ← table !! Event.device_id evt;
    Some (EVENT_BUTTON, button_event_data evt device)
  else None.

End DeviceBroker.

(** ** The entity base class *)

Module SmartThingsEntity.

Record t := mk { _device : Device.t }.

(** [hasattr(status, "switch_state")] is the presence of the attribute;
    [!=] against a string is false exactly on that string. *)
Definition available (self : t) : bool :=
  match Device.status (_device self) !! "switch_state" with
  | Some switch_state =>
      negb (bool_decide (switch_state = Py.VStr "unavailable"))
  | None => true
  end.

End SmartThingsEntity.

(** ** Configuration entries, scenes and services *)

Module ConfigEntry.
(** [title] and the members of [entry.data] that the modelled code reads. *)
Record t := mk {
  title : string;
  location_id : string;
  access_token : string;
}.
End ConfigEntry.

Module Scene.
Record t := mk { scene_id : string; name : string }.
End Scene.

Section Scenes.

(** [api.get_scenes(location_id=...)] of the cloud client. *)
Variable get_scenes : string → Py.outcome (list Scene.t).

Definition async_get_entry_scenes (entry : ConfigEntry.t)
    : Py.outcome (list Scene.t) * list effect :=
  match get_scenes (ConfigEntry.location_id entry) with
  | Py.Returned scenes => (Py.Returned scenes, [])
  | Py.Raised (Py.ClientResponseError status) =>
      if decide (status = HTTPStatus.FORBIDDEN)
      then
        (Py.Returned [],
         [ Log EXCEPTION
             "Unable to load scenes for configuration entry '%s' because the access token does not have the required access"
             [AStr (ConfigEntry.title entry)] ])
      else (Py.Raised (Py.ClientResponseError status), [])
  | Py.Raised ex => (Py.Raised ex, [])
  end.

End Scenes.

Module ServiceCall.
(** [call.data]: a key that is absent is [None]. *)
Record t := mk {
  device_id : option string;
  component_id : option string;
  capability : option string;
  command : option string;
  arguments : option (list string);
}.
End ServiceCall.

Section Services.

(** [hass.config_entries.async_entries(DOMAIN)]. *)
Variable entries : list ConfigEntry.t.

(** [api.execute_device_command(device_id=, capability=, command=,
    component=, argument=)] on a client created for [entry]; creating
    the client is part of the call. *)
Variable execute_device_command :
  ConfigEntry.t → string → string → string → string → list string →
  Py.outcome unit.

Definition send_command_service (call : ServiceCall.t)
    : Py.outcome unit * list effect :=
  let device_id := ServiceCall.device_id call in
  let component_id := default "main" (ServiceCall.component_id call) in
  let capability := ServiceCall.capability call in
  let command := ServiceCall.command call in
  let arguments := default [] (ServiceCall.arguments call) in
  match device_id, capability, command with
  | Some device_id, Some capability, Some command =>
      if negb (Py.truthy device_id && Py.truthy capability
               && Py.truthy command)
      then
        (Py.Returned (),
         [ Log ERROR
             "send_command requires device_id, capability, and command" [] ])
      else
        match entries with
        | [] =>
            (Py.Returned (),
             [ Log ERROR "No SmartThings integration configured" [] ])
        | entry :: _ =>
            match execute_device_command entry device_id capability command
                    component_id arguments with
            | Py.Returned _ =>
                (Py.Returned (),
                 [ Log INFO "Command sent to %s: %s.%s(%s)"
                     [ AStr device_id; AStr capability; AStr command;
                       AList arguments ] ])
            | Py.Raised ex =>
                (Py.Returned (),
                 [ Log ERROR
                     "Failed to send command to %s: %s.%s(%s) - Error: %s"
                     [ AStr device_id; AStr capability; AStr command;
                       AList arguments; AExn ex ] ])
            end
        end
  | _, _, _ =>
      (Py.Returned (),
       [ Log ERROR
           "send_command requires device_id, capability, and command" [] ])
  end.

End Services.

Module SmartThingsButton.

Record t := mk {
  _device : Device.t;
  _capability : string;
  _command : string;
  _attr_name : string;
}.

Section Press.

(** [device.command(component_id=, capability=, command=, args=)] of
    the client library. *)
Variable command :
  Device.t → string → string → string → list string →
  Py.outcome Py.value.

Definition async_press (self : t) : Py.outcome unit * list effect :=
  match command (_device self) "main" (_capability self) (_command self) [] with
  | Py.Returned result =>
      (Py.Returned (),
       [ Log INFO "Button pressed: %s executed %s.%s - Result: %s"
           [ AStr (_attr_name self); AStr (_capability self);
             AStr (_command self); AValue result ] ])
  | Py.Raised ex =>
      (Py.Raised ex,
       [ Log ERROR "Failed to press button %s (%s.%s): %s"
           [ AStr (_attr_name self); AStr (_capability self);
             AStr (_command self); AExn ex ] ])
  end.

End Press.

End SmartThingsButton.

(** Devices used to exercise the results on concrete inputs. *)
Definition tv_device : Device.t :=
  Device.mk "tv-1" "Living room TV"
    [ Capability.switch; Capability.media_input_source;
      Capability.audio_volume ] ∅.

Definition robot_device : Device.t :=
  Device.mk "robot-1" "Robot"
    [ Capability.robot_cleaner_movement ] ∅.

(** A status object that records the last value of each attribute, a
    broker over two of the devices above, and push requests for it. *)
Definition record_attribute (status : gmap string Py.value)
    (component_id capability attribute : string) (value data : Py.value)
    : gmap string Py.value :=
  <[attribute := value]> status.

Definition doorbell_device : Device.t :=
  Device.mk "bell-1" "Front door" [Capability.button] ∅.

Definition sample_broker : DeviceBroker.t :=
  DeviceBroker.__init__ ["button"; "media_player"] package_import_module
    "installed-app-1" [tv_device; doorbell_device].

Definition pushed_event : Event.t :=
  Event.mk EVENT_TYPE_DEVICE "home" "bell-1" "main"
    Capability.button Attribute.button (Py.VStr "pushed") Py.VNone.

Definition volume_event : Event.t :=
  Event.mk EVENT_TYPE_DEVICE "home" "tv-1" "main"
    Capability.audio_volume "volume" (Py.VInt 12) Py.VNone.

Definition unknown_device_event : Event.t :=
  Event.mk EVENT_TYPE_DEVICE "home" "ghost" "main"
    Capability.button Attribute.button (Py.VStr "pushed") Py.VNone.

Definition timer_event : Event.t :=
  Event.mk "TIMER_EVENT" "home" "bell-1" "main"
    Capability.button Attribute.button (Py.VStr "pushed") Py.VNone.

Definition sample_events : list Event.t :=
  [ pushed_event; volume_event; unknown_device_event; timer_event;
    pushed_event ].

Definition sample_request : Request.t :=
  Request.mk "installed-app-1" sample_events.

Definition foreign_request : Request.t :=
  Request.mk "installed-app-2" sample_events.

Definition sample_entry : ConfigEntry.t :=
  ConfigEntry.mk "Home" "location-1" "token".

Definition sample_call : ServiceCall.t :=
  ServiceCall.mk (Some "tv-1") None (Some Capability.switch) (Some "on") None.

Definition failing_execute_device_command (entry : ConfigEntry.t)
    (device_id capability command component : string)
    (argument : list string) : Py.outcome unit :=
  Py.Raised (Py.ClientResponseError 500).

Definition failing_command (device : Device.t)
    (component_id capability command : string) (args : list string)
    : Py.outcome Py.value :=
  Py.Raised (Py.ClientResponseError 500).

Definition doorbell_button : SmartThingsButton.t :=
  SmartThingsButton.mk doorbell_device Capability.button "push"
    "Front door Push Button - Push".

Definition sample_assignments : DeviceBroker.t :=
  DeviceBroker.mk "installed-app-1"
    [ ("tv-1", [ (Capability.media_input_source, "button");
                 (Capability.audio_volume, "media_player");
                 (Capability.tv_channel, "media_player") ]) ]
    ∅.

Definition offline_entity : SmartThingsEntity.t :=
  SmartThingsEntity.mk
    (Device.mk "plug-1" "Plug" [Capability.switch]
       {[ "switch_state" := Py.VStr "unavailable" ]}).

Definition forbidden_get_scenes (location_id : string)
    : Py.outcome (list Scene.t) :=
  Py.Raised (Py.ClientResponseError HTTPStatus.FORBIDDEN).

(** ** The platform modules of the package, seen from the broker *)

Definition package_platforms : list string :=
  ["button"; "media_player"; "number"; "select"; "vacuum"].

(** The table behind the [get_capabilities] of a platform module of the
    package; empty for [vacuum], which binds no probe to that name. *)
Definition platform_table (platform : string) : list string :=
  if decide (platform = "button") then Button.CAPABILITY_TO_BUTTON
  else if decide (platform = "media_player")
       then MediaPlayer.CAPABILITY_TO_MEDIA_PLAYER
  else if decide (platform = "number") then Number.CAPABILITY_TO_NUMBER
  else if decide (platform = "select") then Select.CAPABILITY_TO_SELECT
  else [].



(** ** Number and select entities

    [number.py] and [select.py] create one entity for each capability that
    the broker assigned to their platform and that their table configures. *)

Module SmartThingsNumber.

Inductive unit_of_measurement := PERCENT | CELSIUS.
Inductive number_mode := SLIDER | BOX.

(** A value of [CAPABILITY_TO_NUMBER]. *)
Record config := mk_config {
  attribute : string;
  command : string;
  name : string;
  icon : string;
  min : Z;
  max : Z;
  step : Z;
  unit : unit_of_measurement;
  mode : number_mode;
}.

(** [CAPABILITY_TO_NUMBER] with its values; its keys are
    [Number.CAPABILITY_TO_NUMBER]. *)
Definition CAPABILITY_TO_NUMBER : Py.dict config :=
  [ (Capability.audio_volume,
     mk_config Attribute.volume "setVolume" "Volume" "mdi:volume-high"
       0 100 1 PERCENT SLIDER);
    (Capability.refrigeration_setpoint,
     mk_config Attribute.refrigeration_setpoint "setRefrigerationSetpoint"
       "Temperature Setpoint" "mdi:thermometer" (-20) 20 1 CELSIUS BOX);
    (Capability.oven_setpoint,
     mk_config Attribute.oven_setpoint "setOvenSetpoint" "Oven Setpoint"
       "mdi:stove" 0 300 5 CELSIUS BOX);
    (Capability.infrared_level,
     mk_config Attribute.infrared_level "setInfraredLevel" "Infrared Level"
       "mdi:lightbulb-on" 0 100 1 PERCENT SLIDER) ].

Record t := mk {
  _device : Device.t;
  _capability : string;
  _attribute : string;
  _command : string;
  _attr_name : string;
  _attr_unique_id : string;
  _attr_icon : string;
  _attr_native_min_value : Z;
  _attr_native_max_value : Z;
  _attr_native_step : Z;
  _attr_native_unit_of_measurement : unit_of_measurement;
  _attr_mode : number_mode;
}.

Definition __init__ (device : Device.t) (capability : string) (c : config) : t :=
  {| _device := device;
     _capability := capability;
     _attribute := attribute c;
     _command := command c;
     _attr_name := Device.label device +:+ " " +:+ name c;
     _attr_unique_id :=
       Device.device_id device +:+ "." +:+ capability +:+ "." +:+ attribute c;
     _attr_icon := icon c;
     _attr_native_min_value := min c;
     _attr_native_max_value := max c;
     _attr_native_step := step c;
     _attr_native_unit_of_measurement := unit c;
     _attr_mode := mode c |}.

(** The body of [for device in broker.devices.values(): ...]. *)
Definition device_numbers (broker : DeviceBroker.t) (device : Device.t) : list t :=
  omap
    (λ capability,
       config ← Py.get capability CAPABILITY_TO_NUMBER;
       Some (__init__ device capability config))
    (DeviceBroker.get_assigned broker (Device.device_id device) "number").

(** [async_setup_entry], given [broker.devices.values()]: the entities
    handed to [async_add_entities]. *)
Definition async_setup_entry (broker : DeviceBroker.t)
    (values : list Device.t) : list t :=
  values ≫= device_numbers broker.

End SmartThingsNumber.

Module SmartThingsSelect.

(** A value of [CAPABILITY_TO_SELECT]. *)
Record config := mk_config {
  attribute : string;
  command : string;
  name : string;
  icon : string;
}.

(** [CAPABILITY_TO_SELECT] with its values; its keys are
    [Select.CAPABILITY_TO_SELECT]. *)
Definition CAPABILITY_TO_SELECT : Py.dict config :=
  [ (Capability.washer_mode,
     mk_config Attribute.washer_mode "setMachineState" "Washer Mode"
       "mdi:washing-machine");
    (Capability.dryer_mode,
     mk_config Attribute.dryer_mode "setMachineState" "Dryer Mode"
       "mdi:tumble-dryer");
    (Capability.air_conditioner_mode,
     mk_config Attribute.air_conditioner_mode "setAirConditionerMode"
       "Air Conditioner Mode" "mdi:air-conditioner");
    (Capability.dishwasher_mode,
     mk_config Attribute.dishwasher_mode "setMachineState" "Dishwasher Mode"
       "mdi:dishwasher");
    (Capability.oven_mode,
     mk_config Attribute.oven_mode "setOvenMode" "Oven Mode" "mdi:stove");
    (Capability.robot_cleaner_cleaning_mode,
     mk_config Attribute.robot_cleaner_cleaning_mode
       "setRobotCleanerCleaningMode" "Cleaning Mode" "mdi:robot-vacuum");
    (Capability.media_input_source,
     mk_config Attribute.input_source "setInputSource" "Input Source"
       "mdi:video-input-hdmi") ].

Record t := mk {
  _device : Device.t;
  _capability : string;
  _attribute : string;
  _command : string;
  _attr_name : string;
  _attr_unique_id : string;
  _attr_icon : string;
}.

Definition __init__ (device : Device.t) (capability : string) (c : config) : t :=
  {| _device := device;
     _capability := capability;
     _attribute := attribute c;
     _command := command c;
     _attr_name := Device.label device +:+ " " +:+ name c;
     _attr_unique_id :=
       Device.device_id device +:+ "." +:+ capability +:+ "." +:+ attribute c;
     _attr_icon := icon c |}.

(** The body of [for device in broker.devices.values(): ...]. *)
Definition device_selects (broker : DeviceBroker.t) (device : Device.t) : list t :=
  omap
    (λ capability,
       config ← Py.get capability CAPABILITY_TO_SELECT;
       Some (__init__ device capability config))
    (DeviceBroker.get_assigned broker (Device.device_id device) "select").

Definition async_setup_entry (broker : DeviceBroker.t)
    (values : list Device.t) : list t :=
  values ≫= device_selects broker.

End SmartThingsSelect.

(** ** Entity methods: what they do to the device and to the host

    A method of an entity may send commands to its device through the
    client library, log, and ask the host to write the entity's state.
    These are recorded in program order.  [device.command] of the client
    library is a parameter; the host calls are taken not to raise. *)

Inductive action :=
| Host (e : effect)
| DeviceCommand (device_id component_id capability command : string)
    (args : list string)
| WriteHaState (entity_id : string)
| LogWarning (msg : string) (args : list log_arg).

(** The commands among the actions, in order, and whether the host was
    asked to write the state. *)
Definition sent_commands (actions : list action)
    : list (string * string * list string) :=
  omap (λ a, match a with
             | DeviceCommand _ _ capability command args =>
                 Some (capability, command, args)
             | _ => None
             end) actions.

Definition writes_state (actions : list action) : bool :=
  existsb (λ a, match a with WriteHaState _ => true | _ => false end) actions.

(** Truthiness of a value. *)
Definition value_truthy (v : Py.value) : bool :=
  match v with
  | Py.VNone => false
  | Py.VBool b => b
  | Py.VInt n => negb (n =? 0)%Z
  | Py.VStr s => Py.truthy s
  | Py.VList l => match l with [] => false | _ => true end
  end.

(** [getattr(status, name, None)]. *)
Definition getattr_or_None (status : gmap string Py.value) (name : string)
    : Py.value :=
  default Py.VNone (status !! name).

(** [v and v in table], then [table[v]]: the entry of a falsy value, or of
    a value that is not a key, is [None]; a non-empty list is unhashable
    and the membership test raises [TypeError]. *)
Definition truthy_entry (v : Py.value) (table : Py.dict string)
    : Py.outcome (option string) :=
  if negb (value_truthy v) then Py.Returned None
  else
    match v with
    | Py.VStr s => Py.Returned (Py.get s table)
    | Py.VList _ => Py.Raised (Py.OtherException "TypeError")
    | _ => Py.Returned None
    end.

(** ** Diagnostics of the entity base class *)

Module EntityDiagnostics.

(** The diagnostic members that [SmartThingsEntity.__init__] adds to the
    entity; a time is a number of seconds. *)
Record t := mk {
  _last_update_time : option Z;
  _update_count : nat;
  _error_count : nat;
  _last_error : option string;
}.

(** As [__init__] sets them. *)
Definition initial : t := mk None 0 0 None.

(** [v < k] for an integer [k]: integers compare, booleans compare as 0
    and 1, and [None], strings and lists raise [TypeError]. *)
Definition value_lt (v : Py.value) (k : Z) : Py.outcome bool :=
  match v with
  | Py.VInt n => Py.Returned (n <? k)%Z
  | Py.VBool b => Py.Returned ((if b then 1 else 0) <? k)%Z
  | _ => Py.Raised (Py.OtherException "TypeError")
  end.

(** [a or b]. *)
Definition value_or (a b : Py.value) : Py.value :=
  if value_truthy a then a else b.

(** [isinstance(v, (int, float))]; booleans are integers. *)
Definition is_number (v : Py.value) : bool :=
  match v with
  | Py.VInt _ | Py.VBool _ => true
  | _ => false
  end.

(** [getattr(status, "lqi", None) or getattr(status, "rssi", None)]. *)
Definition signal_strength (status : gmap string Py.value) : Py.value :=
  value_or (getattr_or_None status "lqi") (getattr_or_None status "rssi").

(** [_get_health_status], for an entity whose class keeps the [available]
    of the base class (number, select and vacuum entities). *)
Definition _get_health_status (self : SmartThingsEntity.t) (diag : t)
    : Py.outcome string :=
  let status := Device.status (SmartThingsEntity._device self) in
  if negb (SmartThingsEntity.available self) then Py.Returned "unavailable"
  else if (0 <? _error_count diag)%nat
          && Py.truthy (default "" (_last_error diag))
  then Py.Returned "error"
  else
    let signal_check :=
      let signal := signal_strength status in
      if negb (bool_decide (signal = Py.VNone)) && is_number signal
      then
        match value_lt signal 30 with
        | Py.Raised ex => Py.Raised ex
        | Py.Returned true => Py.Returned "warning"
        | Py.Returned false => Py.Returned "ok"
        end
      else Py.Returned "ok" in
    match status !! "battery" with
    | None => signal_check
    | Some battery_level =>
        if bool_decide (battery_level = Py.VNone) then signal_check
        else
          match value_lt battery_level 10 with
          | Py.Raised ex => Py.Raised ex
          | Py.Returned true => Py.Returned "critical"
          | Py.Returned false =>
              match value_lt battery_level 25 with
              | Py.Raised ex => Py.Raised ex
              | Py.Returned true => Py.Returned "warning"
              | Py.Returned false => signal_check
              end
          end
    end.

Section Update.

(** [str(ex)]. *)
Variable str : Py.exn → string.

(** [async_update_ha_state(force_refresh)] at time [now], where the method
    of the host ends as [host] says: how the call ends, the diagnostics
    afterwards, and what is logged. *)
Definition async_update_ha_state (entity_id : string) (diag : t)
    (call : Z * Py.outcome unit) : Py.outcome unit * t * list effect :=
  let '(now, host) := call in
  let started :=
    {| _last_update_time := Some now;
       _update_count := S (_update_count diag);
       _error_count := _error_count diag;
       _last_error := _last_error diag |} in
  match host with
  | Py.Returned _ => (Py.Returned (), started, [])
  | Py.Raised ex =>
      (Py.Raised ex,
       {| _last_update_time := Some now;
          _update_count := S (_update_count diag);
          _error_count := S (_error_count diag);
          _last_error := Some (str ex) |},
       [Log DEBUG "Error updating state for %s: %s"
          [AStr entity_id; AExn ex]])
  end.

(** The diagnostics after a series of updates. *)
Definition after_updates (entity_id : string) (diag : t)
    (calls : list (Z * Py.outcome unit)) : t :=
  fold_left
    (λ diag call, snd (fst (async_update_ha_state entity_id diag call)))
    calls diag.

End Update.

(** The failures among a series of updates, in order. *)
Definition failures (calls : list (Z * Py.outcome unit)) : list Py.exn :=
  omap (λ call : Z * Py.outcome unit,
          match snd call with
          | Py.Raised ex => Some ex
          | Py.Returned _ => None
          end) calls.

End EntityDiagnostics.

(** ** The constructor of the entity base class *)

Module DeviceInfo.
(** [DeviceInfo(...)] as [SmartThingsEntity.__init__] fills it; the one
    identifier is the device id, paired with [DOMAIN]. *)
Record t := mk {
  configuration_url : string;
  identifiers : list string;
  manufacturer : Py.value;
  model : Py.value;
  name : string;
  hw_version : Py.value;
  sw_version : Py.value;
}.
End DeviceInfo.

(** [status.<name>], read without a guard: [AttributeError] when the
    status has no such attribute. *)
Definition status_attribute (status : gmap string Py.value) (name : string)
    : Py.outcome Py.value :=
  match status !! name with
  | Some v => Py.Returned v
  | None => Py.Raised (Py.OtherException "AttributeError")
  end.

Module EntityBase.

(** The members that [SmartThingsEntity.__init__] of [__init__.py] sets;
    [_dispatcher_remove], which is [None] until the entity is added to the
    host, is left out. *)
Record t := mk {
  _device : Device.t;
  _attr_name : string;
  _attr_unique_id : string;
  _attr_device_info : DeviceInfo.t;
  _diagnostics : EntityDiagnostics.t;
}.

(** [SmartThingsEntity.__init__(device)].  The four [ocf_*] attributes of
    the status are read without a guard, in the order of the keyword
    arguments of [DeviceInfo]. *)
Definition __init__ (device : Device.t) : Py.outcome t :=
  let status := Device.status device in
  match status_attribute status "ocf_manufacturer_name" with
  | Py.Raised ex => Py.Raised ex
  | Py.Returned manufacturer =>
  match status_attribute status "ocf_model_number" with
  | Py.Raised ex => Py.Raised ex
  | Py.Returned model =>
  match status_attribute status "ocf_hardware_version" with
  | Py.Raised ex => Py.Raised ex
  | Py.Returned hw_version =>
  match status_attribute status "ocf_firmware_version" with
  | Py.Raised ex => Py.Raised ex
  | Py.Returned sw_version =>
      Py.Returned
        {| _device := device;
           _attr_name := Device.label device;
           _attr_unique_id := Device.device_id device;
           _attr_device_info :=
             {| DeviceInfo.configuration_url :=
                  "https://account.smartthings.com";
                DeviceInfo.identifiers := [Device.device_id device];
                DeviceInfo.manufacturer := manufacturer;
                DeviceInfo.model := model;
                DeviceInfo.name := Device.label device;
                DeviceInfo.hw_version := hw_version;
                DeviceInfo.sw_version := sw_version |};
           _diagnostics := EntityDiagnostics.initial |}
  end end end end.

(** The status attributes that the constructor reads. *)
Definition ocf_attributes : list string :=
  [ "ocf_manufacturer_name"; "ocf_model_number"; "ocf_hardware_version";
    "ocf_firmware_version" ].

End EntityBase.

(** ** Vacuum entities *)

Module SmartThingsVacuum.

Inductive VacuumEntityFeature :=
| START | PAUSE | STOP | RETURN_HOME | FAN_SPEED | STATE | BATTERY.

#[global] Instance VacuumEntityFeature_eq_dec : EqDecision VacuumEntityFeature.
Proof. solve_decision. Defined.

(** [features |= feature] on a set of flags, kept as a duplicate-free
    list. *)
Definition flag_or (features : list VacuumEntityFeature)
    (feature : VacuumEntityFeature) : list VacuumEntityFeature :=
  if decide (feature ∈ features) then features else features ++ [feature].

(** A value of [CAPABILITY_TO_VACUUM]. *)
Record config := mk_config {
  name : string;
  features : list VacuumEntityFeature;
  icon : string;
}.

(** [CAPABILITY_TO_VACUUM] with its values; its keys are
    [Vacuum.CAPABILITY_TO_VACUUM]. *)
Definition CAPABILITY_TO_VACUUM : Py.dict config :=
  [ (Capability.robot_cleaner_cleaning_mode,
     mk_config "Robot Vacuum"
       [START; PAUSE; STOP; RETURN_HOME; FAN_SPEED; STATE; BATTERY]
       "mdi:robot-vacuum");
    (Capability.robot_cleaner_movement,
     mk_config "Robot Cleaner" [START; PAUSE; STOP; RETURN_HOME; STATE]
       "mdi:robot-vacuum") ].

Definition ST_STATE_MAP : Py.dict string :=
  [ ("homing", "returning"); ("charging", "docked"); ("cleaning", "cleaning");
    ("idle", "idle"); ("paused", "paused"); ("auto", "cleaning");
    ("spot", "cleaning"); ("edge", "cleaning"); ("single", "cleaning");
    ("stop", "idle"); ("pause", "paused") ].

Definition FAN_SPEED_MAP : Py.dict string :=
  [ ("auto", "Auto"); ("quiet", "Quiet"); ("standard", "Standard");
    ("medium", "Medium"); ("high", "High"); ("turbo", "Turbo");
    ("max", "Max"); ("eco", "Eco"); ("spot", "Spot Clean");
    ("edge", "Edge Clean"); ("single", "Single Room") ].

(** The members of a vacuum entity that [vacuum.py] sets or reads.  The
    members that the base class alone sets ([_attr_unique_id],
    [_attr_device_info] and the diagnostic members) are those of the value
    of [EntityBase.__init__]. *)
Record t := mk {
  _device : Device.t;
  _capabilities : list string;
  _primary_capability : string;
  _attr_name : string;
  _attr_icon : string;
  _attr_supported_features : list VacuumEntityFeature;
  _attr_fan_speed_list : list string;
}.

(** The three helpers read [self._capabilities] and [self._device], which
    [__init__] has set by then. *)
Definition _get_primary_capability (capabilities : list string) : string :=
  if Py.contains Capability.robot_cleaner_cleaning_mode capabilities
  then Capability.robot_cleaner_cleaning_mode
  else Capability.robot_cleaner_movement.

Definition _get_supported_features (capabilities : list string)
    : list VacuumEntityFeature :=
  flag_or
    (fold_left
       (λ features capability,
          match Py.get capability CAPABILITY_TO_VACUUM with
          | Some c => fold_left flag_or (SmartThingsVacuum.features c) features
          | None => features
          end)
       capabilities [])
    STATE.

Section FanSpeeds.

(** [str.title] of Python. *)
Variable title : string → string.

Definition _get_available_fan_speeds (device : Device.t)
    (capabilities : list string) : list string :=
  let speeds :=
    (if Py.contains Capability.robot_cleaner_turbo_mode
          (Device.capabilities device)
     then ["quiet"; "standard"; "turbo"]
     else ["quiet"; "standard"; "high"])
    ++ (if Py.contains Capability.robot_cleaner_cleaning_mode capabilities
        then ["auto"; "spot"; "edge"]
        else []) in
  (λ speed, default (title speed) (Py.get speed FAN_SPEED_MAP)) <$> speeds.

(** [__init__(device, capabilities)]: [super().__init__(device)] is the
    constructor of [SmartThingsEntity] of [__init__.py] and comes first;
    [CAPABILITY_TO_VACUUM[primary]] raises [KeyError] on a missing key. *)
Definition __init__ (device : Device.t) (capabilities : list string)
    : Py.outcome t :=
  match EntityBase.__init__ device with
  | Py.Raised ex => Py.Raised ex
  | Py.Returned base =>
      let primary := _get_primary_capability capabilities in
      match Py.get primary CAPABILITY_TO_VACUUM with
      | None => Py.Raised (Py.OtherException "KeyError")
      | Some config =>
          Py.Returned
            {| _device := EntityBase._device base;
               _capabilities := capabilities;
               _primary_capability := primary;
               _attr_name := Device.label device +:+ " " +:+ name config;
               _attr_icon := icon config;
               _attr_supported_features :=
                 _get_supported_features capabilities;
               _attr_fan_speed_list :=
                 _get_available_fan_speeds (EntityBase._device base)
                   capabilities |}
      end
  end.

(** The body of [for device in broker.devices.values(): ...]: the entity
    appended for [device], if any. *)
Definition device_vacuum (device : Device.t) : Py.outcome (option t) :=
  match Vacuum.get_vacuum_capabilities (Device.capabilities device) with
  | Some (capability :: vacuum_capabilities) =>
      match __init__ device (capability :: vacuum_capabilities) with
      | Py.Returned entity => Py.Returned (Some entity)
      | Py.Raised ex => Py.Raised ex
      end
  | _ => Py.Returned None
  end.

(** [async_setup_entry], given [broker.devices.values()]: the entities
    handed to [async_add_entities]. *)
Fixpoint async_setup_entry (values : list Device.t) : Py.outcome (list t) :=
  match values with
  | [] => Py.Returned []
  | device :: values' =>
      match device_vacuum device with
      | Py.Raised ex => Py.Raised ex
      | Py.Returned entity =>
          match async_setup_entry values' with
          | Py.Raised ex => Py.Raised ex
          | Py.Returned vacuum_devices =>
              Py.Returned (option_list entity ++ vacuum_devices)
          end
      end
  end.

End FanSpeeds.

(** The [state] property. *)
Definition state (self : t) : Py.outcome string :=
  let device := _device self in
  let movement_state :=
    if Py.contains Capability.robot_cleaner_movement (Device.capabilities device)
    then truthy_entry
           (getattr_or_None (Device.status device)
              Attribute.robot_cleaner_movement)
           ST_STATE_MAP
    else Py.Returned None in
  match movement_state with
  | Py.Raised ex => Py.Raised ex
  | Py.Returned (Some st) => Py.Returned st
  | Py.Returned None =>
      let mode_state :=
        if Py.contains Capability.robot_cleaner_cleaning_mode
             (Device.capabilities device)
        then truthy_entry
               (getattr_or_None (Device.status device)
                  Attribute.robot_cleaner_cleaning_mode)
               ST_STATE_MAP
        else Py.Returned None in
      match mode_state with
      | Py.Raised ex => Py.Raised ex
      | Py.Returned (Some st) => Py.Returned st
      | Py.Returned None => Py.Returned "idle"
      end
  end.

(** The [battery_level] property. *)
Definition battery_level (self : t) : Py.value :=
  if Py.contains Capability.battery (Device.capabilities (_device self))
  then getattr_or_None (Device.status (_device self)) Attribute.battery
  else Py.VNone.

(** The [fan_speed] property. *)
Definition fan_speed (self : t) : Py.outcome string :=
  let device := _device self in
  if Py.contains Capability.robot_cleaner_turbo_mode (Device.capabilities device)
     && bool_decide
          (getattr_or_None (Device.status device)
             Attribute.robot_cleaner_turbo_mode = Py.VStr "on")
  then Py.Returned "Turbo"
  else
    let mode_speed :=
      if Py.contains Capability.robot_cleaner_cleaning_mode
           (Device.capabilities device)
      then truthy_entry
             (getattr_or_None (Device.status device)
                Attribute.robot_cleaner_cleaning_mode)
             FAN_SPEED_MAP
      else Py.Returned None in
    match mode_speed with
    | Py.Raised ex => Py.Raised ex
    | Py.Returned (Some speed) => Py.Returned speed
    | Py.Returned None => Py.Returned "Standard"
    end.

(** The loop of [async_set_fan_speed] that turns a display name back into
    a mode: the first item of [FAN_SPEED_MAP] with that display name. *)
Definition internal_mode_of (fan_speed : string) : option string :=
  (λ found : nat * (string * string), fst (snd found))
  <$> list_find (λ item : string * string, snd item = fan_speed) FAN_SPEED_MAP.

Section Commands.

Variable command :
  Device.t → string → string → string → list string → Py.outcome Py.value.

(** The id the host gave the entity. *)
Variable entity_id : string.

(** [await self._device.command("main", capability, command, args)]. *)
Definition send (self : t) (capability cmd : string) (args : list string)
    : Py.outcome Py.value * list action :=
  (command (_device self) "main" capability cmd args,
   [DeviceCommand (Device.device_id (_device self)) "main" capability cmd args]).

(** The end of the [try] block, after the command: [if result: ... else:
    ...], and the [except Exception] clause. *)
Definition conclude (sent : Py.outcome Py.value * list action)
    (on_success on_failure : effect) (exception_record : Py.exn → effect)
    : Py.outcome unit * list action :=
  match fst sent with
  | Py.Returned result =>
      if value_truthy result
      then (Py.Returned (),
            snd sent ++ [Host on_success; WriteHaState entity_id])
      else (Py.Returned (), snd sent ++ [Host on_failure])
  | Py.Raised ex => (Py.Returned (), snd sent ++ [Host (exception_record ex)])
  end.

(** The shape that [async_start], [async_pause], [async_stop] and
    [async_return_to_base] share: the cleaning mode when the entity has it,
    else the movement, else an error record. *)
Definition mode_or_movement (self : t) (mode movement : string)
    (unsupported on_success on_failure : effect)
    (exception_record : Py.exn → effect)
    : Py.outcome unit * list action :=
  if Py.contains Capability.robot_cleaner_cleaning_mode (_capabilities self)
  then conclude
         (send self Capability.robot_cleaner_cleaning_mode
            "setRobotCleanerCleaningMode" [mode])
         on_success on_failure exception_record
  else if Py.contains Capability.robot_cleaner_movement (_capabilities self)
  then conclude
         (send self Capability.robot_cleaner_movement
            "setRobotCleanerMovement" [movement])
         on_success on_failure exception_record
  else (Py.Returned (), [Host unsupported]).

Definition async_start (self : t) : Py.outcome unit * list action :=
  mode_or_movement self "auto" "cleaning"
    (Log ERROR "No suitable capability for start command on %s"
       [AStr entity_id])
    (Log DEBUG "Successfully started vacuum %s" [AStr entity_id])
    (Log ERROR "Failed to start vacuum %s" [AStr entity_id])
    (λ ex, Log ERROR "Error starting vacuum %s: %s" [AStr entity_id; AExn ex]).

Definition async_pause (self : t) : Py.outcome unit * list action :=
  mode_or_movement self "pause" "paused"
    (Log ERROR "No suitable capability for pause command on %s"
       [AStr entity_id])
    (Log DEBUG "Successfully paused vacuum %s" [AStr entity_id])
    (Log ERROR "Failed to pause vacuum %s" [AStr entity_id])
    (λ ex, Log ERROR "Error pausing vacuum %s: %s" [AStr entity_id; AExn ex]).

Definition async_stop (self : t) : Py.outcome unit * list action :=
  mode_or_movement self "stop" "idle"
    (Log ERROR "No suitable capability for stop command on %s"
       [AStr entity_id])
    (Log DEBUG "Successfully stopped vacuum %s" [AStr entity_id])
    (Log ERROR "Failed to stop vacuum %s" [AStr entity_id])
    (λ ex, Log ERROR "Error stopping vacuum %s: %s" [AStr entity_id; AExn ex]).

Definition async_return_to_base (self : t) : Py.outcome unit * list action :=
  mode_or_movement self "homing" "homing"
    (Log ERROR "No suitable capability for return to base command on %s"
       [AStr entity_id])
    (Log DEBUG "Successfully sent return to base command to vacuum %s"
       [AStr entity_id])
    (Log ERROR "Failed to send return to base command to vacuum %s"
       [AStr entity_id])
    (λ ex, Log ERROR "Error sending return to base command to vacuum %s: %s"
             [AStr entity_id; AExn ex]).

Definition async_clean_spot (self : t) : Py.outcome unit * list action :=
  if Py.contains Capability.robot_cleaner_cleaning_mode (_capabilities self)
  then conclude
         (send self Capability.robot_cleaner_cleaning_mode
            "setRobotCleanerCleaningMode" ["spot"])
         (Log DEBUG "Successfully started spot cleaning on vacuum %s"
            [AStr entity_id])
         (Log ERROR "Failed to start spot cleaning on vacuum %s"
            [AStr entity_id])
         (λ ex, Log ERROR "Error starting spot cleaning on vacuum %s: %s"
                  [AStr entity_id; AExn ex])
  else (Py.Returned (),
        [Host (Log ERROR "Spot cleaning not supported on vacuum %s"
                 [AStr entity_id])]).

Definition async_set_fan_speed (self : t) (fan_speed : string)
    : Py.outcome unit * list action :=
  let failed ex :=
    Host (Log ERROR "Error setting fan speed on vacuum %s: %s"
            [AStr entity_id; AExn ex]) in
  let unknown :=
    (Py.Returned (),
     [Host (Log ERROR "Unknown fan speed %s for vacuum %s"
              [AStr fan_speed; AStr entity_id])]) in
  match internal_mode_of fan_speed with
  | None => unknown
  | Some internal_mode =>
      if negb (Py.truthy internal_mode) then unknown
      else
        let has_turbo :=
          Py.contains Capability.robot_cleaner_turbo_mode
            (Device.capabilities (_device self)) in
        let turbo :=
          if bool_decide (internal_mode = "turbo") && has_turbo
          then send self Capability.robot_cleaner_turbo_mode
                 "setRobotCleanerTurboMode" ["on"]
          else if has_turbo
          then send self Capability.robot_cleaner_turbo_mode
                 "setRobotCleanerTurboMode" ["off"]
          else (Py.Returned Py.VNone, []) in
        match fst turbo with
        | Py.Raised ex => (Py.Returned (), snd turbo ++ [failed ex])
        | Py.Returned _ =>
            let cleaning :=
              if Py.contains Capability.robot_cleaner_cleaning_mode
                   (_capabilities self)
              then send self Capability.robot_cleaner_cleaning_mode
                     "setRobotCleanerCleaningMode" [internal_mode]
              else (Py.Returned (Py.VBool true), []) in
            match fst cleaning with
            | Py.Raised ex =>
                (Py.Returned (), snd turbo ++ snd cleaning ++ [failed ex])
            | Py.Returned result =>
                if value_truthy result
                then
                  (Py.Returned (),
                   snd turbo ++ snd cleaning
                   ++ [ Host (Log DEBUG
                                "Successfully set fan speed to %s on vacuum %s"
                                [AStr fan_speed; AStr entity_id]);
                        WriteHaState entity_id ])
                else
                  (Py.Returned (),
                   snd turbo ++ snd cleaning
                   ++ [ Host (Log ERROR
                                "Failed to set fan speed to %s on vacuum %s"
                                [AStr fan_speed; AStr entity_id]) ])
            end
        end
  end.

End Commands.

End SmartThingsVacuum.







(** What a call that sends at most one command guarantees: it returns
    normally; the state is written only when the command returned a truthy
    result; and when the command raised, the last action is an error record
    with the exception. *)
Definition one_command_discipline
    (command :
       Device.t → string → string → string → list string → Py.outcome Py.value)
    (entity_id : string) (self : SmartThingsVacuum.t)
    (result : Py.outcome unit * list action) : Prop :=
  fst result = Py.Returned ()
  ∧ (List.length (sent_commands (snd result)) ≤ 1)%nat
  ∧ (writes_state (snd result) = true →
     ∃ capability cmd args v,
       sent_commands (snd result) = [(capability, cmd, args)]
       ∧ command (SmartThingsVacuum._device self) "main" capability cmd args
         = Py.Returned v
       ∧ value_truthy v = true)
  ∧ (∀ capability cmd args ex,
       (capability, cmd, args) ∈ sent_commands (snd result) →
       command (SmartThingsVacuum._device self) "main" capability cmd args
       = Py.Raised ex →
       ∃ record,
         last (snd result)
         = Some (Host (Log ERROR record [AStr entity_id; AExn ex]))).

(** A robot cleaner whose status has the four [ocf_*] attributes. *)
Definition described_robot_device : Device.t :=
  Device.mk "robot-3" "Robot"
    [ Capability.switch; Capability.robot_cleaner_movement ]
    {[ "ocf_manufacturer_name" := Py.VStr "Samsung Electronics";
       "ocf_model_number" := Py.VStr "VR05";
       "ocf_hardware_version" := Py.VNone;
       "ocf_firmware_version" := Py.VStr "1.0" ]}.

Definition turbo_robot_vacuum : SmartThingsVacuum.t :=
  SmartThingsVacuum.mk
    (Device.mk "robot-2" "Robot"
       [ Capability.robot_cleaner_cleaning_mode;
         Capability.robot_cleaner_turbo_mode ] ∅)
    [Capability.robot_cleaner_cleaning_mode]
    Capability.robot_cleaner_cleaning_mode "Robot Robot Vacuum"
    "mdi:robot-vacuum" [] [].

(** ** Button entities: setup and availability *)

Module ButtonPlatform.

(** A value of [CAPABILITY_TO_BUTTON] (its [device_class] is [None]
    throughout). *)
Record config := mk_config {
  commands : list string;
  name : string;
  icon : string;
}.

(** [CAPABILITY_TO_BUTTON] with its values; its keys are
    [Button.CAPABILITY_TO_BUTTON]. *)
Definition CAPABILITY_TO_BUTTON : Py.dict config :=
  [ (Capability.scene_control,
     mk_config ["execute"] "Execute Scene" "mdi:play");
    (Capability.button,
     mk_config ["push"] "Push Button" "mdi:gesture-tap-button");
    (Capability.momentary,
     mk_config ["push"] "Momentary Switch" "mdi:radiobox-marked");
    (Capability.panic_alarm,
     mk_config ["panic"] "Panic Button" "mdi:alarm-light");
    (Capability.water_sensor,
     mk_config ["test"] "Test Water Sensor" "mdi:water-alert");
    (Capability.smoke_detector,
     mk_config ["test"] "Test Smoke Detector" "mdi:smoke-detector");
    (Capability.carbon_monoxide_detector,
     mk_config ["test"] "Test CO Detector" "mdi:molecule-co");
    (Capability.chime, mk_config ["chime"] "Chime" "mdi:bell-ring");
    (Capability.media_input_source,
     mk_config ["showInputSource"] "Show Input Source"
       "mdi:television-guide");
    (Capability.washer_operating_state,
     mk_config ["start"; "pause"; "stop"] "Washer Control"
       "mdi:washing-machine");
    (Capability.dryer_operating_state,
     mk_config ["start"; "pause"; "stop"] "Dryer Control"
       "mdi:tumble-dryer");
    (Capability.dishwasher_operating_state,
     mk_config ["start"; "pause"; "stop"] "Dishwasher Control"
       "mdi:dishwasher");
    (Capability.oven_operating_state,
     mk_config ["start"; "pause"; "stop"] "Oven Control" "mdi:stove");
    (Capability.robot_cleaner_cleaning_mode,
     mk_config ["start"; "pause"; "stop"; "homing"] "Robot Cleaner Control"
       "mdi:robot-vacuum") ].

(** [SmartThingsButton.__init__]: the members that the record of the
    entity keeps. *)
Definition __init__ (device : Device.t) (capability command name : string)
    : SmartThingsButton.t :=
  {| SmartThingsButton._device := device;
     SmartThingsButton._capability := capability;
     SmartThingsButton._command := command;
     SmartThingsButton._attr_name := Device.label device +:+ " " +:+ name |}.


Section Setup.

(** [str.title] of Python. *)
Variable title : string → string.

(** The body of [for device in broker.devices.values(): ...]. *)
Definition device_buttons (device : Device.t) : list SmartThingsButton.t :=
  Device.capabilities device ≫= λ capability,
    match Py.get capability CAPABILITY_TO_BUTTON with
    | None => []
    | Some button_config =>
        (λ command,
           __init__ device capability command
             (name button_config +:+ " - " +:+ title command))
        <$> commands button_config
    end.

(** [async_setup_entry], given [broker.devices.values()]: the entities
    handed to [async_add_entities] (none when the list is empty). *)
Definition async_setup_entry (values : list Device.t)
    : list SmartThingsButton.t :=
  values ≫= device_buttons.

End Setup.

(** The [available] property of a button.  [status.switch_state] is read
    without a guard and raises [AttributeError] when the status has no such
    attribute. *)
Definition available (self : SmartThingsButton.t) : Py.outcome bool :=
  let device := SmartThingsButton._device self in
  match Device.status device !! "switch_state" with
  | None => Py.Raised (Py.OtherException "AttributeError")
  | Some switch_state =>
      Py.Returned
        (negb (bool_decide (switch_state = Py.VStr "unavailable"))
         && Py.contains (SmartThingsButton._capability self)
              (Device.capabilities device))
  end.




End ButtonPlatform.

(** ** Media player entities *)

Module SmartThingsMediaPlayer.

Inductive MediaPlayerEntityFeature :=
| BROWSE_MEDIA | NEXT_TRACK | PAUSE | PLAY | PREVIOUS_TRACK | SELECT_SOURCE
| STOP | TURN_OFF | TURN_ON | VOLUME_MUTE | VOLUME_SET | VOLUME_STEP.

#[global] Instance MediaPlayerEntityFeature_eq_dec :
  EqDecision MediaPlayerEntityFeature.
Proof. solve_decision. Defined.

(** [features |= feature] on a set of flags, kept as a duplicate-free
    list. *)
Definition flag_or (features : list MediaPlayerEntityFeature)
    (feature : MediaPlayerEntityFeature) : list MediaPlayerEntityFeature :=
  if decide (feature ∈ features) then features else features ++ [feature].

(** A value of [CAPABILITY_TO_MEDIA_PLAYER]. *)
Record config := mk_config {
  name : string;
  device_class : string;
  features : list MediaPlayerEntityFeature;
  icon : string;
}.

(** [CAPABILITY_TO_MEDIA_PLAYER] with its values; its keys are
    [MediaPlayer.CAPABILITY_TO_MEDIA_PLAYER]. *)
Definition CAPABILITY_TO_MEDIA_PLAYER : Py.dict config :=
  [ (Capability.tv_channel,
     mk_config "TV" "tv"
       [ BROWSE_MEDIA; NEXT_TRACK; PAUSE; PLAY; PREVIOUS_TRACK; SELECT_SOURCE;
         STOP; TURN_OFF; TURN_ON; VOLUME_MUTE; VOLUME_SET; VOLUME_STEP ]
       "mdi:television");
    (Capability.audio_volume,
     mk_config "Audio Device" "speaker"
       [PAUSE; PLAY; STOP; VOLUME_MUTE; VOLUME_SET; VOLUME_STEP]
       "mdi:speaker");
    (Capability.media_playback,
     mk_config "Media Player" "receiver"
       [NEXT_TRACK; PAUSE; PLAY; PREVIOUS_TRACK; STOP] "mdi:play-box");
    (Capability.media_input_source,
     mk_config "Media Input" "receiver" [SELECT_SOURCE]
       "mdi:video-input-hdmi") ].

Record t := mk {
  _device : Device.t;
  _capabilities : list string;
  _primary_capability : string;
  _config : config;
  _attr_name : string;
  _attr_unique_id : string;
  _attr_icon : string;
  _attr_device_class : string;
  _attr_supported_features : list MediaPlayerEntityFeature;
}.

(** The [if]/[elif] chain of [__init__]. *)
Definition primary_capability (capabilities : list string) : string :=
  if Py.contains Capability.tv_channel capabilities
  then Capability.tv_channel
  else if Py.contains Capability.audio_volume capabilities
  then Capability.audio_volume
  else if Py.contains Capability.media_playback capabilities
  then Capability.media_playback
  else Capability.media_input_source.

(** The loop of [__init__] that combines the features. *)
Definition supported_features (capabilities : list string)
    : list MediaPlayerEntityFeature :=
  fold_left
    (λ supported capability,
       match Py.get capability CAPABILITY_TO_MEDIA_PLAYER with
       | Some c => fold_left flag_or (features c) supported
       | None => supported
       end)
    capabilities [].

Section Construction.

(** [super().__init__(device)]: the constructor of [SmartThingsEntity] of
    [entity.py], which is not among the sources.  How it ends is a
    parameter.  Modelled from the spec: the entity base wraps the single
    device it is given, so when the constructor returns [self._device] is
    [device]. *)
Variable super__init__ : Device.t → Py.outcome unit.

(** [CAPABILITY_TO_MEDIA_PLAYER[primary]] raises [KeyError] on a missing
    key. *)
Definition __init__ (device : Device.t) (capabilities : list string)
    : Py.outcome t :=
  match super__init__ device with
  | Py.Raised ex => Py.Raised ex
  | Py.Returned _ =>
      let primary := primary_capability capabilities in
      match Py.get primary CAPABILITY_TO_MEDIA_PLAYER with
      | None => Py.Raised (Py.OtherException "KeyError")
      | Some config =>
          Py.Returned
            {| _device := device;
               _capabilities := capabilities;
               _primary_capability := primary;
               _config := config;
               _attr_name := Device.label device +:+ " " +:+ name config;
               _attr_unique_id := Device.device_id device +:+ "_media_player";
               _attr_icon := icon config;
               _attr_device_class := device_class config;
               _attr_supported_features := supported_features capabilities |}
      end
  end.

(** The body of [for device in broker.devices.values(): ...]: the entity
    appended for [device], if any. *)
Definition device_media_player (device : Device.t) : Py.outcome (option t) :=
  match MediaPlayer.get_capabilities (Device.capabilities device) with
  | Some (capability :: supported_capabilities) =>
      match __init__ device (capability :: supported_capabilities) with
      | Py.Returned entity => Py.Returned (Some entity)
      | Py.Raised ex => Py.Raised ex
      end
  | _ => Py.Returned None
  end.

End Construction.

(** The [available] property of a media player.  [status.switch_state] is
    read without a guard and raises [AttributeError] when the status has no
    such attribute. *)
Definition available (self : t) : Py.outcome bool :=
  match Device.status (_device self) !! "switch_state" with
  | None => Py.Raised (Py.OtherException "AttributeError")
  | Some switch_state =>
      Py.Returned
        (negb (bool_decide (switch_state = Py.VStr "unavailable"))
         && existsb (λ cap, Py.contains cap (Device.capabilities (_device self)))
              (_capabilities self))
  end.

(** [MediaPlayerState] of the host, with the values of its members. *)
Inductive MediaPlayerState :=
| OFF | ON | IDLE | PLAYING | PAUSED | STANDBY | BUFFERING.

#[global] Instance MediaPlayerState_eq_dec : EqDecision MediaPlayerState.
Proof. solve_decision. Defined.

Definition SMARTTHINGS_TO_HA_STATE : Py.dict MediaPlayerState :=
  [ ("playing", PLAYING);
    ("paused", PAUSED);
    ("stopped", IDLE);
    ("buffering", PLAYING);
    ("idle", IDLE);
    ("off", OFF);
    ("on", ON) ].

(** [SMARTTHINGS_TO_HA_STATE.get(st_state, MediaPlayerState.IDLE)]: the
    key is hashed first, and a list is unhashable; every other value that
    is not a string is equal to no key. *)
Definition state_of_playback_status (st_state : Py.value)
    : Py.outcome MediaPlayerState :=
  match st_state with
  | Py.VList _ => Py.Raised (Py.OtherException "TypeError")
  | Py.VStr s => Py.Returned (default IDLE (Py.get s SMARTTHINGS_TO_HA_STATE))
  | _ => Py.Returned IDLE
  end.

(** The [state] property. *)
Definition state (self : t) : Py.outcome MediaPlayerState :=
  let status := Device.status (_device self) in
  if bool_decide (status !! "switch" = Some (Py.VStr "off"))
  then Py.Returned OFF
  else if value_truthy (getattr_or_None status "tv_channel_name")
  then Py.Returned ON
  else
    match status !! "playback_status" with
    | Some st_state => state_of_playback_status st_state
    | None =>
        match status !! "volume" with
        | Some Py.VNone | None => Py.Returned IDLE
        | Some _ => Py.Returned ON
        end
    end.



Section Commands.

Variable command :
  Device.t → string → string → string → list string → Py.outcome Py.value.

(** [str.isdigit] of Python. *)
Variable isdigit : string → bool.

(** [await self._device.command("main", capability, command, args)], not
    inside any [try]: an exception ends the method.  A call without
    arguments is recorded with the empty list. *)
Definition send (self : t) (capability cmd : string) (args : list string)
    : Py.outcome unit * list action :=
  (match command (_device self) "main" capability cmd args with
   | Py.Returned _ => Py.Returned ()
   | Py.Raised ex => Py.Raised ex
   end,
   [DeviceCommand (Device.device_id (_device self)) "main" capability cmd args]).

(** [_LOGGER.warning(msg, self._device.label)]. *)
Definition warn (self : t) (msg : string) : Py.outcome unit * list action :=
  (Py.Returned (), [LogWarning msg [AStr (Device.label (_device self))]]).

Definition async_turn_on (self : t) : Py.outcome unit * list action :=
  if Py.contains Capability.switch (Device.capabilities (_device self))
  then send self Capability.switch "on" []
  else warn self "Device %s does not support power on".

Definition async_turn_off (self : t) : Py.outcome unit * list action :=
  if Py.contains Capability.switch (Device.capabilities (_device self))
  then send self Capability.switch "off" []
  else warn self "Device %s does not support power off".

Definition async_volume_up (self : t) : Py.outcome unit * list action :=
  if Py.contains Capability.audio_volume (_capabilities self)
  then send self Capability.audio_volume "volumeUp" []
  else warn self "Device %s does not support volume up".

Definition async_volume_down (self : t) : Py.outcome unit * list action :=
  if Py.contains Capability.audio_volume (_capabilities self)
  then send self Capability.audio_volume "volumeDown" []
  else warn self "Device %s does not support volume down".

Definition async_mute_volume (self : t) (mute : bool)
    : Py.outcome unit * list action :=
  if Py.contains Capability.audio_volume (_capabilities self)
  then send self Capability.audio_volume (if mute then "mute" else "unmute") []
  else warn self "Device %s does not support mute".

Definition async_media_play (self : t) : Py.outcome unit * list action :=
  if Py.contains Capability.media_playback (_capabilities self)
  then send self Capability.media_playback "play" []
  else warn self "Device %s does not support play".

Definition async_media_pause (self : t) : Py.outcome unit * list action :=
  if Py.contains Capability.media_playback (_capabilities self)
  then send self Capability.media_playback "pause" []
  else warn self "Device %s does not support pause".

Definition async_media_stop (self : t) : Py.outcome unit * list action :=
  if Py.contains Capability.media_playback (_capabilities self)
  then send self Capability.media_playback "stop" []
  else warn self "Device %s does not support stop".

Definition async_media_next_track (self : t) : Py.outcome unit * list action :=
  if Py.contains Capability.media_playback (_capabilities self)
  then send self Capability.media_playback "fastForward" []
  else if Py.contains Capability.tv_channel (_capabilities self)
  then send self Capability.tv_channel "channelUp" []
  else warn self "Device %s does not support next track".

Definition async_media_previous_track (self : t)
    : Py.outcome unit * list action :=
  if Py.contains Capability.media_playback (_capabilities self)
  then send self Capability.media_playback "rewind" []
  else if Py.contains Capability.tv_channel (_capabilities self)
  then send self Capability.tv_channel "channelDown" []
  else warn self "Device %s does not support previous track".

Definition async_select_source (self : t) (source : string)
    : Py.outcome unit * list action :=
  if Py.contains Capability.media_input_source (_capabilities self)
  then send self Capability.media_input_source "setInputSource" [source]
  else if Py.contains Capability.tv_channel (_capabilities self)
  then
    if isdigit source
    then send self Capability.tv_channel "setTvChannel" [source]
    else send self Capability.tv_channel "setTvChannelName" [source]
  else warn self "Device %s does not support source selection".

End Commands.

(** What each of these methods guarantees: either the entity lacks the
    capability, nothing is sent and one warning is logged; or exactly one
    command is sent, nothing is logged, and the call ends as the command
    does. *)
Definition command_or_warning
    (command :
       Device.t → string → string → string → list string → Py.outcome Py.value)
    (self : t) (result : Py.outcome unit * list action) : Prop :=
  (fst result = Py.Returned ()
   ∧ ∃ msg, snd result = [LogWarning msg [AStr (Device.label (_device self))]])
  ∨ ∃ capability cmd args,
      snd result
      = [DeviceCommand (Device.device_id (_device self)) "main" capability cmd
           args]
      ∧ ((∃ v, command (_device self) "main" capability cmd args
               = Py.Returned v)
         → fst result = Py.Returned ())
      ∧ ∀ ex, command (_device self) "main" capability cmd args = Py.Raised ex
              → fst result = Py.Raised ex.

End SmartThingsMediaPlayer.

(** ** The other service handlers, and the removal of an entry *)

Module Entry.
(** A configuration entry with the members of [entry.data] that the
    removal and the service handlers read, beside those of
    [ConfigEntry.t]. *)
Record t := mk {
  entry_id : string;
  app_id : string;
  installed_app_id : string;
  config : ConfigEntry.t;
}.
End Entry.

Section OtherServices.

(** [hass.config_entries.async_entries(DOMAIN)] and
    [hass.data[DOMAIN][DATA_BROKERS]]. *)
Variable entries : list Entry.t.
Variable brokers : Py.dict DeviceBroker.t.

(** [device.status.refresh()] of the client library: the attributes of the
    status afterwards, or the exception. *)
Variable refresh : Device.t → Py.outcome (gmap string Py.value).

(** [api.execute_scene(scene_id)] on a client created for the entry;
    creating the client is part of the call. *)
Variable execute_scene : ConfigEntry.t → string → Py.outcome unit.

(** The loop of [refresh_device_service] that looks for the device: the
    first entry, in order, whose broker has the device id. *)
Fixpoint find_device (device_id : string) (entries : list Entry.t)
    : option (string * DeviceBroker.t * Device.t) :=
  match entries with
  | [] => None
  | entry :: entries' =>
      match Py.get (Entry.entry_id entry) brokers with
      | Some broker =>
          match DeviceBroker.devices broker !! device_id with
          | Some device => Some (Entry.entry_id entry, broker, device)
          | None => find_device device_id entries'
          end
      | None => find_device device_id entries'
      end
  end.

(** [refresh_device_service(call)], given [call.data.get("device_id")]:
    how the call ends, the brokers afterwards (the status of the device is
    refreshed in place), and the effects. *)
Definition refresh_device_service (device_id : option string)
    : Py.outcome unit * Py.dict DeviceBroker.t * list effect :=
  match device_id with
  | None => (Py.Returned (), brokers,
             [Log ERROR "refresh_device requires device_id" []])
  | Some device_id =>
      if negb (Py.truthy device_id)
      then (Py.Returned (), brokers,
            [Log ERROR "refresh_device requires device_id" []])
      else
        match find_device device_id entries with
        | None => (Py.Returned (), brokers,
                   [Log ERROR "Device %s not found" [AStr device_id]])
        | Some (entry_id, broker, device) =>
            match refresh device with
            | Py.Returned status =>
                let device' :=
                  {| Device.device_id := Device.device_id device;
                     Device.label := Device.label device;
                     Device.capabilities := Device.capabilities device;
                     Device.status := status |} in
                let broker' :=
                  {| DeviceBroker._installed_app_id :=
                       DeviceBroker._installed_app_id broker;
                     DeviceBroker._assignments :=
                       DeviceBroker._assignments broker;
                     DeviceBroker.devices :=
                       <[device_id := device']> (DeviceBroker.devices broker) |} in
                (Py.Returned (), Py.set entry_id broker' brokers,
                 [ Log INFO "Refreshed device %s status" [AStr device_id];
                   DispatcherSend SIGNAL_SMARTTHINGS_UPDATE {[ device_id ]} ])
            | Py.Raised ex =>
                (Py.Returned (), brokers,
                 [Log ERROR "Failed to refresh device %s: %s"
                    [AStr device_id; AExn ex]])
            end
        end
  end.

(** [execute_scene_service(call)], given [call.data.get("scene_id")]. *)
Definition execute_scene_service (scene_id : option string)
    : Py.outcome unit * list effect :=
  match scene_id with
  | None => (Py.Returned (), [Log ERROR "execute_scene requires scene_id" []])
  | Some scene_id =>
      if negb (Py.truthy scene_id)
      then (Py.Returned (), [Log ERROR "execute_scene requires scene_id" []])
      else
        match entries with
        | [] => (Py.Returned (),
                 [Log ERROR "No SmartThings integration configured" []])
        | entry :: _ =>
            match execute_scene (Entry.config entry) scene_id with
            | Py.Returned _ =>
                (Py.Returned (), [Log INFO "Executed scene %s" [AStr scene_id]])
            | Py.Raised ex =>
                (Py.Returned (),
                 [Log ERROR "Failed to execute scene %s: %s"
                    [AStr scene_id; AExn ex]])
            end
        end
  end.

End OtherServices.

(** What [async_remove_entry] asks of the cloud and of the host, and what
    it logs, in program order. *)
Inductive removal_step :=
| DeleteInstalledApp (installed_app_id : string)
| DeleteApp (app_id : string)
| UnloadSmartappEndpoint
| Logged (e : effect).

Section RemoveEntry.

(** [api.delete_installed_app] and [api.delete_app] of the cloud client,
    and [hass.config_entries.async_entries(DOMAIN)]. *)
Variable delete_installed_app : string → Py.outcome unit.
Variable delete_app : string → Py.outcome unit.
Variable all_entries : list Entry.t.

(** [try: ... except ClientResponseError as ex: if ex.status ==
    HTTPStatus.FORBIDDEN: debug(...) else: raise]: the exception that
    leaves the block, if any, and what is logged. *)
Definition tolerate_forbidden (result : Py.outcome unit) (already_removed : effect)
    : option Py.exn * list removal_step :=
  match result with
  | Py.Returned _ => (None, [])
  | Py.Raised (Py.ClientResponseError status) =>
      if decide (status = HTTPStatus.FORBIDDEN)
      then (None, [Logged already_removed])
      else (Some (Py.ClientResponseError status), [])
  | Py.Raised ex => (Some ex, [])
  end.

Definition async_remove_entry (entry : Entry.t)
    : Py.outcome unit * list removal_step :=
  let installed_app_id := Entry.installed_app_id entry in
  let first :=
    tolerate_forbidden (delete_installed_app installed_app_id)
      (Log DEBUG "Installed app %s has already been removed"
         [AStr installed_app_id]) in
  match fst first with
  | Some ex => (Py.Raised ex, DeleteInstalledApp installed_app_id :: snd first)
  | None =>
      let steps1 :=
        DeleteInstalledApp installed_app_id :: snd first
        ++ [Logged (Log DEBUG "Removed installed app %s"
                      [AStr installed_app_id])] in
      let app_id := Entry.app_id entry in
      let app_count :=
        List.length
          (filter (λ other, Entry.app_id other = app_id) all_entries) in
      if (1 <? app_count)%nat
      then
        (Py.Returned (),
         steps1
         ++ [Logged (Log DEBUG
                       "App %s was not removed because it is in use by other configuration entries"
                       [AStr app_id])])
      else
        let second :=
          tolerate_forbidden (delete_app app_id)
            (Log DEBUG "App %s has already been removed" [AStr app_id]) in
        match fst second with
        | Some ex => (Py.Raised ex, steps1 ++ DeleteApp app_id :: snd second)
        | None =>
            let steps2 :=
              steps1 ++ DeleteApp app_id :: snd second
              ++ [Logged (Log DEBUG "Removed app %s" [AStr app_id])] in
            if (List.length all_entries =? 1)%nat
            then (Py.Returned (), steps2 ++ [UnloadSmartappEndpoint])
            else (Py.Returned (), steps2)
        end
  end.

End RemoveEntry.

(** Whether a deletion lets the removal go on: it succeeded, or failed
    with status 403. *)
Definition tolerated (result : Py.outcome unit) : bool :=
  match result with
  | Py.Returned _ => true
  | Py.Raised (Py.ClientResponseError status) =>
      bool_decide (status = HTTPStatus.FORBIDDEN)
  | Py.Raised _ => false
  end.



(** * Verification *)

(** ** Dictionaries and list removal: basic facts *)

Section DictFacts.
Context {V : Type}.
Implicit Types (d : Py.dict V) (k : string) (v : V).

Lemma get_set_eq k v d : Py.get k (Py.set k v d) = Some v.
Proof.
  induction d as [|[k' v'] d IH]; simpl.
  - by rewrite decide_True.
  - destruct (decide (k = k')) as [->|Hne]; simpl.
    + by rewrite decide_True.
    + by rewrite decide_False.
Qed.

Lemma get_set_ne k k' v d : k ≠ k' → Py.get k' (Py.set k v d) = Py.get k' d.
Proof.
  intros Hne. induction d as [|[k0 v0] d IH]; simpl.
  - by rewrite decide_False.
  - destruct (decide (k = k0)) as [->|Hk]; simpl.
    + by rewrite !decide_False.
    + destruct (decide (k' = k0)); [done | apply IH].
Qed.

Lemma get_set k k' v d :
  Py.get k' (Py.set k v d) = if decide (k = k') then Some v else Py.get k' d.
Proof.
  destruct (decide (k = k')) as [->|Hne];
    [apply get_set_eq | by apply get_set_ne].
Qed.

Lemma elem_of_keys_set k k' v d :
  k' ∈ Py.keys (Py.set k v d) ↔ k' = k ∨ k' ∈ Py.keys d.
Proof.
  unfold Py.keys. induction d as [|[k0 v0] d IH]; simpl.
  - rewrite list_elem_of_singleton, elem_of_nil. tauto.
  - destruct (decide (k = k0)) as [->|Hk]; simpl.
    + rewrite !elem_of_cons. tauto.
    + rewrite !elem_of_cons, IH. tauto.
Qed.

Lemma NoDup_keys_set k v d : NoDup (Py.keys d) → NoDup (Py.keys (Py.set k v d)).
Proof.
  unfold Py.keys. induction d as [|[k0 v0] d IH]; simpl; intros Hnd.
  - apply NoDup_singleton.
  - apply NoDup_cons in Hnd as [Hk0 Hnd].
    destruct (decide (k = k0)) as [->|Hk]; simpl.
    + by apply NoDup_cons.
    + apply NoDup_cons. split; [|by apply IH].
      intros Hin. apply (elem_of_keys_set k k0 v d) in Hin as [->|Hin]; done.
Qed.

Lemma elem_of_get_Some k v d : NoDup (Py.keys d) → (k, v) ∈ d → Py.get k d = Some v.
Proof.
  unfold Py.keys. induction d as [|[k0 v0] d IH]; simpl; intros Hnd Hin.
  - by apply elem_of_nil in Hin.
  - apply NoDup_cons in Hnd as [Hk0 Hnd].
    apply elem_of_cons in Hin as [[= <- <-]|Hin].
    + by rewrite decide_True.
    + destruct (decide (k = k0)) as [->|Hk]; [|by apply IH].
      exfalso. apply Hk0. apply list_elem_of_fmap. by exists (k0, v).
Qed.

Lemma elem_of_keys_get k d : k ∈ Py.keys d ↔ is_Some (Py.get k d).
Proof.
  unfold Py.keys. induction d as [|[k0 v0] d IH]; simpl.
  - rewrite elem_of_nil. split; [done | by intros [? ?]].
  - rewrite elem_of_cons, IH.
    destruct (decide (k = k0)) as [->|Hk]; [|tauto].
    split; [by eexists | by left].
Qed.

End DictFacts.

Section RemoveFacts.
Implicit Types (x y : string) (l : list string).

Lemma contains_true x l : Py.contains x l = true ↔ x ∈ l.
Proof. unfold Py.contains. apply bool_decide_eq_true. Qed.

Lemma contains_false x l : Py.contains x l = false ↔ x ∉ l.
Proof. unfold Py.contains. apply bool_decide_eq_false. Qed.

Lemma elem_of_remove_subset x y l : y ∈ Py.remove x l → y ∈ l.
Proof.
  induction l as [|z l IH]; simpl; [done|].
  destruct (decide (x = z)) as [->|Hne]; rewrite !elem_of_cons.
  - by right.
  - intros [->|Hin]; [by left | right; by apply IH].
Qed.

Lemma elem_of_remove_ne x y l : x ≠ y → y ∈ Py.remove x l ↔ y ∈ l.
Proof.
  intros Hne. induction l as [|z l IH]; simpl; [done|].
  destruct (decide (x = z)) as [->|Hz]; rewrite !elem_of_cons.
  - split; [by right | by intros [->|?]].
  - by rewrite IH.
Qed.

Lemma NoDup_remove x l : NoDup l → NoDup (Py.remove x l) ∧ x ∉ Py.remove x l.
Proof.
  induction l as [|z l IH]; simpl; intros Hnd.
  - split; [constructor | apply not_elem_of_nil].
  - apply NoDup_cons in Hnd as [Hz Hnd].
    destruct (decide (x = z)) as [->|Hne]; [done|].
    destruct (IH Hnd) as [IH1 IH2]. split.
    + apply NoDup_cons. split; [|done].
      intros Hin. by apply elem_of_remove_subset in Hin.
    + apply not_elem_of_cons. done.
Qed.

Lemma contains_cons_eq x l : Py.contains x (x :: l) = true.
Proof. apply contains_true, elem_of_cons. by left. Qed.

Lemma contains_cons_ne x y l : x ≠ y → Py.contains y (x :: l) = Py.contains y l.
Proof.
  intros Hne. unfold Py.contains. apply bool_decide_ext.
  rewrite elem_of_cons. split; [|by right].
  by intros [->|?].
Qed.

Lemma contains_remove_ne x y l :
  x ≠ y → Py.contains y (Py.remove x l) = Py.contains y l.
Proof.
  intros Hne. unfold Py.contains. apply bool_decide_ext.
  by apply elem_of_remove_ne.
Qed.

End RemoveFacts.

(** ** Capability slot assignment: the loops *)

Section AssignFacts.
Variable PLATFORMS : list string.
Variable import_module : string → module.

Abbreviation assign_platform := (assign_platform import_module).
Abbreviation assign_platforms := (assign_platforms import_module).
Abbreviation pool_offered := (pool_offered import_module).
Abbreviation probe_returns := (probe_returns import_module).

Implicit Types (pool assigned caps : list string) (slots : Py.dict string).

(** *** The inner loop *)

Lemma draw_down_get platform assigned pool slots c :
  Py.get c (snd (draw_down platform assigned (pool, slots)))
  = if Py.contains c assigned && Py.contains c pool
    then Some platform else Py.get c slots.
Proof.
  revert pool slots.
  induction assigned as [|a assigned IH]; intros pool slots; simpl; [done|].
  destruct (Py.contains a pool) eqn:Ha.
  - rewrite IH, get_set.
    destruct (decide (a = c)) as [->|Hne].
    + rewrite Ha, contains_cons_eq. simpl. by destruct (_ && _).
    + rewrite (contains_remove_ne a c pool Hne).
      by rewrite (contains_cons_ne a c assigned Hne).
  - rewrite IH.
    destruct (decide (a = c)) as [->|Hne].
    + rewrite Ha, !andb_false_r. done.
    + by rewrite (contains_cons_ne a c assigned Hne).
Qed.

Lemma draw_down_pool_subset platform assigned pool slots c :
  c ∈ fst (draw_down platform assigned (pool, slots)) → c ∈ pool.
Proof.
  revert pool slots.
  induction assigned as [|a assigned IH]; intros pool slots; simpl; [done|].
  destruct (Py.contains a pool); [|apply IH].
  intros Hin. apply IH in Hin. by apply elem_of_remove_subset in Hin.
Qed.

Lemma draw_down_keys_NoDup platform assigned pool slots :
  NoDup (Py.keys slots) →
  NoDup (Py.keys (snd (draw_down platform assigned (pool, slots)))).
Proof.
  revert pool slots.
  induction assigned as [|a assigned IH]; intros pool slots Hnd; simpl; [done|].
  destruct (Py.contains a pool); [|by apply IH].
  apply IH. by apply NoDup_keys_set.
Qed.

Lemma draw_down_pool_NoDup platform assigned pool slots :
  NoDup pool →
  NoDup (fst (draw_down platform assigned (pool, slots)))
  ∧ ∀ c, c ∈ fst (draw_down platform assigned (pool, slots))
         ↔ c ∈ pool ∧ c ∉ assigned.
Proof.
  revert pool slots.
  induction assigned as [|a assigned IH]; intros pool slots Hnd; simpl.
  - split; [done|]. intros c. rewrite elem_of_nil. tauto.
  - destruct (Py.contains a pool) eqn:Ha.
    + destruct (NoDup_remove a pool Hnd) as [Hnd' Hnot].
      destruct (IH (Py.remove a pool) (Py.set a platform slots) Hnd')
        as [IH1 IH2].
      split; [done|]. intros c. rewrite IH2, not_elem_of_cons.
      destruct (decide (a = c)) as [->|Hne].
      * tauto.
      * rewrite (elem_of_remove_ne a c pool Hne).
        assert (c ≠ a) by congruence. tauto.
    + apply contains_false in Ha.
      destruct (IH pool slots Hnd) as [IH1 IH2].
      split; [done|]. intros c. rewrite IH2, not_elem_of_cons.
      split; [|tauto]. intros [Hc Hrest]. split; [done|].
      split; [by intros ->|done].
Qed.

(** *** One platform *)

(** The three ways out of the loop body that leave the state as it is (no
    probe, [None], the empty list), and the draw-down that remains. *)
Ltac probe_cases platform pool :=
  unfold assign_platform; simpl;
  destruct (getattr (import_module platform) "get_capabilities")
    as [get_capabilities|]; [|done];
  destruct (get_capabilities pool) as [[|? ?]|]; [done| |done].

Lemma assign_platform_get pool slots platform c :
  Py.get c (snd (assign_platform (pool, slots) platform))
  = if probe_returns platform pool c && Py.contains c pool
    then Some platform else Py.get c slots.
Proof.
  unfold probe_returns. probe_cases platform pool.
  apply draw_down_get.
Qed.

Lemma assign_platform_pool_subset pool slots platform c :
  c ∈ fst (assign_platform (pool, slots) platform) → c ∈ pool.
Proof. probe_cases platform pool. apply draw_down_pool_subset. Qed.

Lemma assign_platform_keys_NoDup pool slots platform :
  NoDup (Py.keys slots) →
  NoDup (Py.keys (snd (assign_platform (pool, slots) platform))).
Proof. probe_cases platform pool. apply draw_down_keys_NoDup. Qed.

Lemma assign_platform_pool_NoDup pool slots platform :
  NoDup pool →
  NoDup (fst (assign_platform (pool, slots) platform))
  ∧ ∀ c, c ∈ fst (assign_platform (pool, slots) platform)
         ↔ c ∈ pool ∧ probe_returns platform pool c = false.
Proof.
  intros Hnd.
  unfold assign_platform, probe_returns. simpl.
  destruct (getattr (import_module platform) "get_capabilities")
    as [get_capabilities|]; [|split; [done | tauto]].
  destruct (get_capabilities pool) as [[|a assigned]|] eqn:Hprobe.
  - split; [done|]. intros c. rewrite contains_false, elem_of_nil. tauto.
  - destruct (draw_down_pool_NoDup platform (a :: assigned) pool slots Hnd)
      as [H1 H2].
    split; [done|]. intros c. rewrite H2, contains_false. done.
  - split; [done | tauto].
Qed.

(** *** The platform loop, platform after platform *)

Lemma assign_platforms_snoc platforms platform caps :
  assign_platforms (platforms ++ [platform]) caps
  = assign_platform (assign_platforms platforms caps) platform.
Proof. unfold assign_platforms. by rewrite fold_left_app. Qed.

Lemma pool_offered_subset before caps c :
  c ∈ pool_offered before caps → c ∈ caps.
Proof.
  unfold pool_offered.
  induction before as [|p before IH] using rev_ind; [done|].
  rewrite assign_platforms_snoc.
  destruct (assign_platforms before caps) as [pool slots] eqn:Hst.
  intros Hin. apply assign_platform_pool_subset in Hin. by apply IH.
Qed.

Lemma assign_platforms_keys_NoDup platforms caps :
  NoDup (Py.keys (snd (assign_platforms platforms caps))).
Proof.
  induction platforms as [|p platforms IH] using rev_ind.
  - constructor.
  - rewrite assign_platforms_snoc.
    destruct (assign_platforms platforms caps) as [pool slots].
    by apply assign_platform_keys_NoDup.
Qed.

(** The slot of a capability after the loop over [platforms ++ [p]]. *)
Lemma assign_platforms_snoc_get platforms p caps c :
  Py.get c (snd (assign_platforms (platforms ++ [p]) caps))
  = if probe_returns p (pool_offered platforms caps) c
       && Py.contains c (pool_offered platforms caps)
    then Some p else Py.get c (snd (assign_platforms platforms caps)).
Proof.
  rewrite assign_platforms_snoc. unfold pool_offered.
  destruct (assign_platforms platforms caps) as [pool slots].
  apply assign_platform_get.
Qed.

(** Every slot was claimed: some platform of the list was offered the
    capability and its probe returned it. *)
Lemma assign_platforms_get_claimed platforms caps c q :
  Py.get c (snd (assign_platforms platforms caps)) = Some q →
  ∃ i, platforms !! i = Some q
       ∧ probe_returns q (pool_offered (take i platforms) caps) c = true
       ∧ c ∈ pool_offered (take i platforms) caps.
Proof.
  induction platforms as [|p platforms IH] using rev_ind; [done|].
  rewrite assign_platforms_snoc_get.
  destruct (probe_returns p _ c && Py.contains c _) eqn:Hclaim.
  - intros [= <-]. apply andb_true_iff in Hclaim as [Hret Hin].
    exists (length platforms). rewrite take_app_length.
    split; [by rewrite list_lookup_middle|].
    split; [done | by apply contains_true].
  - intros Hget. destruct (IH Hget) as (i & Hi & Hret & Hin).
    pose proof (lookup_lt_Some _ _ _ Hi) as Hlt.
    exists i. rewrite take_app_le by lia.
    split; [by rewrite lookup_app_l|done].
Qed.

(** *** Duplicate-free pools *)

Lemma pool_offered_NoDup platforms caps :
  NoDup caps →
  NoDup (pool_offered platforms caps)
  ∧ ∀ c, c ∈ pool_offered platforms caps
         ↔ c ∈ caps
           ∧ ∀ j q, platforms !! j = Some q →
               probe_returns q (pool_offered (take j platforms) caps) c = false.
Proof.
  intros Hnd.
  induction platforms as [|p platforms [IHnd IH]] using rev_ind.
  - split; [done|]. intros c. split; [|tauto]. intros Hc. split; [done|].
    intros j q Hj. done.
  - unfold pool_offered at 1 2. rewrite assign_platforms_snoc.
    unfold pool_offered in IHnd.
    pose proof (IH) as IH'. unfold pool_offered at 1 in IH'.
    destruct (assign_platforms platforms caps) as [pool slots] eqn:Hst.
    simpl in IHnd, IH'.
    destruct (assign_platform_pool_NoDup pool slots p IHnd) as [H1 H2].
    split; [done|]. intros c. rewrite H2, IH'.
    assert (pool_offered platforms caps = pool) as Hpool.
    { unfold pool_offered. by rewrite Hst. }
    split.
    + intros [[Hc Hearlier] Hp]. split; [done|]. intros j q Hj.
      apply lookup_snoc_Some in Hj as [[Hlt Hj]|[-> ->]].
      * rewrite take_app_le by lia. by apply Hearlier.
      * rewrite take_app_length. by rewrite Hpool.
    + intros [Hc Hall]. split; [split; [done|]|].
      * intros j q Hj. pose proof (lookup_lt_Some _ _ _ Hj) as Hlt.
        specialize (Hall j q). rewrite take_app_le in Hall by lia.
        apply Hall. by rewrite lookup_app_l.
      * specialize (Hall (length platforms) p).
        rewrite take_app_length, Hpool in Hall.
        apply Hall. by rewrite list_lookup_middle.
Qed.

(** On a duplicate-free pool the slot of a capability is the first
    platform, in iteration order, whose probe returns it. *)
Lemma assign_platforms_get_first platforms caps c q :
  NoDup caps →
  Py.get c (snd (assign_platforms platforms caps)) = Some q
  ↔ c ∈ caps
    ∧ ∃ i, platforms !! i = Some q
           ∧ probe_returns q (pool_offered (take i platforms) caps) c = true
           ∧ ∀ j earlier, j < i → platforms !! j = Some earlier →
               probe_returns earlier (pool_offered (take j platforms) caps) c
               = false.
Proof.
  intros Hnd. revert q.
  induction platforms as [|p platforms IH] using rev_ind; intros q.
  - simpl. split; [done|]. by intros (_ & i & Hi & _).
  - rewrite assign_platforms_snoc_get.
    destruct (pool_offered_NoDup platforms caps Hnd) as [_ Hpool].
    destruct (probe_returns p _ c && Py.contains c _) eqn:Hclaim.
    + apply andb_true_iff in Hclaim as [Hret Hin].
      apply contains_true, Hpool in Hin as [Hc Hearlier].
      split.
      * intros [= <-]. split; [done|]. exists (length platforms).
        rewrite take_app_length.
        split; [by rewrite list_lookup_middle|]. split; [done|].
        intros j earlier Hlt Hj. rewrite take_app_le by lia.
        apply Hearlier. by rewrite lookup_app_l in Hj.
      * intros (_ & i & Hi & Hreti & Hfirst).
        apply lookup_snoc_Some in Hi as [[Hlt Hi]|[-> ->]]; [|done].
        rewrite take_app_le in Hreti by lia.
        rewrite (Hearlier i q Hi) in Hreti. done.
    + rewrite IH. split.
      * intros (Hc & i & Hi & Hreti & Hfirst). split; [done|].
        pose proof (lookup_lt_Some _ _ _ Hi) as Hlt.
        exists i. rewrite take_app_le by lia.
        split; [by rewrite lookup_app_l|]. split; [done|].
        intros j earlier Hj Hlook. rewrite take_app_le by lia.
        apply (Hfirst j earlier Hj). by rewrite lookup_app_l in Hlook by lia.
      * intros (Hc & i & Hi & Hreti & Hfirst). split; [done|].
        apply lookup_snoc_Some in Hi as [[Hlt Hi]|[-> ->]].
        -- exists i. rewrite take_app_le in Hreti by lia.
           split; [done|]. split; [done|].
           intros j earlier Hj Hlook.
           specialize (Hfirst j earlier Hj).
           rewrite take_app_le in Hfirst by lia.
           apply Hfirst. by rewrite lookup_app_l by lia.
        -- exfalso. rewrite take_app_length in Hreti.
           rewrite Hreti in Hclaim. simpl in Hclaim.
           apply contains_false in Hclaim. apply Hclaim, Hpool.
           split; [done|]. intros j earlier Hj.
           pose proof (lookup_lt_Some _ _ _ Hj) as Hlt.
           specialize (Hfirst j earlier Hlt).
           rewrite take_app_le in Hfirst by lia.
           apply Hfirst. by rewrite lookup_app_l by lia.
Qed.

(** *** The assignment table *)

Lemma _assign_capabilities_get (devices : list Device.t) device_id slots :
  Py.get device_id (_assign_capabilities PLATFORMS import_module devices)
  = Some slots →
  ∃ device, device ∈ devices
            ∧ Device.device_id device = device_id
            ∧ slots = device_slots PLATFORMS import_module device.
Proof.
  unfold _assign_capabilities.
  induction devices as [|device devices IH] using rev_ind; [done|].
  rewrite fold_left_app. simpl. rewrite get_set.
  destruct (decide (Device.device_id device = device_id)) as [Heq|Hne].
  - intros [= <-]. exists device. split; [|done].
    apply elem_of_app. right. by apply list_elem_of_singleton.
  - intros Hget. destruct (IH Hget) as (d & Hd & Hid & Hslots).
    exists d. split; [|done]. apply elem_of_app. by left.
Qed.

Lemma _assign_capabilities_total (devices : list Device.t) device :
  device ∈ devices →
  is_Some (Py.get (Device.device_id device)
             (_assign_capabilities PLATFORMS import_module devices)).
Proof.
  unfold _assign_capabilities.
  induction devices as [|d devices IH] using rev_ind; intros Hin.
  - by apply elem_of_nil in Hin.
  - rewrite fold_left_app. simpl. rewrite get_set.
    destruct (decide (Device.device_id d = Device.device_id device));
      [by eexists|].
    apply elem_of_app in Hin as [Hin|Hin]; [by apply IH|].
    apply list_elem_of_singleton in Hin. congruence.
Qed.

End AssignFacts.

(** ** Capability slot assignment: results *)

(** C1.  For any platform list (hence any ordering of it), any module
    loader and any devices, every device of the input has slots under its
    id, and the slots recorded for a device id are those of a device of the
    input with that id, and in them: a capability has at most one platform;
    every capability that has a slot is one of the device's capabilities;
    and a capability that no platform's probe returned, when asked about the
    pool it was offered, has no slot. *)
Theorem assign_capabilities_slots_invariant
    (PLATFORMS : list string) (import_module : string → module)
    (devices : list Device.t) :
  (∀ device,
     device ∈ devices →
     is_Some (Py.get (Device.device_id device)
                (_assign_capabilities PLATFORMS import_module devices)))
  ∧ ∀ device_id slots,
      Py.get device_id (_assign_capabilities PLATFORMS import_module devices)
      = Some slots →
      ∃ device,
        device ∈ devices
        ∧ Device.device_id device = device_id
        ∧ slots = device_slots PLATFORMS import_module device
        ∧ (∀ c p1 p2, (c, p1) ∈ slots → (c, p2) ∈ slots → p1 = p2)
        ∧ (∀ c p, (c, p) ∈ slots → c ∈ Device.capabilities device)
        ∧ (∀ c,
             (∀ i platform,
                PLATFORMS !! i = Some platform →
                probe_returns import_module platform
                  (pool_offered import_module (take i PLATFORMS)
                     (Device.capabilities device)) c = false) →
             c ∉ Py.keys slots).
Proof.
  split; [intros device; apply _assign_capabilities_total|].
  intros device_id slots Hget.
  destruct (_assign_capabilities_get _ _ _ _ _ Hget)
    as (device & Hin & Hid & ->).
  exists device. do 3 (split; [done|]).
  pose proof (assign_platforms_keys_NoDup import_module PLATFORMS
                (Device.capabilities device)) as Hnd.
  fold (device_slots PLATFORMS import_module device) in Hnd.
  split; [|split].
  - intros c p1 p2 H1 H2.
    apply (elem_of_get_Some _ _ _ Hnd) in H1, H2. congruence.
  - intros c p Hc. apply (elem_of_get_Some _ _ _ Hnd) in Hc.
    apply assign_platforms_get_claimed in Hc as (i & _ & _ & Hpool).
    by apply pool_offered_subset in Hpool.
  - intros c Hnone Hkey. apply elem_of_keys_get in Hkey as [p Hp].
    apply assign_platforms_get_claimed in Hp as (i & Hi & Hret & _).
    rewrite (Hnone i p Hi) in Hret. done.
Qed.

Lemma assign_capabilities_slots_invariant_witness :
  ∃ device,
    device ∈ [tv_device; robot_device]
    ∧ Device.device_id device = "tv-1"
    ∧ [ (Capability.media_input_source, "button");
        (Capability.audio_volume, "media_player") ]
      = device_slots ["button"; "media_player"; "number"]
          package_import_module device
    ∧ (∀ c p1 p2,
         (c, p1) ∈ [ (Capability.media_input_source, "button");
                     (Capability.audio_volume, "media_player") ] →
         (c, p2) ∈ [ (Capability.media_input_source, "button");
                     (Capability.audio_volume, "media_player") ] →
         p1 = p2)
    ∧ (∀ c p,
         (c, p) ∈ [ (Capability.media_input_source, "button");
                    (Capability.audio_volume, "media_player") ] →
         c ∈ Device.capabilities device)
    ∧ (∀ c,
         (∀ i platform,
            ["button"; "media_player"; "number"] !! i = Some platform →
            probe_returns package_import_module platform
              (pool_offered package_import_module
                 (take i ["button"; "media_player"; "number"])
                 (Device.capabilities device)) c = false) →
         c ∉ Py.keys [ (Capability.media_input_source, "button");
                       (Capability.audio_volume, "media_player") ]).
Proof.
  apply (proj2 (assign_capabilities_slots_invariant
                  ["button"; "media_player"; "number"] package_import_module
                  [tv_device; robot_device]) "tv-1").
  reflexivity.
Defined.

(** The order of the platform list decides who presents a capability that
    several tables list. *)
Example tv_slots_button_first :
  _assign_capabilities ["button"; "media_player"; "number"]
    package_import_module [tv_device]
  = [ ("tv-1", [ (Capability.media_input_source, "button");
                 (Capability.audio_volume, "media_player") ]) ].
Proof. reflexivity. Qed.

Example tv_slots_number_first :
  _assign_capabilities ["number"; "media_player"; "button"]
    package_import_module [tv_device]
  = [ ("tv-1", [ (Capability.audio_volume, "number");
                 (Capability.media_input_source, "media_player") ]) ].
Proof. reflexivity. Qed.



(** C7 (amended).  [button], [media_player], [number] and [select] bind a
    probe to the name [get_capabilities], and the broker's platform loop
    calls it on the pool and draws down what it returns.  [vacuum] binds
    its probe to the name [get_vacuum_capabilities] only: the loop finds no
    [get_capabilities] there and leaves pool and slots as they are. *)
Theorem platform_modules_probes (st : pool_slots) :
  getattr (package_import_module "button") "get_capabilities"
    = Some Button.get_capabilities
  ∧ getattr (package_import_module "media_player") "get_capabilities"
    = Some MediaPlayer.get_capabilities
  ∧ getattr (package_import_module "number") "get_capabilities"
    = Some Number.get_capabilities
  ∧ getattr (package_import_module "select") "get_capabilities"
    = Some Select.get_capabilities
  ∧ (∀ platform get_capabilities,
       getattr (package_import_module platform) "get_capabilities"
         = Some get_capabilities →
       assign_platform package_import_module st platform
       = match get_capabilities (fst st) with
         | Some (capability :: assigned) =>
             draw_down platform (capability :: assigned) st
         | _ => st
         end)
  ∧ getattr (package_import_module "vacuum") "get_capabilities" = None
  ∧ getattr (package_import_module "vacuum") "get_vacuum_capabilities"
    = Some Vacuum.get_vacuum_capabilities
  ∧ assign_platform package_import_module st "vacuum" = st.
Proof.
  do 4 (split; [reflexivity|]). split; [|by repeat split].
  intros platform get_capabilities Hget. unfold assign_platform.
  rewrite Hget. by destruct (get_capabilities st.1) as [[|??]|].
Qed.

Lemma platform_modules_probes_witness :
  getattr (package_import_module "select") "get_capabilities"
    = Some Select.get_capabilities
  ∧ assign_platform package_import_module
      ([Capability.oven_mode; Capability.switch], []) "select"
    = ([Capability.switch], [(Capability.oven_mode, "select")]).
Proof.
  pose proof (platform_modules_probes
                ([Capability.oven_mode; Capability.switch], []))
    as (_ & _ & _ & Hselect & Hcall & _).
  split; [exact Hselect|].
  rewrite (Hcall "select" Select.get_capabilities Hselect). reflexivity.
Defined.

(** C7 as stated fails for [vacuum]: its module has no attribute
    [get_capabilities], so a capability that [get_vacuum_capabilities]
    supports gets no slot. *)
Lemma vacuum_declares_no_get_capabilities :
  getattr (package_import_module "vacuum") "get_capabilities" = None
  ∧ Vacuum.get_vacuum_capabilities (Device.capabilities robot_device)
    = Some [Capability.robot_cleaner_movement]
  ∧ _assign_capabilities ["vacuum"] package_import_module [robot_device]
    = [("robot-1", [])].
Proof. by repeat split. Qed.

(** ** Push-event dispatch: the event loop *)

Section EventLoopFacts.
Import DeviceBroker.

Variable apply_attribute_update :
  gmap string Py.value → string → string → string → Py.value → Py.value →
  gmap string Py.value.

Abbreviation handle_event := (handle_event apply_attribute_update).

Lemma handle_event_identity st evt k :
  identity <$> loop_devices (handle_event st evt) !! k
  = identity <$> loop_devices st !! k.
Proof.
  unfold DeviceBroker.handle_event.
  destruct (negb _); [done|].
  destruct (loop_devices st !! Event.device_id evt) as [device|] eqn:Hdev;
    [|done].
  simpl. destruct (decide (Event.device_id evt = k)) as [<-|Hne].
  - by rewrite lookup_insert_eq, Hdev.
  - by rewrite lookup_insert_ne.
Qed.

Lemma fold_handle_event_identity events st k :
  identity <$> loop_devices (fold_left handle_event events st) !! k
  = identity <$> loop_devices st !! k.
Proof.
  revert st. induction events as [|evt events IH]; intros st; simpl; [done|].
  by rewrite IH, handle_event_identity.
Qed.

Lemma handle_event_signals st evt :
  signals_sent (trace (handle_event st evt)) = signals_sent (trace st).
Proof.
  unfold DeviceBroker.handle_event.
  destruct (negb _); [done|].
  destruct (loop_devices st !! Event.device_id evt) as [device|]; [|done].
  simpl. unfold signals_sent. rewrite omap_app.
  destruct (_ && _); simpl; by rewrite app_nil_r.
Qed.

Lemma fold_handle_event_signals events st :
  signals_sent (trace (fold_left handle_event events st))
  = signals_sent (trace st).
Proof.
  revert st. induction events as [|evt events IH]; intros st; simpl; [done|].
  by rewrite IH, handle_event_signals.
Qed.

Lemma handle_event_fired st evt :
  fired_events (trace (handle_event st evt))
  = fired_events (trace st)
    ++ option_list (button_event_of (loop_devices st) evt).
Proof.
  unfold DeviceBroker.handle_event, button_event_of, is_device_event.
  destruct (String.eqb (Event.event_type evt) EVENT_TYPE_DEVICE); simpl;
    [|by rewrite app_nil_r].
  destruct (loop_devices st !! Event.device_id evt) as [device|]; simpl.
  - unfold fired_events. rewrite omap_app. unfold is_button_event.
    destruct (_ && _); simpl; [done | by rewrite app_nil_r].
  - destruct (is_button_event evt); simpl; by rewrite app_nil_r.
Qed.

Lemma button_event_of_identity table table' evt :
  identity <$> table !! Event.device_id evt
  = identity <$> table' !! Event.device_id evt →
  button_event_of table evt = button_event_of table' evt.
Proof.
  unfold button_event_of. intros Hid.
  destruct (_ && _); [|done].
  destruct (table !! Event.device_id evt) as [d|],
           (table' !! Event.device_id evt) as [d'|]; simpl in *; try done.
  injection Hid as _ Hlabel. unfold button_event_data. by rewrite Hlabel.
Qed.

Lemma fold_handle_event_fired events st :
  fired_events (trace (fold_left handle_event events st))
  = fired_events (trace st) ++ omap (button_event_of (loop_devices st)) events.
Proof.
  revert st. induction events as [|evt events IH]; intros st; simpl.
  - by rewrite app_nil_r.
  - rewrite IH, handle_event_fired, <- app_assoc. f_equal.
    assert (omap (button_event_of (loop_devices (handle_event st evt))) events
            = omap (button_event_of (loop_devices st)) events) as ->.
    { apply list_omap_ext. apply Forall2_same_length_lookup_2; [done|].
      intros i e e' He He'. assert (e' = e) as -> by congruence.
      apply button_event_of_identity. apply handle_event_identity. }
    by destruct (button_event_of (loop_devices st) evt).
Qed.

Lemma handle_event_updated st evt id :
  id ∈ updated_devices (handle_event st evt)
  ↔ id ∈ updated_devices st
    ∨ (is_device_event evt = true
       ∧ Device.device_id <$> loop_devices st !! Event.device_id evt
         = Some id).
Proof.
  unfold DeviceBroker.handle_event, is_device_event.
  destruct (String.eqb (Event.event_type evt) EVENT_TYPE_DEVICE); simpl.
  - destruct (loop_devices st !! Event.device_id evt) as [device|]; simpl.
    + rewrite elem_of_union, elem_of_singleton. split.
      * intros [->|?]; [right | left]; done.
      * intros [?|[_ [= <-]]]; [right | left]; done.
    + split; [by left | by intros [?|[_ ?]]].
  - split; [by left | by intros [?|[? _]]].
Qed.

Lemma fold_handle_event_updated events st id :
  id ∈ updated_devices (fold_left handle_event events st)
  ↔ id ∈ updated_devices st
    ∨ ∃ evt, evt ∈ events
             ∧ is_device_event evt = true
             ∧ Device.device_id <$> loop_devices st !! Event.device_id evt
               = Some id.
Proof.
  revert st. induction events as [|evt events IH]; intros st; simpl.
  - split; [by left|]. intros [?|(evt & Hin & _)]; [done|].
    by apply elem_of_nil in Hin.
  - rewrite IH, handle_event_updated.
    assert (∀ e, Device.device_id <$>
                   loop_devices (handle_event st evt) !! Event.device_id e
                 = Device.device_id <$> loop_devices st !! Event.device_id e)
      as Hsame.
    { intros e.
      pose proof (handle_event_identity st evt (Event.device_id e)) as Hid.
      destruct (loop_devices (handle_event st evt) !! Event.device_id e),
               (loop_devices st !! Event.device_id e);
        simpl in *; unfold identity in *; congruence. }
    split.
    + intros [[?|[? ?]]|(e & Hin & Hdev & Hid)].
      * by left.
      * right. exists evt. split; [apply elem_of_cons; by left|done].
      * right. exists e. rewrite Hsame in Hid.
        split; [apply elem_of_cons; by right|done].
    + intros [?|(e & Hin & Hdev & Hid)]; [by left; left|].
      apply elem_of_cons in Hin as [->|Hin].
      * left. by right.
      * right. exists e. by rewrite Hsame.
Qed.

(** The device table a broker is created with is keyed by device id. *)
Lemma devices_by_id_keyed (devices : list Device.t) k device :
  devices_by_id devices !! k = Some device → Device.device_id device = k.
Proof.
  unfold devices_by_id.
  induction devices as [|d devices IH] using rev_ind; [done|].
  rewrite fold_left_app. simpl.
  destruct (decide (Device.device_id d = k)) as [<-|Hne].
  - rewrite lookup_insert_eq. by intros [= <-].
  - by rewrite lookup_insert_ne.
Qed.

End EventLoopFacts.

(** ** Push-event dispatch: results *)

Section EventHandlerResults.
Import DeviceBroker.

Variable apply_attribute_update :
  gmap string Py.value → string → string → string → Py.value → Py.value →
  gmap string Py.value.

Abbreviation _event_handler := (_event_handler apply_attribute_update).

Lemma event_handler_matching self req :
  Request.installed_app_id req = _installed_app_id self →
  _event_handler self req
  = let st :=
      fold_left (handle_event apply_attribute_update) (Request.events req)
        {| loop_devices := devices self;
           updated_devices := ∅;
           trace := [] |} in
    (Py.Returned (),
     {| _installed_app_id := _installed_app_id self;
        _assignments := _assignments self;
        devices := loop_devices st |},
     trace st
       ++ [DispatcherSend SIGNAL_SMARTTHINGS_UPDATE (updated_devices st)]).
Proof.
  intros Hid. unfold DeviceBroker._event_handler.
  by rewrite Hid, String.eqb_refl.
Qed.

End EventHandlerResults.

(** The sample batch: two button pushes on the doorbell, a volume update
    on the TV, an event for an unknown device and a timer event. *)
Example sample_batch_effects :
  snd (DeviceBroker._event_handler record_attribute sample_broker
         sample_request)
  = [ BusFire EVENT_BUTTON
        (DeviceBroker.button_event_data pushed_event doorbell_device);
      Log DEBUG "Fired button event: %s"
        [ADict (DeviceBroker.button_event_data pushed_event doorbell_device)];
      Log DEBUG "Push update received: %s"
        [ADict (DeviceBroker.push_update_data volume_event)];
      BusFire EVENT_BUTTON
        (DeviceBroker.button_event_data pushed_event doorbell_device);
      Log DEBUG "Fired button event: %s"
        [ADict (DeviceBroker.button_event_data pushed_event doorbell_device)];
      DispatcherSend SIGNAL_SMARTTHINGS_UPDATE {[ "bell-1"; "tv-1" ]} ].
Proof. vm_compute. reflexivity. Qed.

Example sample_batch_status :
  Device.status
  <$> DeviceBroker.devices
        (snd (fst (DeviceBroker._event_handler record_attribute sample_broker
                     sample_request))) !! "tv-1"
  = Some {[ "volume" := Py.VInt 12 ]}.
Proof. vm_compute. reflexivity. Qed.

(** C3.  A batch for the broker's own installation ends with one
    dispatcher notification on [SIGNAL_SMARTTHINGS_UPDATE], the only one in
    the trace, whatever the number of events.  The set it carries holds
    exactly the ids of the known devices that a device-type event of the
    batch addressed; on a table keyed by device id, as [__init__] builds
    it, these are the ids of the device-type events that are keys of the
    table. *)
Theorem event_handler_single_dispatch
    (apply_attribute_update :
       gmap string Py.value → string → string → string → Py.value → Py.value →
       gmap string Py.value)
    (self : DeviceBroker.t) (req : Request.t) :
  Request.installed_app_id req = DeviceBroker._installed_app_id self →
  ∃ body device_ids,
    snd (DeviceBroker._event_handler apply_attribute_update self req)
    = body ++ [DispatcherSend SIGNAL_SMARTTHINGS_UPDATE device_ids]
    ∧ DeviceBroker.signals_sent body = []
    ∧ DeviceBroker.signals_sent
        (snd (DeviceBroker._event_handler apply_attribute_update self req))
      = [(SIGNAL_SMARTTHINGS_UPDATE, device_ids)]
    ∧ (∀ id,
         id ∈ device_ids
         ↔ ∃ evt device,
             evt ∈ Request.events req
             ∧ Event.event_type evt = EVENT_TYPE_DEVICE
             ∧ DeviceBroker.devices self !! Event.device_id evt = Some device
             ∧ Device.device_id device = id)
    ∧ ((∀ k device, DeviceBroker.devices self !! k = Some device →
                    Device.device_id device = k) →
       ∀ id,
         id ∈ device_ids
         ↔ is_Some (DeviceBroker.devices self !! id)
           ∧ ∃ evt, evt ∈ Request.events req
                    ∧ Event.event_type evt = EVENT_TYPE_DEVICE
                    ∧ Event.device_id evt = id).
Proof.
  intros Hid. rewrite (event_handler_matching _ _ _ Hid). simpl.
  eexists _, _. split; [reflexivity|].
  assert (∀ id,
    id ∈ DeviceBroker.updated_devices
           (fold_left (DeviceBroker.handle_event apply_attribute_update)
              (Request.events req)
              (DeviceBroker.mk_loop (DeviceBroker.devices self) ∅ []))
    ↔ ∃ evt device,
        evt ∈ Request.events req
        ∧ Event.event_type evt = EVENT_TYPE_DEVICE
        ∧ DeviceBroker.devices self !! Event.device_id evt = Some device
        ∧ Device.device_id device = id) as Hset.
  { intros id. rewrite fold_handle_event_updated. simpl. split.
    - intros [Hempty|(evt & Hin & Hdev & Hlook)].
      + by apply not_elem_of_empty in Hempty.
      + apply String.eqb_eq in Hdev.
        destruct (DeviceBroker.devices self !! Event.device_id evt)
          as [device|] eqn:Hd; [|done].
        injection Hlook as <-. by exists evt, device.
    - intros (evt & device & Hin & Hdev & Hd & <-). right. exists evt.
      split; [done|]. split; [by apply String.eqb_eq|]. by rewrite Hd. }
  split; [|split; [|split]].
  - pose proof (fold_handle_event_signals apply_attribute_update
                  (Request.events req)
                  (DeviceBroker.mk_loop (DeviceBroker.devices self) ∅ []))
      as Hsig.
    exact Hsig.
  - unfold DeviceBroker.signals_sent. rewrite omap_app.
    fold (DeviceBroker.signals_sent
            (DeviceBroker.trace
               (fold_left (DeviceBroker.handle_event apply_attribute_update)
                  (Request.events req)
                  (DeviceBroker.mk_loop (DeviceBroker.devices self) ∅ [])))).
    by rewrite fold_handle_event_signals.
  - exact Hset.
  - intros Hkeyed id. rewrite Hset. split.
    + intros (evt & device & Hin & Hdev & Hd & <-).
      rewrite (Hkeyed _ _ Hd). split; [by rewrite Hd|]. by exists evt.
    + intros [[device Hd] (evt & Hin & Hdev & <-)].
      exists evt, device. do 3 (split; [done|]). by apply Hkeyed.
Qed.

Lemma event_handler_single_dispatch_witness :
  ∃ body device_ids,
    snd (DeviceBroker._event_handler record_attribute sample_broker
           sample_request)
    = body ++ [DispatcherSend SIGNAL_SMARTTHINGS_UPDATE device_ids]
    ∧ DeviceBroker.signals_sent body = []
    ∧ DeviceBroker.signals_sent
        (snd (DeviceBroker._event_handler record_attribute sample_broker
                sample_request))
      = [(SIGNAL_SMARTTHINGS_UPDATE, device_ids)]
    ∧ (∀ id,
         id ∈ device_ids
         ↔ ∃ evt device,
             evt ∈ Request.events sample_request
             ∧ Event.event_type evt = EVENT_TYPE_DEVICE
             ∧ DeviceBroker.devices sample_broker !! Event.device_id evt
               = Some device
             ∧ Device.device_id device = id)
    ∧ ((∀ k device, DeviceBroker.devices sample_broker !! k = Some device →
                    Device.device_id device = k) →
       ∀ id,
         id ∈ device_ids
         ↔ is_Some (DeviceBroker.devices sample_broker !! id)
           ∧ ∃ evt, evt ∈ Request.events sample_request
                    ∧ Event.event_type evt = EVENT_TYPE_DEVICE
                    ∧ Event.device_id evt = id).
Proof.
  apply (event_handler_single_dispatch record_attribute sample_broker
           sample_request).
  reflexivity.
Defined.

(** C4.  A batch for another installation leaves the broker as it is,
    device table and statuses included, produces no effect at all (no bus
    event, no dispatcher signal, no log record), and the handler returns
    normally. *)
Theorem event_handler_foreign_installation
    (apply_attribute_update :
       gmap string Py.value → string → string → string → Py.value → Py.value →
       gmap string Py.value)
    (self : DeviceBroker.t) (req : Request.t) :
  Request.installed_app_id req ≠ DeviceBroker._installed_app_id self →
  DeviceBroker._event_handler apply_attribute_update self req
  = (Py.Returned (), self, []).
Proof.
  intros Hne. unfold DeviceBroker._event_handler.
  apply String.eqb_neq in Hne. by rewrite Hne.
Qed.

Lemma event_handler_foreign_installation_witness :
  Request.installed_app_id foreign_request
  ≠ DeviceBroker._installed_app_id sample_broker
  ∧ DeviceBroker._event_handler record_attribute sample_broker foreign_request
    = (Py.Returned (), sample_broker, []).
Proof.
  assert (Request.installed_app_id foreign_request
          ≠ DeviceBroker._installed_app_id sample_broker) as Hne.
  { intros Heq. vm_compute in Heq. discriminate Heq. }
  split; [exact Hne|].
  apply (event_handler_foreign_installation record_attribute sample_broker
           foreign_request Hne).
Defined.

(** C5.  In a batch for the broker's own installation, the bus events
    fired are, in order, one [EVENT_BUTTON] event for each device-type
    event with a known device id, capability [button] and attribute
    [button], carrying component id, device id, location id, value, the
    device's label and the event data; no other event of the batch fires
    anything on the bus. *)
Theorem event_handler_button_events
    (apply_attribute_update :
       gmap string Py.value → string → string → string → Py.value → Py.value →
       gmap string Py.value)
    (self : DeviceBroker.t) (req : Request.t) :
  Request.installed_app_id req = DeviceBroker._installed_app_id self →
  DeviceBroker.fired_events
    (snd (DeviceBroker._event_handler apply_attribute_update self req))
  = omap
      (λ evt,
         if String.eqb (Event.event_type evt) EVENT_TYPE_DEVICE
            && (String.eqb (Event.capability evt) Capability.button
                && String.eqb (Event.attribute evt) Attribute.button)
         then
           device ← DeviceBroker.devices self !! Event.device_id evt;
           Some (EVENT_BUTTON,
                 [ ("component_id", Py.VStr (Event.component_id evt));
                   ("device_id", Py.VStr (Event.device_id evt));
                   ("location_id", Py.VStr (Event.location_id evt));
                   ("value", Event.value evt);
                   ("name", Py.VStr (Device.label device));
                   ("data", Event.data evt) ])
         else None)
      (Request.events req).
Proof.
  intros Hid. rewrite (event_handler_matching _ _ _ Hid). simpl.
  unfold DeviceBroker.fired_events. rewrite omap_app. simpl.
  rewrite app_nil_r.
  apply (fold_handle_event_fired apply_attribute_update (Request.events req)
           (DeviceBroker.mk_loop (DeviceBroker.devices self) ∅ [])).
Qed.

Lemma event_handler_button_events_witness :
  DeviceBroker.fired_events
    (snd (DeviceBroker._event_handler record_attribute sample_broker
            sample_request))
  = [ (EVENT_BUTTON,
       DeviceBroker.button_event_data pushed_event doorbell_device);
      (EVENT_BUTTON,
       DeviceBroker.button_event_data pushed_event doorbell_device) ].
Proof.
  rewrite (event_handler_button_events record_attribute sample_broker
             sample_request eq_refl).
  reflexivity.
Defined.

(** ** Assigned capabilities of a platform *)

Section AssignedFacts.
Implicit Types (slots : Py.dict string) (platform : string).

Lemma truthy_non_empty platform : platform ≠ "" → Py.truthy platform = true.
Proof.
  intros Hne. unfold Py.truthy. apply negb_true_iff.
  by apply String.eqb_neq.
Qed.

Lemma filter_values_any slots platform :
  platform ≠ "" →
  existsb Py.truthy (filter (λ value, value = platform) (Py.values slots))
  = true
  ↔ fst <$> filter (λ item, snd item = platform) slots ≠ [].
Proof.
  intros Hne. unfold Py.values.
  induction slots as [|[c p] slots IH]; [done|].
  rewrite fmap_cons, filter_cons.
  rewrite (filter_cons (λ item : string * string, snd item = platform)).
  cbn [snd].
  destruct (decide (p = platform)) as [->|Hp]; [|exact IH].
  rewrite fmap_cons. cbn [existsb].
  by rewrite (truthy_non_empty platform Hne).
Qed.

End AssignedFacts.

(** C9.  For a non-empty platform name, [any_assigned] is [True] exactly
    when [get_assigned] returns a non-empty list; for a device id that is
    not in the assignment table [get_assigned] returns the empty list and
    [any_assigned] returns [False]. *)
Theorem any_assigned_iff_get_assigned
    (self : DeviceBroker.t) (device_id platform : string) :
  platform ≠ "" →
  (DeviceBroker.any_assigned self device_id platform = true
   ↔ DeviceBroker.get_assigned self device_id platform ≠ [])
  ∧ (Py.get device_id (DeviceBroker._assignments self) = None →
     DeviceBroker.get_assigned self device_id platform = []
     ∧ DeviceBroker.any_assigned self device_id platform = false).
Proof.
  intros Hne. split.
  - unfold DeviceBroker.any_assigned, DeviceBroker.get_assigned.
    by apply filter_values_any.
  - intros Habsent.
    unfold DeviceBroker.any_assigned, DeviceBroker.get_assigned.
    by rewrite Habsent.
Qed.

Lemma any_assigned_iff_get_assigned_witness :
  "media_player" ≠ ""
  ∧ DeviceBroker.any_assigned sample_assignments "tv-1" "media_player" = true
  ∧ DeviceBroker.get_assigned sample_assignments "tv-1" "media_player"
    = [Capability.audio_volume; Capability.tv_channel]
  ∧ DeviceBroker.get_assigned sample_assignments "tv-9" "media_player" = []
  ∧ DeviceBroker.any_assigned sample_assignments "tv-9" "media_player" = false.
Proof.
  assert ("media_player" ≠ "") as Hne by discriminate.
  destruct (any_assigned_iff_get_assigned sample_assignments "tv-1"
              "media_player" Hne) as [Hiff _].
  destruct (any_assigned_iff_get_assigned sample_assignments "tv-9"
              "media_player" Hne) as [_ Habsent].
  split; [exact Hne|]. split; [|split; [reflexivity|]].
  - apply Hiff. discriminate.
  - apply Habsent. reflexivity.
Defined.

(** ** Entity availability *)

(** C10.  [available] is [False] only when the status of the wrapped device
    has an attribute [switch_state] whose value is the string
    ["unavailable"] (and then it is [False]); when the status has no
    attribute [switch_state] the entity is available. *)
Theorem entity_available_spec (self : SmartThingsEntity.t) :
  (SmartThingsEntity.available self = false
   ↔ Device.status (SmartThingsEntity._device self) !! "switch_state"
     = Some (Py.VStr "unavailable"))
  ∧ (Device.status (SmartThingsEntity._device self) !! "switch_state" = None →
     SmartThingsEntity.available self = true).
Proof.
  unfold SmartThingsEntity.available.
  destruct (Device.status (SmartThingsEntity._device self) !! "switch_state")
    as [switch_state|]; [|done].
  split; [|done]. rewrite negb_false_iff, bool_decide_eq_true.
  split; [by intros -> | by intros [= ->]].
Qed.

Lemma entity_available_spec_witness :
  SmartThingsEntity.available offline_entity = false
  ∧ SmartThingsEntity.available (SmartThingsEntity.mk tv_device) = true.
Proof.
  split.
  - apply (entity_available_spec offline_entity). reflexivity.
  - apply (entity_available_spec (SmartThingsEntity.mk tv_device)).
    reflexivity.
Defined.

(** ** Scenes of an entry *)

(** C8.  When the scene listing fails with a [ClientResponseError] of
    status 403, [async_get_entry_scenes] logs and returns the empty list;
    every other [ClientResponseError] is re-raised to the caller; and when
    the listing succeeds its result, asked for the location id of the
    entry, is returned. *)
Theorem async_get_entry_scenes_spec
    (get_scenes : string → Py.outcome (list Scene.t)) (entry : ConfigEntry.t) :
  (get_scenes (ConfigEntry.location_id entry)
   = Py.Raised (Py.ClientResponseError HTTPStatus.FORBIDDEN) →
   fst (async_get_entry_scenes get_scenes entry) = Py.Returned [])
  ∧ (∀ status,
       status ≠ HTTPStatus.FORBIDDEN →
       get_scenes (ConfigEntry.location_id entry)
       = Py.Raised (Py.ClientResponseError status) →
       async_get_entry_scenes get_scenes entry
       = (Py.Raised (Py.ClientResponseError status), []))
  ∧ (∀ scenes,
       get_scenes (ConfigEntry.location_id entry) = Py.Returned scenes →
       async_get_entry_scenes get_scenes entry = (Py.Returned scenes, [])).
Proof.
  unfold async_get_entry_scenes. split; [|split].
  - intros ->. by rewrite decide_True.
  - intros status Hne ->. by rewrite decide_False.
  - by intros scenes ->.
Qed.

Lemma async_get_entry_scenes_spec_witness :
  fst (async_get_entry_scenes forbidden_get_scenes sample_entry)
  = Py.Returned []
  ∧ async_get_entry_scenes
      (λ _, Py.Raised (Py.ClientResponseError 500)) sample_entry
    = (Py.Raised (Py.ClientResponseError 500), [])
  ∧ async_get_entry_scenes
      (λ location_id, Py.Returned [Scene.mk location_id "Good night"])
      sample_entry
    = (Py.Returned [Scene.mk "location-1" "Good night"], []).
Proof.
  split; [|split].
  - apply (async_get_entry_scenes_spec forbidden_get_scenes sample_entry).
    reflexivity.
  - apply (async_get_entry_scenes_spec
             (λ _, Py.Raised (Py.ClientResponseError 500)) sample_entry).
    + discriminate.
    + reflexivity.
  - apply (async_get_entry_scenes_spec
             (λ location_id, Py.Returned [Scene.mk location_id "Good night"])
             sample_entry).
    reflexivity.
Defined.

(** ** Failing commands *)

(** C6 (amended).  When the client fails to send the command with an
    exception, the button's press action logs the failure at error level
    and re-raises the exception to its caller; the [send_command] service
    handler logs the failure at error level and returns normally. *)
Theorem command_failure_handling :
  (∀ command (self : SmartThingsButton.t) ex,
     command (SmartThingsButton._device self) "main"
       (SmartThingsButton._capability self) (SmartThingsButton._command self) []
     = Py.Raised ex →
     SmartThingsButton.async_press command self
     = (Py.Raised ex,
        [ Log ERROR "Failed to press button %s (%s.%s): %s"
            [ AStr (SmartThingsButton._attr_name self);
              AStr (SmartThingsButton._capability self);
              AStr (SmartThingsButton._command self); AExn ex ] ]))
  ∧ (∀ entry entries execute_device_command (call : ServiceCall.t)
       device_id capability command ex,
       ServiceCall.device_id call = Some device_id →
       ServiceCall.capability call = Some capability →
       ServiceCall.command call = Some command →
       device_id ≠ "" → capability ≠ "" → command ≠ "" →
       execute_device_command entry device_id capability command
         (default "main" (ServiceCall.component_id call))
         (default [] (ServiceCall.arguments call))
       = Py.Raised ex →
       send_command_service (entry :: entries) execute_device_command call
       = (Py.Returned (),
          [ Log ERROR "Failed to send command to %s: %s.%s(%s) - Error: %s"
              [ AStr device_id; AStr capability; AStr command;
                AList (default [] (ServiceCall.arguments call)); AExn ex ] ])).
Proof.
  split.
  - intros command self ex Hfail. unfold SmartThingsButton.async_press.
    by rewrite Hfail.
  - intros entry entries execute call device_id capability command ex
      Hd Hc Hm Hdne Hcne Hmne Hfail.
    unfold send_command_service. rewrite Hd, Hc, Hm.
    rewrite !truthy_non_empty by done. simpl. by rewrite Hfail.
Qed.

Lemma command_failure_handling_witness :
  SmartThingsButton.async_press failing_command doorbell_button
  = (Py.Raised (Py.ClientResponseError 500),
     [ Log ERROR "Failed to press button %s (%s.%s): %s"
         [ AStr "Front door Push Button - Push"; AStr Capability.button;
           AStr "push"; AExn (Py.ClientResponseError 500) ] ])
  ∧ send_command_service [sample_entry] failing_execute_device_command
      sample_call
    = (Py.Returned (),
       [ Log ERROR "Failed to send command to %s: %s.%s(%s) - Error: %s"
           [ AStr "tv-1"; AStr Capability.switch; AStr "on"; AList [];
             AExn (Py.ClientResponseError 500) ] ]).
Proof.
  destruct command_failure_handling as [Hpress Hservice]. split.
  - apply (Hpress failing_command doorbell_button). reflexivity.
  - apply (Hservice sample_entry [] failing_execute_device_command sample_call
             "tv-1" Capability.switch "on" (Py.ClientResponseError 500));
      try reflexivity; discriminate.
Defined.

(** C6 as stated fails for the [send_command] service handler: the
    client raises, and the handler returns normally instead of raising. *)
Lemma send_command_service_does_not_reraise :
  failing_execute_device_command sample_entry "tv-1" Capability.switch "on"
    "main" []
  = Py.Raised (Py.ClientResponseError 500)
  ∧ fst (send_command_service [sample_entry] failing_execute_device_command
           sample_call)
    = Py.Returned ()
  ∧ fst (send_command_service [sample_entry] failing_execute_device_command
           sample_call)
    ≠ Py.Raised (Py.ClientResponseError 500).
Proof. by repeat split. Qed.

(** * Further properties of the sources *)

(** ** The probes of the package and the slots they produce *)

Section TableProbeFacts.
Implicit Types (table pool : list string).

Lemma non_empty_or_None_Some supported result :
  non_empty_or_None supported = Some result ↔ supported = result ∧ result ≠ [].
Proof.
  destruct supported as [|c supported]; simpl.
  - split; [done | by intros [<- ?]].
  - split; [by intros [= <-] | by intros [<- _]].
Qed.

Lemma non_empty_or_None_None supported :
  non_empty_or_None supported = None ↔ supported = [].
Proof. by destruct supported. Qed.

Lemma table_probe_contains table pool c :
  match non_empty_or_None (filter (λ x, x ∈ pool) table) with
  | None => false
  | Some assigned => Py.contains c assigned
  end
  = Py.contains c table && Py.contains c pool.
Proof.
  destruct (non_empty_or_None _) as [assigned|] eqn:Hprobe.
  - apply non_empty_or_None_Some in Hprobe as [<- _].
    apply eq_true_iff_eq. rewrite andb_true_iff, !contains_true.
    rewrite list_elem_of_filter. tauto.
  - apply non_empty_or_None_None in Hprobe. symmetry.
    apply not_true_iff_false. rewrite andb_true_iff, !contains_true.
    intros [Ht Hp].
    assert (c ∈ filter (λ x, x ∈ pool) table) as Hin
      by by apply list_elem_of_filter.
    rewrite Hprobe in Hin. by apply elem_of_nil in Hin.
Qed.

Lemma package_probe (platform : string) :
  platform ∈ package_platforms →
  getattr (package_import_module platform) "get_capabilities"
  = if decide (platform = "vacuum") then None
    else Some (λ pool,
                 non_empty_or_None
                   (filter (λ x, x ∈ pool) (platform_table platform))).
Proof.
  unfold package_platforms. rewrite !elem_of_cons, elem_of_nil.
  intros [->|[->|[->|[->|[->|[]]]]]]; reflexivity.
Qed.

Lemma package_probe_returns platform pool c :
  platform ∈ package_platforms →
  probe_returns package_import_module platform pool c
  = Py.contains c (platform_table platform) && Py.contains c pool.
Proof.
  intros Hin. unfold probe_returns. rewrite (package_probe platform Hin).
  destruct (decide (platform = "vacuum")) as [->|Hne]; [done|].
  apply table_probe_contains.
Qed.

Lemma platform_table_NoDup platform : NoDup (platform_table platform).
Proof.
  unfold platform_table.
  repeat case_decide; apply (bool_decide_unpack _); vm_compute; exact I.
Qed.

End TableProbeFacts.

(** X1.  The [get_capabilities] of [button], [media_player], [number] and
    [select] answers [None] exactly when no capability of its table is in
    the pool; otherwise its answer is a non-empty, duplicate-free selection
    of the table, in table order, that holds exactly the capabilities of the
    table that are in the pool. *)
Theorem table_probe_answer
    (platform : string) (get_capabilities : probe) (pool : list string) :
  platform ∈ ["button"; "media_player"; "number"; "select"] →
  getattr (package_import_module platform) "get_capabilities"
  = Some get_capabilities →
  (get_capabilities pool = None
   ↔ ∀ c, c ∈ platform_table platform → c ∉ pool)
  ∧ ∀ supported,
      get_capabilities pool = Some supported →
      supported ≠ []
      ∧ NoDup supported
      ∧ supported `sublist_of` platform_table platform
      ∧ ∀ c, c ∈ supported ↔ c ∈ platform_table platform ∧ c ∈ pool.
Proof.
  intros Hin Hget.
  assert (platform ∈ package_platforms) as Hpkg.
  { unfold package_platforms. rewrite !elem_of_cons in *. tauto. }
  assert (platform ≠ "vacuum") as Hne.
  { intros ->. rewrite !elem_of_cons, elem_of_nil in Hin.
    by destruct Hin as [?|[?|[?|[?|[]]]]]. }
  rewrite (package_probe platform Hpkg), decide_False in Hget by done.
  injection Hget as <-. split.
  - rewrite non_empty_or_None_None. split.
    + intros Hnil c Hc Hp.
      assert (c ∈ filter (λ x, x ∈ pool) (platform_table platform)) as Hf
        by by apply list_elem_of_filter.
      rewrite Hnil in Hf. by apply elem_of_nil in Hf.
    + intros Hnone. apply elem_of_nil_inv. intros c Hc.
      apply list_elem_of_filter in Hc as [Hp Ht]. by apply (Hnone c).
  - intros supported Hsome.
    apply non_empty_or_None_Some in Hsome as [<- Hnonempty].
    split; [done|]. split; [|split].
    + apply NoDup_filter, platform_table_NoDup.
    + apply sublist_filter.
    + intros c. rewrite list_elem_of_filter. tauto.
Qed.

Lemma table_probe_answer_witness :
  MediaPlayer.get_capabilities (Device.capabilities tv_device)
  = Some [Capability.audio_volume; Capability.media_input_source]
  ∧ (Number.get_capabilities [Capability.switch] = None
     ↔ ∀ c, c ∈ platform_table "number" → c ∉ [Capability.switch]).
Proof.
  split; [reflexivity|].
  apply (table_probe_answer "number" Number.get_capabilities
           [Capability.switch]).
  - apply (bool_decide_unpack _). vm_compute. exact I.
  - reflexivity.
Defined.

(** X2.  With the modules of the package, on a device whose capability
    list has no repeated entry, the slot of a capability is decided by the
    tables alone: a capability of the device goes to the first platform of
    [PLATFORMS] whose table lists it, a capability that no table lists has
    no slot, and nothing else has a slot. *)
Theorem package_slot_is_first_listing
    (PLATFORMS : list string) (device : Device.t) (c : string) :
  NoDup (Device.capabilities device) →
  Forall (λ platform, platform ∈ package_platforms) PLATFORMS →
  Py.get c (device_slots PLATFORMS package_import_module device)
  = if decide (c ∈ Device.capabilities device)
    then snd <$> list_find (λ platform, c ∈ platform_table platform) PLATFORMS
    else None.
Proof.
  intros Hnd Hpkg. rewrite Forall_lookup in Hpkg.
  pose proof (assign_platforms_get_first package_import_module PLATFORMS
                (Device.capabilities device) c) as Hfirst.
  fold (device_slots PLATFORMS package_import_module device) in Hfirst.
  assert (∀ i p, PLATFORMS !! i = Some p →
            (∀ j q, j < i → PLATFORMS !! j = Some q → c ∉ platform_table q) →
            c ∈ Device.capabilities device →
            c ∈ pool_offered package_import_module (take i PLATFORMS)
                  (Device.capabilities device)) as Hoffered.
  { intros i p Hi Hearlier Hc.
    apply (pool_offered_NoDup package_import_module (take i PLATFORMS)
             (Device.capabilities device) Hnd).
    split; [done|]. intros j q Hj.
    apply lookup_take_Some in Hj as [Hj Hlt].
    rewrite take_take, Nat.min_l by lia.
    rewrite package_probe_returns by by eapply Hpkg.
    apply andb_false_iff. left. apply contains_false.
    by apply (Hearlier j q). }
  destruct (decide (c ∈ Device.capabilities device)) as [Hc|Hc].
  - destruct (list_find _ PLATFORMS) as [[i p]|] eqn:Hfind; simpl.
    + apply list_find_Some in Hfind as (Hi & Hlisted & Hleast).
      apply (Hfirst p Hnd). split; [done|]. exists i.
      assert (∀ j q, j < i → PLATFORMS !! j = Some q → c ∉ platform_table q)
        as Hearlier by (intros j q Hlt Hj; by apply (Hleast j q)).
      split; [done|]. split.
      * rewrite package_probe_returns by by eapply Hpkg.
        apply andb_true_iff. split; apply contains_true; [done|].
        by apply (Hoffered i p).
      * intros j q Hlt Hj.
        rewrite package_probe_returns by by eapply Hpkg.
        apply andb_false_iff. left. apply contains_false.
        by apply (Hearlier j q).
    + apply list_find_None in Hfind. rewrite Forall_lookup in Hfind.
      apply eq_None_not_Some. intros [q Hget].
      apply (Hfirst q Hnd) in Hget as (_ & i & Hi & Hret & _).
      rewrite package_probe_returns in Hret by by eapply Hpkg.
      apply andb_true_iff in Hret as [Hlisted _].
      apply contains_true in Hlisted. by apply (Hfind i q) in Hlisted.
  - apply eq_None_not_Some. intros [q Hget].
    by apply (Hfirst q Hnd) in Hget as [? _].
Qed.

Lemma package_slot_is_first_listing_witness :
  Py.get Capability.audio_volume
    (device_slots ["select"; "number"; "media_player"] package_import_module
       tv_device)
  = Some "number".
Proof.
  rewrite (package_slot_is_first_listing ["select"; "number"; "media_player"]
             tv_device Capability.audio_volume).
  - reflexivity.
  - apply (bool_decide_unpack _). vm_compute. exact I.
  - apply (bool_decide_unpack _). vm_compute. exact I.
Defined.

(** ** What a platform is assigned *)

Section GetAssignedFacts.
Implicit Types (slots : Py.dict string) (platform c : string).

Lemma filter_values_items slots platform :
  filter (λ value, value = platform) (Py.values slots)
  = snd <$> filter (λ item : string * string, snd item = platform) slots.
Proof.
  unfold Py.values. induction slots as [|[k p] slots IH]; [done|].
  rewrite fmap_cons, filter_cons.
  rewrite (filter_cons (λ item : string * string, snd item = platform)).
  cbn [snd]. destruct (decide (p = platform)); [|done].
  by rewrite fmap_cons, IH.
Qed.

Lemma elem_of_assigned slots platform c :
  NoDup (Py.keys slots) →
  c ∈ fst <$> filter (λ item : string * string, snd item = platform) slots
  ↔ Py.get c slots = Some platform.
Proof.
  intros Hnd. rewrite list_elem_of_fmap. split.
  - intros ([k p] & -> & Hin). apply list_elem_of_filter in Hin as [Hp Hin].
    simpl in *. subst p. by apply elem_of_get_Some.
  - intros Hget. exists (c, platform). split; [done|].
    apply list_elem_of_filter. split; [done|].
    clear Hnd. induction slots as [|[k p] slots IH]; simpl in *; [done|].
    destruct (decide (c = k)) as [->|Hne].
    + injection Hget as ->. apply elem_of_cons. by left.
    + apply elem_of_cons. right. by apply IH.
Qed.

Lemma NoDup_assigned slots platform :
  NoDup (Py.keys slots) →
  NoDup (fst <$> filter (λ item : string * string, snd item = platform) slots).
Proof.
  intros Hnd. apply (sublist_NoDup _ _ Hnd).
  unfold Py.keys. apply fmap_sublist, sublist_filter.
Qed.

End GetAssignedFacts.

(** X3.  In a broker as [__init__] builds it, for every device id: the
    list that [get_assigned] returns for a platform has no repeated entry;
    each of its capabilities belongs to a device of the input with that id,
    and the platform is one of [PLATFORMS]; no capability is returned for
    two different platforms; and a platform outside [PLATFORMS] is assigned
    nothing. *)
Theorem get_assigned_partition
    (PLATFORMS : list string) (import_module : string → module)
    (installed_app_id : string) (devices : list Device.t)
    (device_id : string) :
  let broker :=
    DeviceBroker.__init__ PLATFORMS import_module installed_app_id devices in
  (∀ platform, NoDup (DeviceBroker.get_assigned broker device_id platform))
  ∧ (∀ platform c,
       c ∈ DeviceBroker.get_assigned broker device_id platform →
       platform ∈ PLATFORMS
       ∧ ∃ device, device ∈ devices
                   ∧ Device.device_id device = device_id
                   ∧ c ∈ Device.capabilities device)
  ∧ (∀ platform1 platform2 c,
       c ∈ DeviceBroker.get_assigned broker device_id platform1 →
       c ∈ DeviceBroker.get_assigned broker device_id platform2 →
       platform1 = platform2)
  ∧ (∀ platform,
       platform ∉ PLATFORMS →
       DeviceBroker.get_assigned broker device_id platform = []
       ∧ DeviceBroker.any_assigned broker device_id platform = false).
Proof.
  intros broker.
  unfold DeviceBroker.get_assigned, DeviceBroker.any_assigned. subst broker.
  simpl.
  destruct (Py.get device_id
              (_assign_capabilities PLATFORMS import_module devices))
    as [slots|] eqn:Hget; simpl.
  2:{ split; [intros; constructor|].
      split; [intros ? ? Hin; by apply elem_of_nil in Hin|].
      split; [intros ? ? ? Hin; by apply elem_of_nil in Hin|done]. }
  destruct (_assign_capabilities_get _ _ _ _ _ Hget)
    as (device & Hdev & Hid & ->).
  pose proof (assign_platforms_keys_NoDup import_module PLATFORMS
                (Device.capabilities device)) as Hnd.
  fold (device_slots PLATFORMS import_module device) in Hnd.
  assert (∀ platform c,
            c ∈ fst <$> filter (λ item : string * string, snd item = platform)
                          (device_slots PLATFORMS import_module device) →
            platform ∈ PLATFORMS ∧ c ∈ Device.capabilities device) as Hsound.
  { intros platform c Hin. apply (elem_of_assigned _ _ _ Hnd) in Hin.
    apply assign_platforms_get_claimed in Hin as (i & Hi & _ & Hpool).
    split; [by eapply list_elem_of_lookup_2|].
    by apply pool_offered_subset in Hpool. }
  split; [intros platform; by apply NoDup_assigned|].
  split; [|split].
  - intros platform c Hin. destruct (Hsound platform c Hin) as [Hp Hc].
    split; [done|]. by exists device.
  - intros p1 p2 c H1 H2.
    apply (elem_of_assigned _ _ _ Hnd) in H1, H2. congruence.
  - intros platform Hnot.
    assert (fst <$> filter (λ item : string * string, snd item = platform)
                      (device_slots PLATFORMS import_module device) = [])
      as Hempty.
    { apply elem_of_nil_inv. intros c Hin.
      by destruct (Hsound platform c Hin). }
    split; [done|]. rewrite filter_values_items.
    apply fmap_nil_inv in Hempty. by rewrite Hempty.
Qed.

Lemma get_assigned_partition_witness :
  DeviceBroker.get_assigned sample_broker "tv-1" "media_player"
  = [Capability.audio_volume]
  ∧ DeviceBroker.get_assigned sample_broker "tv-1" "number" = []
  ∧ DeviceBroker.any_assigned sample_broker "tv-1" "number" = false.
Proof.
  split; [reflexivity|].
  apply (get_assigned_partition ["button"; "media_player"]
           package_import_module "installed-app-1"
           [tv_device; doorbell_device] "tv-1").
  intros Hin. apply (bool_decide_pack _) in Hin. vm_compute in Hin.
  exact Hin.
Defined.

(** ** Number and select entities *)

Section SetupFacts.



End SetupFacts.



(** ** Vacuum entities *)

Section VacuumFacts.
Import SmartThingsVacuum.



Lemma flag_or_elem_of features feature f :
  f ∈ flag_or features feature ↔ f = feature ∨ f ∈ features.
Proof.
  unfold flag_or. destruct (decide (feature ∈ features)) as [Hin|Hnot].
  - split; [by right | by intros [->|?]].
  - rewrite elem_of_app, list_elem_of_singleton. tauto.
Qed.

Lemma fold_flag_or_elem_of added features f :
  f ∈ fold_left flag_or added features ↔ f ∈ added ∨ f ∈ features.
Proof.
  revert features. induction added as [|a added IH]; intros features; simpl.
  - rewrite elem_of_nil. tauto.
  - rewrite IH, flag_or_elem_of, elem_of_cons. tauto.
Qed.

(** The features gathered from the capabilities, before [STATE] is
    added. *)
Lemma gathered_features_elem_of capabilities features f :
  f ∈ fold_left
        (λ features capability,
           match Py.get capability CAPABILITY_TO_VACUUM with
           | Some c => fold_left flag_or (SmartThingsVacuum.features c) features
           | None => features
           end)
        capabilities features
  ↔ f ∈ features
    ∨ ∃ capability c,
        capability ∈ capabilities
        ∧ Py.get capability CAPABILITY_TO_VACUUM = Some c
        ∧ f ∈ SmartThingsVacuum.features c.
Proof.
  revert features.
  induction capabilities as [|a capabilities IH]; intros features;
    cbn [fold_left].
  - split; [by left|]. intros [?|(? & ? & Hin & _)]; [done|].
    by apply elem_of_nil in Hin.
  - rewrite IH. split.
    + intros [Hf|(capability & c & Hin & Hget & Hfc)].
      * destruct (Py.get a CAPABILITY_TO_VACUUM) as [c|] eqn:Ha; [|by left].
        apply fold_flag_or_elem_of in Hf as [Hf|Hf]; [|by left].
        right. exists a, c. split; [apply elem_of_cons; by left|done].
      * right. exists capability, c.
        split; [apply elem_of_cons; by right|done].
    + intros [Hf|(capability & c & Hin & Hget & Hfc)].
      * left. destruct (Py.get a CAPABILITY_TO_VACUUM); [|done].
        apply fold_flag_or_elem_of. by right.
      * apply elem_of_cons in Hin as [->|Hin].
        -- left. rewrite Hget. apply fold_flag_or_elem_of. by left.
        -- right. by exists capability, c.
Qed.

Lemma vacuum_capabilities_supported (capabilities : list string) :
  Vacuum.get_vacuum_capabilities capabilities
  = non_empty_or_None
      (filter (λ cap, cap ∈ Vacuum.CAPABILITY_TO_VACUUM) capabilities).
Proof. reflexivity. Qed.

Lemma vacuum_table_cases c :
  c ∈ Vacuum.CAPABILITY_TO_VACUUM
  ↔ c = Capability.robot_cleaner_cleaning_mode
    ∨ c = Capability.robot_cleaner_movement.
Proof.
  unfold Vacuum.CAPABILITY_TO_VACUUM.
  rewrite !elem_of_cons, elem_of_nil. tauto.
Qed.

End VacuumFacts.

Lemma entity_base_init (device : Device.t) :
  (Forall (λ name, is_Some (Device.status device !! name))
     EntityBase.ocf_attributes →
   ∃ base, EntityBase.__init__ device = Py.Returned base
           ∧ EntityBase._device base = device
           ∧ EntityBase._attr_unique_id base = Device.device_id device
           ∧ EntityBase._diagnostics base = EntityDiagnostics.initial)
  ∧ (¬ Forall (λ name, is_Some (Device.status device !! name))
         EntityBase.ocf_attributes →
     EntityBase.__init__ device
     = Py.Raised (Py.OtherException "AttributeError")).
Proof.
  unfold EntityBase.ocf_attributes, EntityBase.__init__, status_attribute.
  rewrite !Forall_cons, Forall_nil.
  destruct (Device.status device !! "ocf_manufacturer_name") as [v1|];
    [|split; [by intros [[? [=]] _] | done]].
  destruct (Device.status device !! "ocf_model_number") as [v2|];
    [|split; [by intros (_ & [? [=]] & _) | done]].
  destruct (Device.status device !! "ocf_hardware_version") as [v3|];
    [|split; [by intros (_ & _ & [? [=]] & _) | done]].
  destruct (Device.status device !! "ocf_firmware_version") as [v4|];
    [|split; [by intros (_ & _ & _ & [? [=]] & _) | done]].
  split; [intros _; by eexists|].
  intros Hnot. exfalso. apply Hnot. by repeat split.
Qed.

(** X5.  [vacuum.py] asks for a vacuum entity for a device exactly when the
    device has a capability of [CAPABILITY_TO_VACUUM].  Creating the entity
    begins with the constructor of the base class, which reads four
    [ocf_*] attributes of the status without a guard: creating it raises
    exactly when the status lacks one of them, and then raises
    [AttributeError]; the table lookup of the primary capability never
    fails.  The entity wraps the device; its capabilities are the device's
    capabilities that the table lists, in the device's order; its primary
    capability is one of them, and is the cleaning mode whenever the device
    has it; its features always include [STATE], and include [FAN_SPEED]
    and [BATTERY] exactly when the cleaning mode is among its
    capabilities. *)
Theorem vacuum_entity_of_device (title : string → string) (device : Device.t) :
  let supported :=
    filter (λ cap, cap ∈ Vacuum.CAPABILITY_TO_VACUUM)
      (Device.capabilities device) in
  let described :=
    Forall (λ name, is_Some (Device.status device !! name))
      [ "ocf_manufacturer_name"; "ocf_model_number"; "ocf_hardware_version";
        "ocf_firmware_version" ] in
  (supported = [] →
   SmartThingsVacuum.device_vacuum title device = Py.Returned None)
  ∧ (supported ≠ [] → ¬ described →
     SmartThingsVacuum.device_vacuum title device
     = Py.Raised (Py.OtherException "AttributeError"))
  ∧ (supported ≠ [] → described →
     ∃ entity,
       SmartThingsVacuum.device_vacuum title device = Py.Returned (Some entity)
       ∧ SmartThingsVacuum._device entity = device
       ∧ SmartThingsVacuum._capabilities entity = supported
       ∧ SmartThingsVacuum._primary_capability entity
         ∈ SmartThingsVacuum._capabilities entity
       ∧ (Capability.robot_cleaner_cleaning_mode ∈ Device.capabilities device
          ↔ SmartThingsVacuum._primary_capability entity
            = Capability.robot_cleaner_cleaning_mode)
       ∧ SmartThingsVacuum.STATE
         ∈ SmartThingsVacuum._attr_supported_features entity
       ∧ ∀ f, f ∈ [SmartThingsVacuum.FAN_SPEED; SmartThingsVacuum.BATTERY] →
              (f ∈ SmartThingsVacuum._attr_supported_features entity
               ↔ Capability.robot_cleaner_cleaning_mode
                 ∈ Device.capabilities device)).
Proof.
  intros supported described. unfold SmartThingsVacuum.device_vacuum.
  rewrite vacuum_capabilities_supported. fold supported.
  split; [by intros ->|].
  destruct (entity_base_init device) as [Hbase Hbase_raises].
  change (Forall (λ name, is_Some (Device.status device !! name))
            EntityBase.ocf_attributes) with described in Hbase, Hbase_raises.
  split.
  { intros Hne Hnot.
    destruct supported as [|c0 rest] eqn:Hsup; [done|]. simpl.
    unfold SmartThingsVacuum.__init__. by rewrite (Hbase_raises Hnot). }
  intros Hne Hdescribed.
  destruct (Hbase Hdescribed) as (base & Hinit & Hdevice & _).
  destruct supported as [|c0 rest] eqn:Hsup; [done|]. simpl.
  assert (∀ c, c ∈ c0 :: rest
               ↔ c ∈ Vacuum.CAPABILITY_TO_VACUUM
                 ∧ c ∈ Device.capabilities device) as Hmem.
  { intros c. rewrite <- Hsup. unfold supported.
    by rewrite list_elem_of_filter. }
  assert (Capability.robot_cleaner_cleaning_mode ∈ c0 :: rest
          ↔ Capability.robot_cleaner_cleaning_mode
            ∈ Device.capabilities device) as Hmode.
  { rewrite Hmem, vacuum_table_cases. tauto. }
  unfold SmartThingsVacuum.__init__. rewrite Hinit.
  unfold SmartThingsVacuum._get_primary_capability.
  destruct (Py.contains Capability.robot_cleaner_cleaning_mode (c0 :: rest))
    eqn:Hcontains.
  - apply contains_true in Hcontains. simpl. eexists. split; [reflexivity|].
    simpl. do 2 (split; [done|]). split; [done|].
    split; [by rewrite <- Hmode|].
    unfold SmartThingsVacuum._get_supported_features.
    split; [apply flag_or_elem_of; by left|].
    intros f Hf. rewrite <- Hmode. split; [done|]. intros _.
    apply flag_or_elem_of. right. apply gathered_features_elem_of. right.
    eexists Capability.robot_cleaner_cleaning_mode, _.
    split; [done|]. split; [reflexivity|]. simpl.
    rewrite !elem_of_cons in Hf. rewrite !elem_of_cons.
    destruct Hf as [->|[->|Hf]]; [tauto|tauto|by apply elem_of_nil in Hf].
  - apply contains_false in Hcontains. simpl. eexists.
    split; [reflexivity|]. simpl. do 2 (split; [done|]).
    assert (∀ c, c ∈ c0 :: rest → c = Capability.robot_cleaner_movement)
      as Honly.
    { intros c Hc. pose proof Hc as Hc'.
      apply Hmem in Hc as [Hc _].
      apply vacuum_table_cases in Hc as [-> | ->]; done. }
    split.
    { rewrite <- (Honly c0) by (apply elem_of_cons; by left).
      apply elem_of_cons. by left. }
    split; [rewrite <- Hmode; split; [done | discriminate]|].
    unfold SmartThingsVacuum._get_supported_features.
    split; [apply flag_or_elem_of; by left|].
    intros f Hf. rewrite <- Hmode. split; [|done]. intros Hin. exfalso.
    apply flag_or_elem_of in Hin as [->|Hin].
    { rewrite !elem_of_cons, elem_of_nil in Hf.
      by destruct Hf as [?|[?|[]]]. }
    apply gathered_features_elem_of in Hin
      as [Hin|(capability & c & Hcap & Hget & Hfc)];
      [by apply elem_of_nil in Hin|].
    apply Honly in Hcap as ->. injection Hget as <-. simpl in Hfc.
    rewrite !elem_of_cons, elem_of_nil in Hf.
    rewrite !elem_of_cons, elem_of_nil in Hfc.
    destruct Hf as [-> | [-> | []]];
      by destruct Hfc as [?|[?|[?|[?|[?|[]]]]]].
Qed.

Lemma vacuum_entity_of_device_witness :
  SmartThingsVacuum.device_vacuum (λ s, s) robot_device
  = Py.Raised (Py.OtherException "AttributeError")
  ∧ ∃ entity,
      SmartThingsVacuum.device_vacuum (λ s, s) described_robot_device
      = Py.Returned (Some entity)
      ∧ SmartThingsVacuum._device entity = described_robot_device
      ∧ SmartThingsVacuum._capabilities entity
        = [Capability.robot_cleaner_movement]
      ∧ SmartThingsVacuum._attr_fan_speed_list entity
        = ["Quiet"; "Standard"; "High"].
Proof.
  split.
  - pose proof (vacuum_entity_of_device (λ s, s) robot_device) as Hspec.
    cbv zeta in Hspec. destruct Hspec as (_ & Hraises & _).
    apply Hraises; [done|].
    intros Hdescribed. apply Forall_cons in Hdescribed as [[v Hv] _].
    by vm_compute in Hv.
  - pose proof (vacuum_entity_of_device (λ s, s) described_robot_device)
      as Hspec.
    cbv zeta in Hspec. destruct Hspec as (_ & _ & Hsome).
    destruct Hsome as (entity & Hcreated & Hdevice & Hcaps & _); [done|..].
    { repeat apply Forall_cons_2; [..|apply Forall_nil_2];
        by vm_compute; eexists. }
    exists entity. split; [exact Hcreated|]. split; [exact Hdevice|].
    split; [exact Hcaps|].
    vm_compute in Hcreated. by injection Hcreated as <-.
Defined.

(** X6.  Fan speeds go round: the display name of every mode of
    [FAN_SPEED_MAP] is turned back into that mode by [async_set_fan_speed];
    and every name in the fan speed list of an entity is a display name of
    the map, whatever [str.title] does, so it is turned back into a mode
    whose display name it is. *)
Theorem vacuum_fan_speed_round_trip :
  (∀ mode display,
     Py.get mode SmartThingsVacuum.FAN_SPEED_MAP = Some display →
     SmartThingsVacuum.internal_mode_of display = Some mode)
  ∧ ∀ (title : string → string) device capabilities speed,
      speed ∈ SmartThingsVacuum._get_available_fan_speeds title device
                capabilities →
      ∃ mode,
        SmartThingsVacuum.internal_mode_of speed = Some mode
        ∧ Py.get mode SmartThingsVacuum.FAN_SPEED_MAP = Some speed.
Proof.
  assert (Forall
            (λ item : string * string,
               SmartThingsVacuum.internal_mode_of (snd item) = Some (fst item)
               ∧ Py.get (fst item) SmartThingsVacuum.FAN_SPEED_MAP
                 = Some (snd item))
            SmartThingsVacuum.FAN_SPEED_MAP) as Hall.
  { apply (bool_decide_unpack _). vm_compute. exact I. }
  rewrite Forall_forall in Hall. split.
  - intros mode display Hget.
    assert ((mode, display) ∈ SmartThingsVacuum.FAN_SPEED_MAP) as Hin.
    { clear Hall. revert Hget.
      induction SmartThingsVacuum.FAN_SPEED_MAP as [|[k v] d IH];
        simpl; [done|].
      destruct (decide (mode = k)) as [->|Hne].
      - intros [= ->]. apply elem_of_cons. by left.
      - intros Hget. apply elem_of_cons. right. by apply IH. }
    by destruct (Hall _ Hin) as [Hmode _].
  - intros title device capabilities speed Hin.
    assert (∃ item, item ∈ SmartThingsVacuum.FAN_SPEED_MAP ∧ snd item = speed)
      as ([mode display] & Hitem & Hspeed).
    { assert (speed ∈ Py.values SmartThingsVacuum.FAN_SPEED_MAP) as Hvalue.
      { revert speed Hin. apply Forall_forall.
        unfold SmartThingsVacuum._get_available_fan_speeds.
        destruct (Py.contains Capability.robot_cleaner_turbo_mode _),
                 (Py.contains Capability.robot_cleaner_cleaning_mode _);
          apply (bool_decide_unpack _); vm_compute; exact I. }
      apply list_elem_of_fmap in Hvalue as (item & -> & Hitem).
      by exists item. }
    simpl in Hspeed. subst display. exists mode.
    apply (Hall _ Hitem).
Qed.



Lemma vacuum_fan_speed_round_trip_witness :
  SmartThingsVacuum.internal_mode_of "Spot Clean" = Some "spot".
Proof.
  apply (proj1 vacuum_fan_speed_round_trip "spot" "Spot Clean"). reflexivity.
Defined.

Section VacuumCommandFacts.
Import SmartThingsVacuum.

Variable command :
  Device.t → string → string → string → list string → Py.outcome Py.value.
Variable entity_id : string.

Lemma conclude_discipline self capability cmd args ok failed on_exception :
  (∀ ex, ∃ record,
     on_exception ex = Log ERROR record [AStr entity_id; AExn ex]) →
  one_command_discipline command entity_id self
    (conclude entity_id (send command self capability cmd args)
       ok failed on_exception).
Proof.
  intros Hrecord. unfold one_command_discipline, conclude, send. simpl.
  destruct (command (_device self) "main" capability cmd args)
    as [v|ex] eqn:Hsent.
  - destruct (value_truthy v) eqn:Hv; simpl.
    + split; [done|]. split; [done|]. split.
      * intros _. by exists capability, cmd, args, v.
      * intros ? ? ? ex Hin Hraised.
        apply list_elem_of_singleton in Hin as [= -> -> ->]. congruence.
    + split; [done|]. split; [done|]. split; [done|].
      intros ? ? ? ex Hin Hraised.
      apply list_elem_of_singleton in Hin as [= -> -> ->]. congruence.
  - simpl. split; [done|]. split; [done|]. split; [done|].
    intros ? ? ? ex' Hin Hraised.
    apply list_elem_of_singleton in Hin as [= -> -> ->].
    assert (ex' = ex) as -> by congruence.
    destruct (Hrecord ex) as [record ->]. by exists record.
Qed.

Lemma unsupported_discipline self record :
  one_command_discipline command entity_id self
    (Py.Returned (), [Host record]).
Proof.
  unfold one_command_discipline. simpl. split; [done|]. split; [lia|].
  split; [done|]. intros ? ? ? ? Hin. by apply elem_of_nil in Hin.
Qed.

Lemma mode_or_movement_discipline self mode movement unsupported ok failed
    on_exception :
  (∀ ex, ∃ record,
     on_exception ex = Log ERROR record [AStr entity_id; AExn ex]) →
  one_command_discipline command entity_id self
    (mode_or_movement command entity_id self mode movement unsupported ok
       failed on_exception).
Proof.
  intros Hrecord. unfold mode_or_movement.
  destruct (Py.contains Capability.robot_cleaner_cleaning_mode _);
    [by apply conclude_discipline|].
  destruct (Py.contains Capability.robot_cleaner_movement _);
    [by apply conclude_discipline|].
  apply unsupported_discipline.
Qed.

End VacuumCommandFacts.

(** X8.  [async_start], [async_pause], [async_stop],
    [async_return_to_base] and [async_clean_spot] of a vacuum return
    normally whatever the client does.  Each sends at most one command; the
    host is asked to write the state only when that command returned a
    truthy result; and when the command raised, the last thing done is an
    error record that carries the exception.  [async_start] uses the
    cleaning mode when the entity has it, and the movement only
    otherwise. *)
Theorem vacuum_commands_never_raise
    (command :
       Device.t → string → string → string → list string → Py.outcome Py.value)
    (entity_id : string) (self : SmartThingsVacuum.t) :
  Forall (one_command_discipline command entity_id self)
    [ SmartThingsVacuum.async_start command entity_id self;
      SmartThingsVacuum.async_pause command entity_id self;
      SmartThingsVacuum.async_stop command entity_id self;
      SmartThingsVacuum.async_return_to_base command entity_id self;
      SmartThingsVacuum.async_clean_spot command entity_id self ]
  ∧ sent_commands (snd (SmartThingsVacuum.async_start command entity_id self))
    = if Py.contains Capability.robot_cleaner_cleaning_mode
           (SmartThingsVacuum._capabilities self)
      then [(Capability.robot_cleaner_cleaning_mode,
             "setRobotCleanerCleaningMode", ["auto"])]
      else if Py.contains Capability.robot_cleaner_movement
                (SmartThingsVacuum._capabilities self)
      then [(Capability.robot_cleaner_movement,
             "setRobotCleanerMovement", ["cleaning"])]
      else [].
Proof.
  split.
  - repeat apply Forall_cons_2; [..|apply Forall_nil_2].
    + apply mode_or_movement_discipline. by eexists.
    + apply mode_or_movement_discipline. by eexists.
    + apply mode_or_movement_discipline. by eexists.
    + apply mode_or_movement_discipline. by eexists.
    + unfold SmartThingsVacuum.async_clean_spot.
      destruct (Py.contains Capability.robot_cleaner_cleaning_mode _).
      * apply conclude_discipline. by eexists.
      * apply unsupported_discipline.
  - unfold SmartThingsVacuum.async_start, SmartThingsVacuum.mode_or_movement,
      SmartThingsVacuum.conclude, SmartThingsVacuum.send.
    destruct (Py.contains Capability.robot_cleaner_cleaning_mode _); simpl.
    + destruct (command _ _ _ _ _) as [v|ex]; [|done].
      by destruct (value_truthy v).
    + destruct (Py.contains Capability.robot_cleaner_movement _); simpl;
        [|done].
      destruct (command _ _ _ _ _) as [v|ex]; [|done].
      by destruct (value_truthy v).
Qed.

(** X9.  [async_set_fan_speed] returns normally whatever the client does
    and sends at most two commands.  A name that is no display name of
    [FAN_SPEED_MAP] sends nothing and leaves one error record.  On a device
    with the turbo capability an accepted speed first switches turbo: on for
    the mode ["turbo"], off for every other mode; when that command raises,
    the cleaning mode is not set. *)
Theorem vacuum_set_fan_speed
    (command :
       Device.t → string → string → string → list string → Py.outcome Py.value)
    (entity_id : string) (self : SmartThingsVacuum.t) (fan_speed : string) :
  let result :=
    SmartThingsVacuum.async_set_fan_speed command entity_id self fan_speed in
  let turbo_switch mode :=
    (Capability.robot_cleaner_turbo_mode, "setRobotCleanerTurboMode",
     [if bool_decide (mode = "turbo") then "on" else "off"]) in
  fst result = Py.Returned ()
  ∧ (List.length (sent_commands (snd result)) ≤ 2)%nat
  ∧ (SmartThingsVacuum.internal_mode_of fan_speed = None →
     snd result
     = [Host (Log ERROR "Unknown fan speed %s for vacuum %s"
                [AStr fan_speed; AStr entity_id])])
  ∧ ∀ mode,
      SmartThingsVacuum.internal_mode_of fan_speed = Some mode →
      Capability.robot_cleaner_turbo_mode
      ∈ Device.capabilities (SmartThingsVacuum._device self) →
      head (sent_commands (snd result)) = Some (turbo_switch mode)
      ∧ ((∃ ex, command (SmartThingsVacuum._device self) "main"
                  Capability.robot_cleaner_turbo_mode
                  "setRobotCleanerTurboMode"
                  [if bool_decide (mode = "turbo") then "on" else "off"]
                = Py.Raised ex) →
         sent_commands (snd result) = [turbo_switch mode]).
Proof.
  intros result turbo_switch. subst result.
  unfold SmartThingsVacuum.async_set_fan_speed.
  destruct (SmartThingsVacuum.internal_mode_of fan_speed) as [mode|] eqn:Hmode.
  2:{ simpl. split; [done|]. split; [lia|]. split; [done|]. done. }
  assert (Py.truthy mode = true) as Htruthy.
  { unfold SmartThingsVacuum.internal_mode_of in Hmode.
    destruct (list_find _ _) as [[i item]|] eqn:Hfind; [|done].
    injection Hmode as <-.
    apply list_find_Some in Hfind as (Hi & _ & _).
    apply list_elem_of_lookup_2 in Hi. revert item Hi.
    apply Forall_forall. apply (bool_decide_unpack _). vm_compute. exact I. }
  rewrite Htruthy. cbn [negb].
  unfold SmartThingsVacuum.send.
  destruct (Py.contains Capability.robot_cleaner_turbo_mode _) eqn:Hturbo.
  - rewrite andb_true_r.
    assert ((if bool_decide (mode = "turbo")
             then (command (SmartThingsVacuum._device self) "main"
                     Capability.robot_cleaner_turbo_mode
                     "setRobotCleanerTurboMode" ["on"],
                   [DeviceCommand
                      (Device.device_id (SmartThingsVacuum._device self))
                      "main" Capability.robot_cleaner_turbo_mode
                      "setRobotCleanerTurboMode" ["on"]])
             else (command (SmartThingsVacuum._device self) "main"
                     Capability.robot_cleaner_turbo_mode
                     "setRobotCleanerTurboMode" ["off"],
                   [DeviceCommand
                      (Device.device_id (SmartThingsVacuum._device self))
                      "main" Capability.robot_cleaner_turbo_mode
                      "setRobotCleanerTurboMode" ["off"]]))
            = (command (SmartThingsVacuum._device self) "main"
                 Capability.robot_cleaner_turbo_mode
                 "setRobotCleanerTurboMode"
                 [if bool_decide (mode = "turbo") then "on" else "off"],
               [DeviceCommand
                  (Device.device_id (SmartThingsVacuum._device self))
                  "main" Capability.robot_cleaner_turbo_mode
                  "setRobotCleanerTurboMode"
                  [if bool_decide (mode = "turbo") then "on" else "off"]]))
      as -> by by destruct (bool_decide (mode = "turbo")).
    cbn [fst snd].
    destruct (command _ "main" Capability.robot_cleaner_turbo_mode _ _)
      as [v|ex] eqn:Hswitch.
    + destruct (Py.contains Capability.robot_cleaner_cleaning_mode _);
        cbn [fst snd].
      * destruct (command _ "main" Capability.robot_cleaner_cleaning_mode _ _)
          as [v2|ex2]; [destruct (value_truthy v2)|]; simpl;
          (split; [done|]; split; [lia|]; split; [done|];
           intros ? [= <-] _; split; [done|]; intros [? Hraised];
           exfalso; clear -Hswitch Hraised; congruence).
      * simpl. split; [done|]. split; [lia|]. split; [done|].
        intros ? [= <-] _. split; [done|]. intros [? Hraised].
        exfalso. clear -Hswitch Hraised. congruence.
    + simpl. split; [done|]. split; [lia|]. split; [done|].
      intros ? [= <-] _. done.
  - rewrite andb_false_r. cbn [fst snd].
    apply contains_false in Hturbo.
    destruct (Py.contains Capability.robot_cleaner_cleaning_mode _);
      cbn [fst snd].
    + destruct (command _ "main" Capability.robot_cleaner_cleaning_mode _ _)
        as [v2|ex2]; [destruct (value_truthy v2)|]; simpl;
        (split; [done|]; split; [lia|]; split; [done|]; by intros ? _ ?).
    + simpl. split; [done|]. split; [lia|]. split; [done|]. by intros ? _ ?.
Qed.

Lemma vacuum_set_fan_speed_witness :
  sent_commands
    (snd (SmartThingsVacuum.async_set_fan_speed
            (λ _ _ _ _ _, Py.Returned (Py.VBool true)) "vacuum.robot"
            turbo_robot_vacuum "Quiet"))
  = [ (Capability.robot_cleaner_turbo_mode, "setRobotCleanerTurboMode",
       ["off"]);
      (Capability.robot_cleaner_cleaning_mode, "setRobotCleanerCleaningMode",
       ["quiet"]) ]
  ∧ head
      (sent_commands
         (snd (SmartThingsVacuum.async_set_fan_speed
                 (λ _ _ _ _ _, Py.Returned (Py.VBool true)) "vacuum.robot"
                 turbo_robot_vacuum "Quiet")))
    = Some (Capability.robot_cleaner_turbo_mode, "setRobotCleanerTurboMode",
            [if bool_decide ("quiet" = "turbo") then "on" else "off"]).
Proof.
  split; [reflexivity|].
  pose proof (vacuum_set_fan_speed
                (λ _ _ _ _ _, Py.Returned (Py.VBool true)) "vacuum.robot"
                turbo_robot_vacuum "Quiet") as Hspec.
  cbv zeta in Hspec. destruct Hspec as (_ & _ & _ & Hturbo).
  apply (Hturbo "quiet").
  - reflexivity.
  - apply (bool_decide_unpack _). vm_compute. exact I.
Defined.

(** ** Button entities *)

Section ButtonFacts.
Import ButtonPlatform.








End ButtonFacts.



(** X11.  The [available] property of a button raises [AttributeError]
    when the status has no [switch_state] attribute, where the property of
    the base class answers [True].  When the attribute is there, the button
    is available exactly when the base class says so and the button's
    capability is among the device's; for a button created by the setup
    that is exactly when the base class says so. *)
Theorem button_available_spec (self : SmartThingsButton.t) :
  let device := SmartThingsButton._device self in
  let base := SmartThingsEntity.available (SmartThingsEntity.mk device) in
  (Device.status device !! "switch_state" = None →
   ButtonPlatform.available self
   = Py.Raised (Py.OtherException "AttributeError")
   ∧ base = true)
  ∧ (is_Some (Device.status device !! "switch_state") →
     ButtonPlatform.available self
     = Py.Returned
         (base && Py.contains (SmartThingsButton._capability self)
                    (Device.capabilities device)))
  ∧ (∀ title,
       self ∈ ButtonPlatform.device_buttons title device →
       is_Some (Device.status device !! "switch_state") →
       ButtonPlatform.available self = Py.Returned base).
Proof.
  intros device base. subst base device.
  unfold ButtonPlatform.available, SmartThingsEntity.available.
  simpl. split; [|split].
  - by intros ->.
  - intros [v ->]. done.
  - intros title Hin [v Hv]. rewrite Hv.
    assert (Py.contains (SmartThingsButton._capability self)
              (Device.capabilities (SmartThingsButton._device self)) = true)
      as ->; [|by rewrite andb_true_r].
    apply contains_true.
    unfold ButtonPlatform.device_buttons in Hin.
    apply list_elem_of_bind in Hin as (capability & Hin & Hcap).
    destruct (Py.get capability ButtonPlatform.CAPABILITY_TO_BUTTON);
      [|by apply elem_of_nil in Hin].
    by apply list_elem_of_fmap in Hin as (command & -> & _).
Qed.

Lemma button_available_spec_witness :
  ButtonPlatform.available doorbell_button
  = Py.Raised (Py.OtherException "AttributeError")
  ∧ SmartThingsEntity.available (SmartThingsEntity.mk doorbell_device) = true.
Proof.
  apply (button_available_spec doorbell_button). reflexivity.
Defined.

(** ** Media player entities *)

Section MediaPlayerFacts.
Import SmartThingsMediaPlayer.

Lemma media_flag_or_elem_of features feature f :
  f ∈ flag_or features feature ↔ f = feature ∨ f ∈ features.
Proof.
  unfold flag_or. destruct (decide (feature ∈ features)) as [Hin|Hnot].
  - split; [by right | by intros [->|?]].
  - rewrite elem_of_app, list_elem_of_singleton. tauto.
Qed.

Lemma media_fold_flag_or_elem_of added features f :
  f ∈ fold_left flag_or added features ↔ f ∈ added ∨ f ∈ features.
Proof.
  revert features. induction added as [|a added IH]; intros features; simpl.
  - rewrite elem_of_nil. tauto.
  - rewrite IH, media_flag_or_elem_of, elem_of_cons. tauto.
Qed.

Lemma media_features_elem_of capabilities supported f :
  f ∈ fold_left
        (λ supported capability,
           match Py.get capability CAPABILITY_TO_MEDIA_PLAYER with
           | Some c => fold_left flag_or (features c) supported
           | None => supported
           end)
        capabilities supported
  ↔ f ∈ supported
    ∨ ∃ capability c,
        capability ∈ capabilities
        ∧ Py.get capability CAPABILITY_TO_MEDIA_PLAYER = Some c
        ∧ f ∈ features c.
Proof.
  revert supported.
  induction capabilities as [|a capabilities IH]; intros supported;
    cbn [fold_left].
  - split; [by left|]. intros [?|(? & ? & Hin & _)]; [done|].
    by apply elem_of_nil in Hin.
  - rewrite IH. split.
    + intros [Hf|(capability & c & Hin & Hget & Hfc)].
      * destruct (Py.get a CAPABILITY_TO_MEDIA_PLAYER) as [c|] eqn:Ha;
          [|by left].
        apply media_fold_flag_or_elem_of in Hf as [Hf|Hf]; [|by left].
        right. exists a, c. split; [apply elem_of_cons; by left|done].
      * right. exists capability, c.
        split; [apply elem_of_cons; by right|done].
    + intros [Hf|(capability & c & Hin & Hget & Hfc)].
      * left. destruct (Py.get a CAPABILITY_TO_MEDIA_PLAYER); [|done].
        apply media_fold_flag_or_elem_of. by right.
      * apply elem_of_cons in Hin as [->|Hin].
        -- left. rewrite Hget. apply media_fold_flag_or_elem_of. by left.
        -- right. by exists capability, c.
Qed.

(** On what the probe selects from the table, the primary capability is
    the first capability and has a configuration. *)
Lemma primary_capability_head (pool : list string) :
  let supported :=
    filter (λ c, c ∈ pool) MediaPlayer.CAPABILITY_TO_MEDIA_PLAYER in
  supported ≠ [] →
  head supported = Some (primary_capability supported)
  ∧ is_Some (Py.get (primary_capability supported) CAPABILITY_TO_MEDIA_PLAYER).
Proof.
  unfold MediaPlayer.CAPABILITY_TO_MEDIA_PLAYER.
  rewrite (filter_cons (λ c, c ∈ pool)), (filter_cons (λ c, c ∈ pool)),
    (filter_cons (λ c, c ∈ pool)), (filter_cons (λ c, c ∈ pool)), filter_nil.
  destruct (decide (Capability.tv_channel ∈ pool)),
           (decide (Capability.audio_volume ∈ pool)),
           (decide (Capability.media_playback ∈ pool)),
           (decide (Capability.media_input_source ∈ pool));
    intros Hne; try done; (split; [reflexivity | by eexists]).
Qed.

End MediaPlayerFacts.

(** X12.  [media_player.py] asks for a media player for a device exactly
    when the device has a capability of [CAPABILITY_TO_MEDIA_PLAYER].
    Creating the entity begins with the constructor of the base class:
    creating it raises exactly when that constructor raises, with its
    exception, and the table lookup of the primary capability never fails.
    The entity's capabilities are the capabilities of the table that the
    device has, in table order; its primary capability is the first of
    them; it supports a feature exactly when the table gives the feature to
    one of its capabilities; and its [available] property raises
    [AttributeError] when the status has no [switch_state] attribute and
    otherwise tells whether that attribute differs from the string
    unavailable, the capability test of the property being always
    passed. *)
Theorem media_player_of_device
    (super__init__ : Device.t → Py.outcome unit) (device : Device.t) :
  let supported :=
    filter (λ c, c ∈ Device.capabilities device)
      MediaPlayer.CAPABILITY_TO_MEDIA_PLAYER in
  (supported = [] →
   SmartThingsMediaPlayer.device_media_player super__init__ device
   = Py.Returned None)
  ∧ (supported ≠ [] → ∀ ex,
     super__init__ device = Py.Raised ex →
     SmartThingsMediaPlayer.device_media_player super__init__ device
     = Py.Raised ex)
  ∧ (supported ≠ [] → super__init__ device = Py.Returned () →
     ∃ entity,
       SmartThingsMediaPlayer.device_media_player super__init__ device
       = Py.Returned (Some entity)
       ∧ SmartThingsMediaPlayer._device entity = device
       ∧ SmartThingsMediaPlayer._capabilities entity = supported
       ∧ head supported
         = Some (SmartThingsMediaPlayer._primary_capability entity)
       ∧ Py.get (SmartThingsMediaPlayer._primary_capability entity)
           SmartThingsMediaPlayer.CAPABILITY_TO_MEDIA_PLAYER
         = Some (SmartThingsMediaPlayer._config entity)
       ∧ (∀ f, f ∈ SmartThingsMediaPlayer._attr_supported_features entity
               ↔ ∃ capability c,
                   capability ∈ supported
                   ∧ Py.get capability
                       SmartThingsMediaPlayer.CAPABILITY_TO_MEDIA_PLAYER
                     = Some c
                   ∧ f ∈ SmartThingsMediaPlayer.features c)
       ∧ (Device.status device !! "switch_state" = None →
          SmartThingsMediaPlayer.available entity
          = Py.Raised (Py.OtherException "AttributeError"))
       ∧ (∀ switch_state,
            Device.status device !! "switch_state" = Some switch_state →
            SmartThingsMediaPlayer.available entity
            = Py.Returned
                (negb (bool_decide (switch_state = Py.VStr "unavailable"))))).
Proof.
  intros supported.
  pose proof (primary_capability_head (Device.capabilities device)) as Hhead.
  cbv zeta in Hhead. fold supported in Hhead.
  unfold SmartThingsMediaPlayer.device_media_player,
    MediaPlayer.get_capabilities. fold supported.
  split; [by intros ->|]. split.
  { intros Hne ex Hraised.
    destruct supported as [|c0 rest] eqn:Hsup; [done|]. simpl.
    unfold SmartThingsMediaPlayer.__init__. by rewrite Hraised. }
  intros Hne Hreturned.
  destruct (Hhead Hne) as [Hfirst [config Hconfig]].
  destruct supported as [|c0 rest] eqn:Hsup; [done|]. simpl.
  unfold SmartThingsMediaPlayer.__init__. rewrite Hreturned, Hconfig.
  eexists. split; [reflexivity|]. simpl.
  do 4 (split; [done|]). split; [|split].
  - intros f. unfold SmartThingsMediaPlayer.supported_features.
    rewrite media_features_elem_of, elem_of_nil. tauto.
  - unfold SmartThingsMediaPlayer.available. simpl. by intros ->.
  - unfold SmartThingsMediaPlayer.available.
    simpl. intros v ->.
    assert (Py.contains c0 (Device.capabilities device) = true) as ->.
    { apply contains_true.
      assert (c0 ∈ c0 :: rest) as Hin by (apply elem_of_cons; by left).
      rewrite <- Hsup in Hin. unfold supported in Hin.
      by apply list_elem_of_filter in Hin as [? _]. }
    simpl. by rewrite andb_true_r.
Qed.

Lemma media_player_of_device_witness :
  SmartThingsMediaPlayer.device_media_player
    (λ _, Py.Raised (Py.OtherException "AttributeError")) tv_device
  = Py.Raised (Py.OtherException "AttributeError")
  ∧ ∃ entity,
      SmartThingsMediaPlayer.device_media_player
        (λ _, Py.Returned ()) tv_device
      = Py.Returned (Some entity)
      ∧ SmartThingsMediaPlayer._capabilities entity
        = [Capability.audio_volume; Capability.media_input_source]
      ∧ SmartThingsMediaPlayer._primary_capability entity
        = Capability.audio_volume.
Proof.
  split.
  - pose proof (media_player_of_device
                  (λ _, Py.Raised (Py.OtherException "AttributeError"))
                  tv_device) as Hspec.
    cbv zeta in Hspec. destruct Hspec as (_ & Hraises & _).
    by apply Hraises.
  - pose proof (media_player_of_device (λ _, Py.Returned ()) tv_device)
      as Hspec.
    cbv zeta in Hspec. destruct Hspec as (_ & _ & Hsome).
    destruct Hsome as (entity & Hcreated & _ & Hcaps & Hhead & _);
      [done | done |].
    exists entity. split; [exact Hcreated|]. split; [exact Hcaps|].
    change (Some Capability.audio_volume
            = Some (SmartThingsMediaPlayer._primary_capability entity))
      in Hhead.
    congruence.
Defined.

Section MediaPlayerCommandFacts.
Import SmartThingsMediaPlayer.

Variable command :
  Device.t → string → string → string → list string → Py.outcome Py.value.

Lemma send_command_or_warning self capability cmd args :
  command_or_warning command self (send command self capability cmd args).
Proof.
  right. exists capability, cmd, args. unfold send. simpl.
  split; [done|].
  destruct (command (_device self) "main" capability cmd args) as [v|ex].
  - split; [done|]. by intros ex.
  - split; [by intros [v Hv] | by intros ex' [= ->]].
Qed.

Lemma warn_command_or_warning self msg :
  command_or_warning command self (warn self msg).
Proof. left. split; [done|]. by exists msg. Qed.

End MediaPlayerCommandFacts.

(** X13.  The command methods of a media player ([async_turn_on],
    [async_turn_off], [async_volume_up], [async_volume_down],
    [async_mute_volume], [async_media_play], [async_media_pause],
    [async_media_stop], [async_media_next_track],
    [async_media_previous_track], [async_select_source]) either log one
    warning and send nothing, or send exactly one command, log nothing, and
    end as the command ends: an exception of the client goes to the caller
    as it is.  Power on and power off each send their switch command
    exactly when the device has the switch capability, whatever the
    entity's capabilities are; next track and previous track each use the
    playback capability when the entity has it and the TV channel only
    otherwise. *)
Theorem media_player_commands
    (command :
       Device.t → string → string → string → list string → Py.outcome Py.value)
    (isdigit : string → bool) (self : SmartThingsMediaPlayer.t)
    (mute : bool) (source : string) :
  Forall (SmartThingsMediaPlayer.command_or_warning command self)
    [ SmartThingsMediaPlayer.async_turn_on command self;
      SmartThingsMediaPlayer.async_turn_off command self;
      SmartThingsMediaPlayer.async_volume_up command self;
      SmartThingsMediaPlayer.async_volume_down command self;
      SmartThingsMediaPlayer.async_mute_volume command self mute;
      SmartThingsMediaPlayer.async_media_play command self;
      SmartThingsMediaPlayer.async_media_pause command self;
      SmartThingsMediaPlayer.async_media_stop command self;
      SmartThingsMediaPlayer.async_media_next_track command self;
      SmartThingsMediaPlayer.async_media_previous_track command self;
      SmartThingsMediaPlayer.async_select_source command isdigit self source ]
  ∧ (sent_commands (snd (SmartThingsMediaPlayer.async_turn_on command self))
     = if Py.contains Capability.switch
            (Device.capabilities (SmartThingsMediaPlayer._device self))
       then [(Capability.switch, "on", [])] else [])
  ∧ (sent_commands (snd (SmartThingsMediaPlayer.async_turn_off command self))
     = if Py.contains Capability.switch
            (Device.capabilities (SmartThingsMediaPlayer._device self))
       then [(Capability.switch, "off", [])] else [])
  ∧ (sent_commands
       (snd (SmartThingsMediaPlayer.async_media_next_track command self))
     = if Py.contains Capability.media_playback
            (SmartThingsMediaPlayer._capabilities self)
       then [(Capability.media_playback, "fastForward", [])]
       else if Py.contains Capability.tv_channel
                 (SmartThingsMediaPlayer._capabilities self)
       then [(Capability.tv_channel, "channelUp", [])]
       else [])
  ∧ (sent_commands
       (snd (SmartThingsMediaPlayer.async_media_previous_track command self))
     = if Py.contains Capability.media_playback
            (SmartThingsMediaPlayer._capabilities self)
       then [(Capability.media_playback, "rewind", [])]
       else if Py.contains Capability.tv_channel
                 (SmartThingsMediaPlayer._capabilities self)
       then [(Capability.tv_channel, "channelDown", [])]
       else []).
Proof.
  split; [|split; [|split; [|split]]].
  - repeat apply Forall_cons_2; [..|apply Forall_nil_2].
    all: unfold SmartThingsMediaPlayer.async_turn_on,
           SmartThingsMediaPlayer.async_turn_off,
           SmartThingsMediaPlayer.async_volume_up,
           SmartThingsMediaPlayer.async_volume_down,
           SmartThingsMediaPlayer.async_mute_volume,
           SmartThingsMediaPlayer.async_media_play,
           SmartThingsMediaPlayer.async_media_pause,
           SmartThingsMediaPlayer.async_media_stop,
           SmartThingsMediaPlayer.async_media_next_track,
           SmartThingsMediaPlayer.async_media_previous_track,
           SmartThingsMediaPlayer.async_select_source.
    all: repeat match goal with
                | |- context [if ?b then _ else _] => destruct b
                end.
    all: first [ apply send_command_or_warning
               | apply warn_command_or_warning ].
  - unfold SmartThingsMediaPlayer.async_turn_on.
    by destruct (Py.contains Capability.switch _).
  - unfold SmartThingsMediaPlayer.async_turn_off.
    by destruct (Py.contains Capability.switch _).
  - unfold SmartThingsMediaPlayer.async_media_next_track.
    destruct (Py.contains Capability.media_playback _); [done|].
    by destruct (Py.contains Capability.tv_channel _).
  - unfold SmartThingsMediaPlayer.async_media_previous_track.
    destruct (Py.contains Capability.media_playback _); [done|].
    by destruct (Py.contains Capability.tv_channel _).
Qed.

(** ** Diagnostics of the entity base class *)

Section DiagnosticsFacts.
Import EntityDiagnostics.

Variable str : Py.exn → string.

Lemma after_updates_snoc entity_id diag calls call :
  after_updates str entity_id diag (calls ++ [call])
  = snd (fst (async_update_ha_state str entity_id
                (after_updates str entity_id diag calls) call)).
Proof. unfold after_updates. by rewrite fold_left_app. Qed.

Lemma failures_snoc calls call :
  failures (calls ++ [call])
  = failures calls
    ++ match snd call with
       | Py.Raised ex => [ex]
       | Py.Returned _ => []
       end.
Proof.
  unfold failures. rewrite omap_app. f_equal. simpl.
  by destruct (snd call).
Qed.

End DiagnosticsFacts.

(** X14.  The update bookkeeping of an entity: after any series of calls
    of [async_update_ha_state], the update count has grown by the number of
    calls and the error count by the number of calls that failed; the last
    error is the text of the last failure.  A failing call logs one debug
    record, which carries the entity id and the exception, and re-raises
    the exception of the host; a call that succeeds returns and logs
    nothing.  Nothing ever resets the error members: once a call has
    failed, and the text of the last failure is not empty, the health
    status of an available entity is ["error"] after every later series of
    calls. *)
Theorem entity_update_bookkeeping
    (str : Py.exn → string) (entity_id : string)
    (self : SmartThingsEntity.t) (diag : EntityDiagnostics.t)
    (calls : list (Z * Py.outcome unit)) :
  let final := EntityDiagnostics.after_updates str entity_id diag calls in
  EntityDiagnostics._update_count final
  = (EntityDiagnostics._update_count diag + List.length calls)%nat
  ∧ EntityDiagnostics._error_count final
    = (EntityDiagnostics._error_count diag
       + List.length (EntityDiagnostics.failures calls))%nat
  ∧ EntityDiagnostics._last_error final
    = match last (EntityDiagnostics.failures calls) with
      | Some ex => Some (str ex)
      | None => EntityDiagnostics._last_error diag
      end
  ∧ (∀ now ex,
       fst (fst (EntityDiagnostics.async_update_ha_state str entity_id final
                   (now, Py.Raised ex)))
       = Py.Raised ex
       ∧ snd (EntityDiagnostics.async_update_ha_state str entity_id final
                (now, Py.Raised ex))
         = [Log DEBUG "Error updating state for %s: %s"
              [AStr entity_id; AExn ex]])
  ∧ (∀ now,
       fst (fst (EntityDiagnostics.async_update_ha_state str entity_id final
                   (now, Py.Returned ())))
       = Py.Returned ()
       ∧ snd (EntityDiagnostics.async_update_ha_state str entity_id final
                (now, Py.Returned ()))
         = [])
  ∧ (∀ ex,
       last (EntityDiagnostics.failures calls) = Some ex →
       str ex ≠ "" →
       SmartThingsEntity.available self = true →
       EntityDiagnostics._get_health_status self final = Py.Returned "error").
Proof.
  intros final. subst final.
  assert (EntityDiagnostics._update_count
            (EntityDiagnostics.after_updates str entity_id diag calls)
          = (EntityDiagnostics._update_count diag + List.length calls)%nat
          ∧ EntityDiagnostics._error_count
              (EntityDiagnostics.after_updates str entity_id diag calls)
            = (EntityDiagnostics._error_count diag
               + List.length (EntityDiagnostics.failures calls))%nat
          ∧ EntityDiagnostics._last_error
              (EntityDiagnostics.after_updates str entity_id diag calls)
            = match last (EntityDiagnostics.failures calls) with
              | Some ex => Some (str ex)
              | None => EntityDiagnostics._last_error diag
              end) as (Hupdates & Herrors & Hlast).
  { induction calls as [|[now host] calls (IH1 & IH2 & IH3)] using rev_ind.
    - simpl. split; [lia|]. split; [lia|done].
    - rewrite after_updates_snoc, failures_snoc, length_app.
      unfold EntityDiagnostics.async_update_ha_state.
      destruct host as [[]|ex]; simpl.
      + rewrite IH1, IH2, IH3, app_nil_r. simpl. split; [lia|done].
      + rewrite IH1, IH2, length_app, last_snoc. simpl.
        split; [lia|]. split; [lia|done]. }
  do 3 (split; [done|]). split; [done|]. split; [done|].
  intros ex Hex Hne Havailable.
  unfold EntityDiagnostics._get_health_status.
  rewrite Havailable, Herrors, Hlast, Hex. simpl.
  assert (EntityDiagnostics.failures calls ≠ []) as Hfailed
    by (intros Hnil; by rewrite Hnil in Hex).
  assert ((0 <? EntityDiagnostics._error_count diag
                + List.length (EntityDiagnostics.failures calls))%nat = true)
    as ->.
  { apply Nat.ltb_lt. destruct (EntityDiagnostics.failures calls); [done|].
    simpl. lia. }
  by rewrite (truthy_non_empty (str ex) Hne).
Qed.

Lemma entity_update_bookkeeping_witness :
  EntityDiagnostics._get_health_status (SmartThingsEntity.mk tv_device)
    (EntityDiagnostics.after_updates (λ _, "timeout") "number.tv_volume"
       EntityDiagnostics.initial
       [ (10%Z, Py.Returned ());
         (20%Z, Py.Raised (Py.OtherException "TimeoutError"));
         (30%Z, Py.Returned ()) ])
  = Py.Returned "error".
Proof.
  pose proof (entity_update_bookkeeping (λ _, "timeout") "number.tv_volume"
                (SmartThingsEntity.mk tv_device) EntityDiagnostics.initial
                [ (10%Z, Py.Returned ());
                  (20%Z, Py.Raised (Py.OtherException "TimeoutError"));
                  (30%Z, Py.Returned ()) ]) as Hspec.
  cbv zeta in Hspec. destruct Hspec as (_ & _ & _ & _ & _ & Herror).
  apply (Herror (Py.OtherException "TimeoutError")).
  - reflexivity.
  - discriminate.
  - reflexivity.
Defined.

(** X15.  The health status of an entity that keeps the [available] of
    the base class: it is ["unavailable"] exactly when the entity is not
    available; when it returns, it returns one of ["unavailable"],
    ["error"], ["critical"], ["warning"], ["ok"]; with an integer battery
    level it is ["ok"] only if the level is at least 25; and a link quality
    of 0 counts as absent, so that with no [rssi] attribute no signal
    warning is given. *)
Theorem entity_health_status
    (self : SmartThingsEntity.t) (diag : EntityDiagnostics.t) :
  let status := Device.status (SmartThingsEntity._device self) in
  let health := EntityDiagnostics._get_health_status self diag in
  (health = Py.Returned "unavailable"
   ↔ SmartThingsEntity.available self = false)
  ∧ (∀ s, health = Py.Returned s →
          s ∈ ["unavailable"; "error"; "critical"; "warning"; "ok"])
  ∧ (∀ n, status !! "battery" = Some (Py.VInt n) →
          health = Py.Returned "ok" → (25 ≤ n)%Z)
  ∧ (SmartThingsEntity.available self = true →
     EntityDiagnostics._error_count diag = 0%nat →
     status !! "battery" = None →
     status !! "lqi" = Some (Py.VInt 0) →
     status !! "rssi" = None →
     health = Py.Returned "ok").
Proof.
  intros status health. subst health.
  unfold EntityDiagnostics._get_health_status. fold status.
  assert (∀ s,
            (let signal := EntityDiagnostics.signal_strength status in
             if negb (bool_decide (signal = Py.VNone))
                && EntityDiagnostics.is_number signal
             then
               match EntityDiagnostics.value_lt signal 30 with
               | Py.Raised ex => Py.Raised ex
               | Py.Returned true => Py.Returned "warning"
               | Py.Returned false => Py.Returned "ok"
               end
             else Py.Returned "ok") = Py.Returned s →
            s = "warning" ∨ s = "ok") as Hsignal.
  { intros s. cbv zeta. destruct (negb _ && _); [|intros [= <-]; by right].
    destruct (EntityDiagnostics.value_lt _ 30) as [[]|]; [| |done];
      intros [= <-]; [by left | by right]. }
  destruct (SmartThingsEntity.available self) eqn:Havailable; simpl.
  2:{ split; [done|]. split.
      - intros s [= <-]. apply elem_of_cons. by left.
      - split; [by intros ? _ ?|done]. }
  destruct ((0 <? EntityDiagnostics._error_count diag)%nat
            && Py.truthy (default "" (EntityDiagnostics._last_error diag)))
    eqn:Herror.
  { split; [done|]. split.
    - intros s [= <-]. by apply (bool_decide_unpack _).
    - split; [by intros ? _ ?|].
      intros _ Hzero. rewrite Hzero in Herror. done. }
  split; [|split; [|split]].
  - split; [|done].
    destruct (status !! "battery") as [battery_level|].
    + destruct (bool_decide (battery_level = Py.VNone)).
      * intros Hs. by apply Hsignal in Hs as [?|?].
      * destruct (EntityDiagnostics.value_lt battery_level 10) as [[]|];
          [done| |done].
        destruct (EntityDiagnostics.value_lt battery_level 25) as [[]|];
          [done| |done].
        intros Hs. by apply Hsignal in Hs as [?|?].
    + intros Hs. by apply Hsignal in Hs as [?|?].
  - intros s.
    assert (s = "warning" ∨ s = "ok" →
            s ∈ ["unavailable"; "error"; "critical"; "warning"; "ok"])
      as Hin by (intros [->| ->]; by apply (bool_decide_unpack _)).
    destruct (status !! "battery") as [battery_level|].
    + destruct (bool_decide (battery_level = Py.VNone)).
      * intros Hs. by apply Hin, Hsignal.
      * destruct (EntityDiagnostics.value_lt battery_level 10) as [[]|];
          [| |done].
        { intros [= <-]. by apply (bool_decide_unpack _). }
        destruct (EntityDiagnostics.value_lt battery_level 25) as [[]|];
          [| |done].
        { intros [= <-]. by apply (bool_decide_unpack _). }
        intros Hs. by apply Hin, Hsignal.
    + intros Hs. by apply Hin, Hsignal.
  - intros n ->. simpl.
    destruct (n <? 10)%Z eqn:H10; [done|].
    destruct (n <? 25)%Z eqn:H25; [done|].
    intros _. apply Z.ltb_ge in H25. lia.
  - intros _ _ -> Hlqi Hrssi.
    unfold EntityDiagnostics.signal_strength, getattr_or_None.
    by rewrite Hlqi, Hrssi.
Qed.

Lemma entity_health_status_witness :
  EntityDiagnostics._get_health_status
    (SmartThingsEntity.mk
       (Device.mk "sensor-1" "Sensor" [] {[ "lqi" := Py.VInt 0 ]}))
    EntityDiagnostics.initial
  = Py.Returned "ok".
Proof.
  pose proof (entity_health_status
                (SmartThingsEntity.mk
                   (Device.mk "sensor-1" "Sensor" []
                      {[ "lqi" := Py.VInt 0 ]}))
                EntityDiagnostics.initial) as Hspec.
  cbv zeta in Hspec. destruct Hspec as (_ & _ & _ & Hlqi).
  apply Hlqi; reflexivity.
Defined.

(** ** The service handlers *)

Section FindDeviceFacts.

Variable brokers : Py.dict DeviceBroker.t.

Lemma find_device_Some device_id (entries : list Entry.t) entry_id broker device :
  find_device brokers device_id entries = Some (entry_id, broker, device) →
  Py.get entry_id brokers = Some broker
  ∧ DeviceBroker.devices broker !! device_id = Some device
  ∧ ∃ before entry after,
      entries = before ++ entry :: after
      ∧ Entry.entry_id entry = entry_id
      ∧ find_device brokers device_id before = None.
Proof.
  induction entries as [|entry entries IH]; simpl; [done|].
  destruct (Py.get (Entry.entry_id entry) brokers) as [b|] eqn:Hb.
  - destruct (DeviceBroker.devices b !! device_id) as [d|] eqn:Hd.
    + intros [= <- <- <-]. do 2 (split; [done|]).
      by exists [], entry, entries.
    + intros Hfind.
      destruct (IH Hfind) as (? & ? & before & e & after & -> & ? & Hnone).
      do 2 (split; [done|]). exists (entry :: before), e, after.
      split; [done|]. split; [done|]. simpl. by rewrite Hb, Hd.
  - intros Hfind.
    destruct (IH Hfind) as (? & ? & before & e & after & -> & ? & Hnone).
    do 2 (split; [done|]). exists (entry :: before), e, after.
    split; [done|]. split; [done|]. simpl. by rewrite Hb.
Qed.

Lemma find_device_None device_id (entries : list Entry.t) :
  find_device brokers device_id entries = None
  ↔ ∀ entry broker,
      entry ∈ entries →
      Py.get (Entry.entry_id entry) brokers = Some broker →
      DeviceBroker.devices broker !! device_id = None.
Proof.
  induction entries as [|entry entries IH]; simpl.
  - split; [|done]. intros _ ? ? Hin. by apply elem_of_nil in Hin.
  - destruct (Py.get (Entry.entry_id entry) brokers) as [b|] eqn:Hb.
    + destruct (DeviceBroker.devices b !! device_id) as [d|] eqn:Hd.
      * split; [done|]. intros Hall.
        assert (DeviceBroker.devices b !! device_id = None) as Hnone
          by (apply (Hall entry b); [apply elem_of_cons; by left | done]).
        congruence.
      * rewrite IH. split.
        -- intros Hall e br Hin Hget.
           apply elem_of_cons in Hin as [->|Hin]; [congruence|].
           by apply (Hall e br).
        -- intros Hall e br Hin. apply Hall, elem_of_cons. by right.
    + rewrite IH. split.
      * intros Hall e br Hin Hget.
        apply elem_of_cons in Hin as [->|Hin]; [congruence|].
        by apply (Hall e br).
      * intros Hall e br Hin. apply Hall, elem_of_cons. by right.
Qed.

End FindDeviceFacts.

(** X16.  [refresh_device_service] returns normally whatever the client
    does.  It sends the update signal, for exactly the requested device id,
    when and only when the id is not empty, some broker of an entry has the
    device, and the refresh of that device succeeds; the device that is
    refreshed is the one of the first entry, in order, whose broker has
    the id.  In every other case the brokers are left as they are and the
    only effect is one error record. *)
Theorem refresh_device_service_spec
    (entries : list Entry.t) (brokers : Py.dict DeviceBroker.t)
    (refresh : Device.t → Py.outcome (gmap string Py.value))
    (device_id : string) :
  let result :=
    refresh_device_service entries brokers refresh (Some device_id) in
  let refreshed :=
    device_id ≠ ""
    ∧ ∃ entry_id broker device status,
        find_device brokers device_id entries
        = Some (entry_id, broker, device)
        ∧ refresh device = Py.Returned status in
  fst (fst result) = Py.Returned ()
  ∧ (refreshed →
     DeviceBroker.signals_sent (snd result)
     = [(SIGNAL_SMARTTHINGS_UPDATE, {[ device_id ]})])
  ∧ (¬ refreshed →
     snd (fst result) = brokers
     ∧ ∃ msg args, snd result = [Log ERROR msg args])
  ∧ (∀ entry_id broker device,
       find_device brokers device_id entries
       = Some (entry_id, broker, device) →
       Py.get entry_id brokers = Some broker
       ∧ DeviceBroker.devices broker !! device_id = Some device
       ∧ ∃ before entry after,
           entries = before ++ entry :: after
           ∧ Entry.entry_id entry = entry_id
           ∧ ∀ earlier earlier_broker,
               earlier ∈ before →
               Py.get (Entry.entry_id earlier) brokers = Some earlier_broker →
               DeviceBroker.devices earlier_broker !! device_id = None).
Proof.
  intros result refreshed. subst result refreshed.
  unfold refresh_device_service.
  destruct (Py.truthy device_id) eqn:Htruthy; simpl.
  2:{ split; [done|]. split.
      - intros [Hne _]. by rewrite (truthy_non_empty _ Hne) in Htruthy.
      - split; [intros _; split; [done | by eexists _, _]|].
        intros ? ? ? Hfind.
        destruct (find_device_Some _ _ _ _ _ _ Hfind)
          as (? & ? & before & e & after & ? & ? & Hnone).
        do 2 (split; [done|]). exists before, e, after.
        do 2 (split; [done|]). by apply find_device_None. }
  destruct (find_device brokers device_id entries) as [[[eid broker] device]|]
    eqn:Hfind.
  2:{ split; [done|]. split.
      - by intros (_ & ? & ? & ? & ? & ? & _).
      - split; [|done]. intros _. split; [done | by eexists _, _]. }
  destruct (refresh device) as [status|ex] eqn:Hrefresh; simpl.
  - split; [done|]. split; [done|]. split.
    + intros Hnot. exfalso. apply Hnot. split.
      * intros ->. done.
      * by exists eid, broker, device, status.
    + intros ? ? ? [= <- <- <-].
      destruct (find_device_Some _ _ _ _ _ _ Hfind)
        as (? & ? & before & e & after & ? & ? & Hnone).
      do 2 (split; [done|]). exists before, e, after.
      do 2 (split; [done|]). by apply find_device_None.
  - split; [done|]. split.
    + intros (_ & ? & ? & ? & ? & [= <- <- <-] & Hok). congruence.
    + split; [intros _; split; [done | by eexists _, _]|].
      intros ? ? ? [= <- <- <-].
      destruct (find_device_Some _ _ _ _ _ _ Hfind)
        as (? & ? & before & e & after & ? & ? & Hnone).
      do 2 (split; [done|]). exists before, e, after.
      do 2 (split; [done|]). by apply find_device_None.
Qed.

Lemma refresh_device_service_spec_witness :
  DeviceBroker.signals_sent
    (snd (refresh_device_service
            [Entry.mk "entry-1" "app-1" "installed-app-1" sample_entry]
            [("entry-1", sample_broker)]
            (λ device, Py.Returned (Device.status device))
            (Some "tv-1")))
  = [(SIGNAL_SMARTTHINGS_UPDATE, {[ "tv-1" ]})].
Proof.
  apply (refresh_device_service_spec
           [Entry.mk "entry-1" "app-1" "installed-app-1" sample_entry]
           [("entry-1", sample_broker)]
           (λ device, Py.Returned (Device.status device)) "tv-1").
  split; [discriminate|].
  by eexists _, _, _, _.
Defined.

(** X17.  The [send_command] and [execute_scene] service handlers return
    normally on every call and whatever the client does, and leave exactly
    one log record.  It is an information record exactly when every
    required field of the call is there and truthy, an entry is configured,
    and the client call, made for the first entry, returned; in every other
    case it is an error record. *)
Theorem service_handlers_log_and_return
    (entries : list ConfigEntry.t)
    (execute_device_command :
       ConfigEntry.t → string → string → string → string → list string →
       Py.outcome unit)
    (call : ServiceCall.t)
    (scene_entries : list Entry.t)
    (execute_scene : ConfigEntry.t → string → Py.outcome unit)
    (scene_id : option string) :
  (fst (send_command_service entries execute_device_command call)
   = Py.Returned ()
   ∧ ∃ level msg args,
       snd (send_command_service entries execute_device_command call)
       = [Log level msg args]
       ∧ (level = INFO ∨ level = ERROR)
       ∧ (level = INFO
          ↔ ∃ entry device_id capability command,
              head entries = Some entry
              ∧ ServiceCall.device_id call = Some device_id
              ∧ ServiceCall.capability call = Some capability
              ∧ ServiceCall.command call = Some command
              ∧ Py.truthy device_id && Py.truthy capability
                && Py.truthy command = true
              ∧ execute_device_command entry device_id capability command
                  (default "main" (ServiceCall.component_id call))
                  (default [] (ServiceCall.arguments call))
                = Py.Returned ()))
  ∧ (fst (execute_scene_service scene_entries execute_scene scene_id)
     = Py.Returned ()
     ∧ ∃ level msg args,
         snd (execute_scene_service scene_entries execute_scene scene_id)
         = [Log level msg args]
         ∧ (level = INFO ∨ level = ERROR)
         ∧ (level = INFO
            ↔ ∃ entry scene,
                head scene_entries = Some entry
                ∧ scene_id = Some scene
                ∧ Py.truthy scene = true
                ∧ execute_scene (Entry.config entry) scene = Py.Returned ())).
Proof.
  split.
  - unfold send_command_service.
    destruct (ServiceCall.device_id call) as [device_id|];
      [|split; [done|]; eexists _, _, _; split; [done|];
        split; [by right|]; split; [done|];
        by intros (? & ? & ? & ? & _ & ? & _)].
    destruct (ServiceCall.capability call) as [capability|];
      [|split; [done|]; eexists _, _, _; split; [done|];
        split; [by right|]; split; [done|];
        by intros (? & ? & ? & ? & _ & _ & ? & _)].
    destruct (ServiceCall.command call) as [command|];
      [|split; [done|]; eexists _, _, _; split; [done|];
        split; [by right|]; split; [done|];
        by intros (? & ? & ? & ? & _ & _ & _ & ? & _)].
    destruct (Py.truthy device_id && Py.truthy capability && Py.truthy command)
      eqn:Htruthy; cbn [negb];
      [|split; [done|]; eexists _, _, _; split; [done|];
        split; [by right|]; split; [done|];
        intros (? & ? & ? & ? & _ & [= <-] & [= <-] & [= <-] & ? & _);
        congruence].
    destruct entries as [|entry entries];
      [split; [done|]; eexists _, _, _; split; [done|];
       split; [by right|]; split; [done|];
       by intros (? & ? & ? & ? & ? & _)|].
    destruct (execute_device_command entry device_id capability command _ _)
      as [[]|ex] eqn:Hexec;
      (split; [done|]; eexists _, _, _; split; [done|]).
    + split; [by left|]. split; [|done]. intros _.
      by exists entry, device_id, capability, command.
    + split; [by right|]. split; [done|].
      intros (? & ? & ? & ? & [= <-] & [= <-] & [= <-] & [= <-] & _ & ?).
      congruence.
  - unfold execute_scene_service.
    destruct scene_id as [scene|];
      [|split; [done|]; eexists _, _, _; split; [done|];
        split; [by right|]; split; [done|];
        by intros (? & ? & _ & ? & _)].
    destruct (Py.truthy scene) eqn:Htruthy; cbn [negb];
      [|split; [done|]; eexists _, _, _; split; [done|];
        split; [by right|]; split; [done|];
        intros (? & ? & _ & [= <-] & ? & _); congruence].
    destruct scene_entries as [|entry scene_entries];
      [split; [done|]; eexists _, _, _; split; [done|];
       split; [by right|]; split; [done|];
       by intros (? & ? & ? & _)|].
    destruct (execute_scene (Entry.config entry) scene) as [[]|ex] eqn:Hexec;
      (split; [done|]; eexists _, _, _; split; [done|]).
    + split; [by left|]. split; [|done]. intros _. by exists entry, scene.
    + split; [by right|]. split; [done|].
      intros (? & ? & [= <-] & [= <-] & _ & ?). congruence.
Qed.

Lemma service_handlers_log_and_return_witness :
  fst (send_command_service [] failing_execute_device_command sample_call)
  = Py.Returned ()
  ∧ fst (execute_scene_service [] (λ _ _, Py.Returned ()) None)
    = Py.Returned ().
Proof.
  destruct (service_handlers_log_and_return [] failing_execute_device_command
              sample_call [] (λ _ _, Py.Returned ()) None)
    as [[Hsend _] [Hscene _]].
  split; [exact Hsend | exact Hscene].
Defined.

(** ** Removing an entry *)

Lemma tolerate_forbidden_tolerated result already_removed :
  fst (tolerate_forbidden result already_removed) = None
  ↔ tolerated result = true.
Proof.
  unfold tolerate_forbidden, tolerated.
  destruct result as [[]|[status|name]]; simpl; [done| |done].
  destruct (decide (status = HTTPStatus.FORBIDDEN)) as [Heq|Hne]; simpl.
  - by rewrite bool_decide_eq_true_2.
  - by rewrite bool_decide_eq_false_2.
Qed.

Lemma tolerate_forbidden_raises result already_removed ex :
  fst (tolerate_forbidden result already_removed) = Some ex
  → result = Py.Raised ex ∧ tolerated result = false.
Proof.
  unfold tolerate_forbidden, tolerated.
  destruct result as [[]|[status|name]]; simpl; [done| |].
  - destruct (decide (status = HTTPStatus.FORBIDDEN)) as [Heq|Hne]; simpl;
      [done|].
    intros [= <-]. by rewrite bool_decide_eq_false_2.
  - by intros [= <-].
Qed.

Lemma tolerate_forbidden_only_logs result already_removed step :
  step ∈ snd (tolerate_forbidden result already_removed)
  → ∃ e, step = Logged e.
Proof.
  unfold tolerate_forbidden.
  destruct result as [[]|[status|name]]; simpl.
  - by intros ?%elem_of_nil.
  - destruct (decide (status = HTTPStatus.FORBIDDEN)); simpl.
    + intros ->%list_elem_of_singleton. by eexists.
    + by intros ?%elem_of_nil.
  - by intros ?%elem_of_nil.
Qed.

Ltac removal_cases Hin :=
  repeat (rewrite elem_of_cons in Hin || rewrite elem_of_app in Hin
          || rewrite elem_of_nil in Hin);
  decompose [or] Hin; try clear Hin; try done; try congruence;
  match goal with
  | H : ?step ∈ ?steps, Hnot : ∀ app_id, DeleteApp app_id ∉ ?steps |- _ =>
      by apply Hnot in H
  | H : ?step ∈ ?steps, Hnot : UnloadSmartappEndpoint ∉ ?steps |- _ =>
      by apply Hnot in H
  end.

Ltac removal_step_listed :=
  repeat (rewrite elem_of_cons || rewrite elem_of_app); auto 12.

(** X18.  [async_remove_entry] always asks first for the deletion of the
    installed app.  It asks for the deletion of the app when and only when
    that first deletion succeeded or failed with status 403 and at most one
    of the listed entries has the app id of the entry; it asks the host to
    unload the endpoint when and only when, moreover, the deletion of the
    app succeeded or failed with status 403 and exactly one entry is
    listed.  It returns normally exactly when every deletion it asked for
    succeeded or failed with status 403, and otherwise raises the exception
    of the deletion that failed. *)
Theorem async_remove_entry_spec
    (delete_installed_app delete_app : string → Py.outcome unit)
    (all_entries : list Entry.t) (entry : Entry.t) :
  let result :=
    async_remove_entry delete_installed_app delete_app all_entries entry in
  let first_ok :=
    tolerated (delete_installed_app (Entry.installed_app_id entry)) in
  let shared :=
    (1 <? List.length
            (filter (λ other, Entry.app_id other = Entry.app_id entry)
               all_entries))%nat in
  let second_ok := tolerated (delete_app (Entry.app_id entry)) in
  head (snd result) = Some (DeleteInstalledApp (Entry.installed_app_id entry))
  ∧ (DeleteApp (Entry.app_id entry) ∈ snd result
     ↔ first_ok = true ∧ shared = false)
  ∧ (∀ app_id, DeleteApp app_id ∈ snd result → app_id = Entry.app_id entry)
  ∧ (UnloadSmartappEndpoint ∈ snd result
     ↔ first_ok = true ∧ shared = false ∧ second_ok = true
       ∧ List.length all_entries = 1%nat)
  ∧ (fst result = Py.Returned ()
     ↔ first_ok = true ∧ (shared = true ∨ second_ok = true))
  ∧ (∀ ex, fst result = Py.Raised ex →
           (first_ok = false
            ∧ delete_installed_app (Entry.installed_app_id entry)
              = Py.Raised ex)
           ∨ (first_ok = true ∧ shared = false ∧ second_ok = false
              ∧ delete_app (Entry.app_id entry) = Py.Raised ex)).
Proof.
  intros result first_ok shared second_ok.
  subst result first_ok shared second_ok.
  unfold async_remove_entry.
  set (installed := Entry.installed_app_id entry).
  set (app := Entry.app_id entry).
  set (first := tolerate_forbidden (delete_installed_app installed) _).
  set (second := tolerate_forbidden (delete_app app) _).
  pose proof (tolerate_forbidden_tolerated (delete_installed_app installed)
                (Log DEBUG "Installed app %s has already been removed"
                   [AStr installed])) as Hfirst.
  pose proof (tolerate_forbidden_raises (delete_installed_app installed)
                (Log DEBUG "Installed app %s has already been removed"
                   [AStr installed])) as Hfirst_raises.
  pose proof (tolerate_forbidden_only_logs (delete_installed_app installed)
                (Log DEBUG "Installed app %s has already been removed"
                   [AStr installed])) as Hfirst_logs.
  pose proof (tolerate_forbidden_tolerated (delete_app app)
                (Log DEBUG "App %s has already been removed" [AStr app]))
    as Hsecond.
  pose proof (tolerate_forbidden_raises (delete_app app)
                (Log DEBUG "App %s has already been removed" [AStr app]))
    as Hsecond_raises.
  pose proof (tolerate_forbidden_only_logs (delete_app app)
                (Log DEBUG "App %s has already been removed" [AStr app]))
    as Hsecond_logs.
  fold first in Hfirst, Hfirst_raises, Hfirst_logs.
  fold second in Hsecond, Hsecond_raises, Hsecond_logs.
  assert (∀ app_id, DeleteApp app_id ∉ snd first) as Hfirst_app
    by (intros ? [? ?]%Hfirst_logs; done).
  assert (UnloadSmartappEndpoint ∉ snd first) as Hfirst_unload
    by (intros [? ?]%Hfirst_logs; done).
  assert (∀ app_id, DeleteApp app_id ∉ snd second) as Hsecond_app
    by (intros ? [? ?]%Hsecond_logs; done).
  assert (UnloadSmartappEndpoint ∉ snd second) as Hsecond_unload
    by (intros [? ?]%Hsecond_logs; done).
  clearbody first second.
  destruct first as [[ex1|] steps_first]; simpl in *.
  { destruct (Hfirst_raises ex1 eq_refl) as [Hraised1 Hnot1].
    rewrite Hnot1.
    split; [done|]. split.
    { split; [|by intros [? _]]. intros Hin. removal_cases Hin. }
    split; [intros app_id Hin; removal_cases Hin|].
    split.
    { split; [|by intros [? _]]. intros Hin. removal_cases Hin. }
    split; [split; [done | by intros [? _]]|].
    intros ex [= <-]. by left. }
  assert (tolerated (delete_installed_app installed) = true) as Hok1
    by by apply Hfirst.
  rewrite Hok1.
  destruct (1 <? _)%nat eqn:Hshared; simpl.
  { split; [done|]. split.
    { split; [|by intros [_ ?]]. intros Hin. removal_cases Hin. }
    split; [intros app_id Hin; removal_cases Hin|].
    split.
    { split; [|by intros (_ & ? & _)]. intros Hin. removal_cases Hin. }
    split; [split; [intros _; split; [done | by left] | done]|done]. }
  destruct second as [[ex2|] steps_second]; simpl in *.
  { destruct (Hsecond_raises ex2 eq_refl) as [Hraised2 Hnot2].
    rewrite Hnot2.
    split; [done|]. split.
    { split; [done|]. intros _. removal_step_listed. }
    split; [intros app_id Hin; removal_cases Hin|].
    split.
    { split; [|by intros (_ & _ & ? & _)]. intros Hin. removal_cases Hin. }
    split; [split; [done | by intros [_ [?|?]]]|].
    intros ex [= <-]. by right. }
  assert (tolerated (delete_app app) = true) as Hok2 by by apply Hsecond.
  rewrite Hok2.
  destruct (List.length all_entries =? 1)%nat eqn:Hone; simpl.
  - apply Nat.eqb_eq in Hone.
    split; [done|]. split.
    { split; [done|]. intros _. removal_step_listed. }
    split; [intros app_id Hin; removal_cases Hin|].
    split.
    { split; [done|]. intros _. removal_step_listed. }
    split; [split; [intros _; split; [done | by right] | done]|done].
  - apply Nat.eqb_neq in Hone.
    split; [done|]. split.
    { split; [done|]. intros _. removal_step_listed. }
    split; [intros app_id Hin; removal_cases Hin|].
    split.
    { split; [|by intros (_ & _ & _ & ?)]. intros Hin. removal_cases Hin. }
    split; [split; [intros _; split; [done | by right] | done]|done].
Qed.

Lemma async_remove_entry_spec_witness :
  DeleteApp "app-1"
  ∈ snd (async_remove_entry
           (λ _, Py.Raised (Py.ClientResponseError HTTPStatus.FORBIDDEN))
           (λ _, Py.Returned ())
           [Entry.mk "entry-1" "app-1" "installed-app-1" sample_entry]
           (Entry.mk "entry-1" "app-1" "installed-app-1" sample_entry)).
Proof.
  pose proof (async_remove_entry_spec
                (λ _, Py.Raised (Py.ClientResponseError HTTPStatus.FORBIDDEN))
                (λ _, Py.Returned ())
                [Entry.mk "entry-1" "app-1" "installed-app-1" sample_entry]
                (Entry.mk "entry-1" "app-1" "installed-app-1" sample_entry))
    as Hspec.
  cbv zeta in Hspec. destruct Hspec as (_ & Happ & _).
  apply Happ. split; vm_compute; reflexivity.
Defined.

(** ** The state of a media player *)




